(** * Resilient persistence layer of the option-trade monitor

    A shallow embedding of [utils/mysql_handler.py], [utils/db_health_checker.py]
    and [utils/data_handler.py].

    Python methods mutate [self] and talk to the outside world (the MySQL
    server through pymysql, the wall clock, the CSV file through pandas).
    A method is therefore a function from the object's state and a [World]
    to a result, the new state and the new world.  The world carries an
    [Oracle] that answers every external call, a counter of the answers
    consumed so far, and the trace of what happened.  Every theorem
    quantifies over the oracle: it holds whatever the server, the clock and
    the file system do.

    Conventions of the model:
    - clock readings ([time.time()], [datetime.now()]) are integers
      (seconds); subtraction and comparison are exact;
    - every method runs to completion from a single thread, so the handler's
      lock is free whenever a method asks for it;
    - logging calls are left out: none of them changes the control flow of the
      methods modelled here;
    - [DATABASE_CONFIG] and [DATA_CONFIG] come from the [config] module,
      which is not part of these sources: they are parameters ([MySQL.Config],
      [Env.DataConfig]) with the keys the code reads;
    - pymysql decides how a ping or a statement ends and whether the
      connection object still reports [open] afterwards ([open] is true as
      long as the object holds a socket, also after a failed reconnect), so
      the oracle answers both. *)

From Stdlib Require Import ZArith List Ascii String Bool Lia.
From Stdlib Require Import Floats.SpecFloat.
Import ListNotations.
Local Open Scope string_scope.
Local Open Scope list_scope.
Local Open Scope Z_scope.

(** ** Python values *)

Module Py.

(** The values that travel through the modelled code.  A [datetime] is
    its clock reading; a float is an IEEE 754 binary64 number;
    [PTimeText fmt t] is the text of the datetime [t] in the format
    [fmt] ([isoformat], [strftime]). *)
Inductive value : Type :=
| PNone
| PBool (b : bool)
| PInt (z : Z)
| PFloat (f : spec_float)
| PStr (s : string)
| PTime (t : Z)
| PTimeText (format : string) (t : Z).


(** A [dict] with string keys, in insertion order. *)
Definition dict : Type := list (string * value).

Fixpoint lookup (k : string) (d : dict) : option value :=
  match d with
  | [] => None
  | (k', v) :: d' => if String.eqb k k' then Some v else lookup k d'
  end.

(** [d.get(k, default)] *)
Definition get_or (d : dict) (k : string) (default : value) : value :=
  match lookup k d with
  | Some v => v
  | None => default
  end.

(** [d.get(k)] *)
Definition get (d : dict) (k : string) : value := get_or d k PNone.

Definition keys (d : dict) : list string := map fst d.

(** binary64 arithmetic *)
Definition float_of_int (z : Z) : spec_float := binary_normalize 53 1024 z 0 false.
Definition float_div : spec_float -> spec_float -> spec_float := SFdiv 53 1024.
Definition float_mul : spec_float -> spec_float -> spec_float := SFmul 53 1024.

(** An int as the binary number it is, whatever its size: nothing is
    rounded. *)
Definition exact_of_int (z : Z) : spec_float :=
  match z with
  | Z0 => S754_zero false
  | Zpos p => S754_finite false p 0
  | Zneg p => S754_finite true p 0
  end.

(** [a / b] on two ints with [b <> 0]: Python divides the ints
    themselves and rounds the exact quotient once, to the nearest float.
    Where the quotient is too large for a float Python raises
    [OverflowError]; here it is the infinity. *)
Definition int_truediv (a b : Z) : spec_float :=
  float_div (exact_of_int a) (exact_of_int b).

(** [x / n] for a float [x] and an int [n]: the int is made a float
    first. *)
Definition float_truediv_int (x : spec_float) (n : Z) : spec_float :=
  float_div x (float_of_int n).

(** [x * n] for a float [x] and an int [n] *)
Definition float_mul_int (x : spec_float) (n : Z) : spec_float :=
  float_mul x (float_of_int n).

(** What a call gives back: a value, or an exception with its message. *)
Inductive result (A : Type) : Type :=
| Return (a : A)
| Raise (msg : string).
Arguments Return {A} a.
Arguments Raise {A} msg.

End Py.

(** ** The outside world *)

Module Env.

(** A table as pandas holds it: the column names and one dict per row. *)
Record DataFrame : Type := {
  df_columns : list string;
  df_rows : list Py.dict }.

(** How a network operation on an open connection ends.  A failure may or
    may not leave the connection object reporting [open]. *)
Inductive outcome : Type :=
| Done
| Failed (still_open : bool).

Inductive exec_result : Type :=
| Rows (rows : list Py.dict)
| ExecFailed (still_open : bool).

(** The answers of the outside world, indexed by the number of answers
    given before. *)
Record Oracle : Type := {
  clock : nat -> Z;
  connect_ok : nat -> bool;
  ping_result : nat -> outcome;
  close_ok : nat -> bool;
  exec_answer : nat -> exec_result;
  commit_result : nat -> outcome;
  rollback_ok : nat -> bool;
  stop_is_set : nat -> bool;
  path_exists : nat -> bool;
  csv_write_ok : nat -> bool;
  csv_content : nat -> Py.result DataFrame }.

Inductive method : Type :=
| m_connect | m_disconnect | m_ensure_connection
| m_execute_query | m_execute_insert | m_execute_batch_insert
| m_save_option_trade | m_get_recent_trades | m_health_check
| m_check_health | m_monitoring_loop | m_force_reconnect
| m_reset_statistics
| m_save_trade | m_save_to_csv | m_save_to_database
| m_load_historical_data | m_get_statistics.

Inductive statement : Type :=
| sql_health_check
| sql_insert_option_trade
| sql_recent_trades (by_stock : bool)
| sql_other (text : string).

(** What is recorded: method entries, calls that reach the server, and
    accesses to the CSV file. *)
Inductive event : Type :=
| Call (m : method)
| NetConnect (ok : bool)
| NetPing (r : outcome)
| NetClose (ok : bool)
| NetExecute (sql : statement) (params : list Py.value) (ok : bool)
| NetExecuteMany (sql : statement) (params_list : list (list Py.value)) (ok : bool)
| NetCommit (r : outcome)
| NetRollback (ok : bool)
| CsvWrite (header : bool) (row : Py.dict) (ok : bool)
| CsvRead (ok : bool).

(** [DATA_CONFIG] of the [config] module, which the sources import. *)
Record DataConfig : Type := {
  save_to_csv : bool;
  save_to_db : bool;
  csv_path : string }.

Record World : Type := {
  oracle : Oracle;
  tick : nat;
  trace : list event }.

Definition is_network (e : event) : bool :=
  match e with
  | NetConnect _ | NetPing _ | NetClose _ | NetExecute _ _ _
  | NetExecuteMany _ _ _ | NetCommit _ | NetRollback _ => true
  | _ => false
  end.

(** The events that run a statement on the server. *)
Definition is_statement (e : event) : bool :=
  match e with
  | NetExecute _ _ _ | NetExecuteMany _ _ _ | NetCommit _ | NetRollback _ => true
  | _ => false
  end.


Definition is_call (m : method) (e : event) : bool :=
  match e, m with
  | Call m_connect, m_connect
  | Call m_disconnect, m_disconnect
  | Call m_ensure_connection, m_ensure_connection
  | Call m_execute_query, m_execute_query
  | Call m_execute_insert, m_execute_insert
  | Call m_execute_batch_insert, m_execute_batch_insert
  | Call m_save_option_trade, m_save_option_trade
  | Call m_get_recent_trades, m_get_recent_trades
  | Call m_health_check, m_health_check
  | Call m_check_health, m_check_health
  | Call m_monitoring_loop, m_monitoring_loop
  | Call m_force_reconnect, m_force_reconnect
  | Call m_reset_statistics, m_reset_statistics
  | Call m_save_trade, m_save_trade
  | Call m_save_to_csv, m_save_to_csv
  | Call m_save_to_database, m_save_to_database
  | Call m_load_historical_data, m_load_historical_data
  | Call m_get_statistics, m_get_statistics => true
  | _, _ => false
  end.

Definition count (p : event -> bool) (t : list event) : nat :=
  List.length (filter p t).

(** The events of [w'] that [w] did not have yet. *)
Definition since (w w' : World) : list event :=
  skipn (List.length (trace w)) (trace w').

(** [w'] is [w] after the events [evs], with the same oracle. *)
Definition extends (w w' : World) (evs : list event) : Prop :=
  trace w' = trace w ++ evs /\ oracle w' = oracle w /\ (tick w <= tick w')%nat.

(** The events of [connect] and [_ensure_connection]. *)
Definition is_connection_event (e : event) : bool :=
  match e with
  | Call m_connect | Call m_ensure_connection | NetConnect _ | NetPing _ => true
  | _ => false
  end.

Definition is_csv_write (e : event) : bool :=
  match e with CsvWrite _ _ _ => true | _ => false end.

Definition is_close (e : event) : bool :=
  match e with NetClose _ => true | _ => false end.

(** The events of [connect]. *)
Definition is_connect_event (e : event) : bool :=
  match e with
  | Call m_connect | NetConnect _ => true
  | _ => false
  end.

(** The events of the handler's methods other than [disconnect]. *)
Definition is_handler_work (e : event) : bool :=
  match e with
  | Call m_connect | Call m_ensure_connection | Call m_execute_query
  | Call m_execute_insert | Call m_execute_batch_insert
  | Call m_save_option_trade | Call m_get_recent_trades | Call m_health_check
  | NetConnect _ | NetPing _ | NetExecute _ _ _ | NetExecuteMany _ _ _
  | NetCommit _ | NetRollback _ => true
  | _ => false
  end.

(** *** Programs over an object of type [S] and the world *)

Definition prog (S A : Type) : Type := S -> World -> A * S * World.

Definition ret {S A} (a : A) : prog S A := fun s w => (a, s, w).

Definition bind {S A B} (m : prog S A) (k : A -> prog S B) : prog S B :=
  fun s w => let '(a, s', w') := m s w in k a s' w'.

Definition get {S} : prog S S := fun s w => (s, s, w).

Definition put {S} (s' : S) : prog S unit := fun _ w => (tt, s', w).

(** The world after one more event, and after one more answer. *)
Definition logged (e : event) (w : World) : World :=
  {| oracle := oracle w; tick := tick w; trace := trace w ++ [e] |}.

Definition answered (w : World) : World :=
  {| oracle := oracle w; tick := Datatypes.S (tick w); trace := trace w |}.

Definition emit {S} (e : event) : prog S unit :=
  fun s w => (tt, s, logged e w).

(** Consume the next answer of the oracle. *)
Definition ask {S A} (field : Oracle -> nat -> A) : prog S A :=
  fun s w => (field (oracle w) (tick w), s, answered w).

Definition call {S} (m : method) : prog S unit := emit (Call m).

(** [time.time()] and [datetime.now()] *)
Definition now {S} : prog S Z := ask clock.


(** A program that keeps a property of its object. *)
Definition preserves {S A} (inv : S -> Prop) (m : prog S A) : Prop :=
  forall s w, inv s -> inv (snd (fst (m s w))).

(** A program whose events all satisfy [p], whatever the state and the
    world it starts from. *)
Definition confined (p : event -> bool) {S A} (m : prog S A) : Prop :=
  forall s w, exists evs, extends w (snd (m s w)) evs /\ forallb p evs = true.

End Env.

Declare Scope prog_scope.
Delimit Scope prog_scope with prog.
Notation "x <- m ;; k" := (Env.bind m (fun x => k))
  (at level 61, m at next level, right associativity) : prog_scope.
Notation "m ;; k" := (Env.bind m (fun _ => k))
  (at level 61, right associativity) : prog_scope.

(** ** utils/mysql_handler.py *)

Module MySQL.
Import Env.
Local Open Scope prog_scope.

(** The pymysql connection object, as far as the handler looks at it. *)
Record Connection : Type := { open : bool }.

(** [DATABASE_CONFIG] after the environment overrides. *)
Record Config : Type := {
  host : string;
  port : Z;
  user : string;
  password : string;
  database : string;
  charset : string;
  autocommit : option bool }.

Record MySQLHandler : Type := {
  connection : option Connection;
  last_ping_time : Z;
  ping_interval : Z;
  config : Config }.

(** [MySQLHandler.__init__] *)
Definition init (cfg : Config) : MySQLHandler :=
  {| connection := None;
     last_ping_time := 0;
     ping_interval := 300;
     config := cfg |}.

Definition set_connection (c : option Connection) : prog MySQLHandler unit :=
  h <- get ;;
  put {| connection := c;
         last_ping_time := last_ping_time h;
         ping_interval := ping_interval h;
         config := config h |}.

Definition set_last_ping_time (t : Z) : prog MySQLHandler unit :=
  h <- get ;;
  put {| connection := connection h;
         last_ping_time := t;
         ping_interval := ping_interval h;
         config := config h |}.

(** [self.connection and self.connection.open] *)
Definition connected (h : MySQLHandler) : bool :=
  match connection h with
  | Some c => open c
  | None => false
  end.

(** [self.config.get('autocommit', True)] *)
Definition autocommit_on (h : MySQLHandler) : bool :=
  match autocommit (config h) with
  | Some b => b
  | None => true
  end.

(** [connect]: nothing to do on an open connection; otherwise
    [pymysql.connect], and on success the time of the connection is
    recorded; on an exception the connection is reset. *)
Definition connect : prog MySQLHandler bool :=
  call m_connect ;;
  h <- get ;;
  if connected h then ret true
  else
    ok <- ask connect_ok ;;
    emit (NetConnect ok) ;;
    if ok then
      set_connection (Some {| open := true |}) ;;
      t <- now ;;
      set_last_ping_time t ;;
      ret true
    else
      set_connection None ;;
      ret false.

(** [disconnect]: closes and forgets the connection if there is one; an
    exception of [close] is swallowed and the connection is kept. *)
Definition disconnect : prog MySQLHandler unit :=
  call m_disconnect ;;
  h <- get ;;
  match connection h with
  | Some _ =>
      ok <- ask close_ok ;;
      emit (NetClose ok) ;;
      if ok then set_connection None else ret tt
  | None => ret tt
  end.

(** A failed operation may have closed the socket under the handler. *)
Definition set_open (b : bool) : prog MySQLHandler unit :=
  h <- get ;;
  match connection h with
  | Some _ => set_connection (Some {| open := b |})
  | None => ret tt
  end.

(** The second half of [_ensure_connection]: the state check. *)
Definition check_connection_state : prog MySQLHandler bool :=
  h <- get ;;
  if connected h then ret true else connect.

(** [_ensure_connection] *)
Definition _ensure_connection : prog MySQLHandler bool :=
  call m_ensure_connection ;;
  current_time <- now ;;
  h <- get ;;
  if current_time - last_ping_time h >? ping_interval h then
    if connected h then
      r <- ask ping_result ;;
      emit (NetPing r) ;;
      match r with
      | Done =>
          set_last_ping_time current_time ;;
          check_connection_state
      | Failed still_open =>
          set_open still_open ;;
          connect
      end
    else check_connection_state
  else check_connection_state.

(** Whether [_ensure_connection], called in the world [w], pings: the
    time since [last_ping_time] exceeds the interval and the connection is
    open. *)
Definition ping_due (h : MySQLHandler) (w : World) : bool :=
  (clock (oracle w) (tick w) - last_ping_time h >? ping_interval h) && connected h.

(** [execute_query]: [None] when no connection can be had or the
    statement fails, the fetched rows otherwise. *)
Definition execute_query (sql : statement) (params : list Py.value)
  : prog MySQLHandler (option (list Py.dict)) :=
  call m_execute_query ;;
  ok <- _ensure_connection ;;
  if negb ok then ret None
  else
    r <- ask exec_answer ;;
    match r with
    | Rows rows =>
        emit (NetExecute sql params true) ;;
        ret (Some rows)
    | ExecFailed still_open =>
        emit (NetExecute sql params false) ;;
        set_open still_open ;;
        ret None
    end.

(** The [except] branch of the two insert methods. *)
Definition rollback_and_fail : prog MySQLHandler bool :=
  h <- get ;;
  if negb (autocommit_on h) then
    ok <- ask rollback_ok ;;
    emit (NetRollback ok) ;;
    ret false
  else ret false.

(** The end of the [try] branch of the two insert methods. *)
Definition commit_if_needed : prog MySQLHandler bool :=
  h <- get ;;
  if negb (autocommit_on h) then
    c <- ask commit_result ;;
    emit (NetCommit c) ;;
    match c with
    | Done => ret true
    | Failed still_open => set_open still_open ;; rollback_and_fail
    end
  else ret true.

(** [execute_insert] *)
Definition execute_insert (sql : statement) (params : list Py.value)
  : prog MySQLHandler bool :=
  call m_execute_insert ;;
  ok <- _ensure_connection ;;
  if negb ok then ret false
  else
    r <- ask exec_answer ;;
    match r with
    | Rows _ =>
        emit (NetExecute sql params true) ;;
        commit_if_needed
    | ExecFailed still_open =>
        emit (NetExecute sql params false) ;;
        set_open still_open ;;
        rollback_and_fail
    end.

(** [execute_batch_insert]: the connection is ensured first, the empty
    list is looked at second. *)
Definition execute_batch_insert (sql : statement) (params_list : list (list Py.value))
  : prog MySQLHandler bool :=
  call m_execute_batch_insert ;;
  ok <- _ensure_connection ;;
  if negb ok then ret false
  else
    match params_list with
    | [] => ret true
    | _ :: _ =>
        r <- ask exec_answer ;;
        match r with
        | Rows _ =>
            emit (NetExecuteMany sql params_list true) ;;
            commit_if_needed
        | ExecFailed still_open =>
            emit (NetExecuteMany sql params_list false) ;;
            set_open still_open ;;
            rollback_and_fail
        end
    end.

(** The parameters of the insert of [save_option_trade]; [default_time]
    is the [datetime.now()] that the first [get] takes as its default. *)
Definition option_trade_params (trade_data : Py.dict) (default_time : Z)
  : list Py.value :=
  let expiry_date :=
    match Py.get trade_data "expiry_date" with
    | Py.PStr "" => Py.PNone
    | v => v
    end in
  [ Py.get_or trade_data "trade_time" (Py.PTime default_time);
    Py.get_or trade_data "stock_code" (Py.PStr "");
    Py.get_or trade_data "stock_name" (Py.PStr "");
    Py.get trade_data "stock_price";
    Py.get_or trade_data "option_code" (Py.PStr "");
    Py.get_or trade_data "option_type" (Py.PStr "");
    Py.get trade_data "strike_price";
    expiry_date;
    Py.get_or trade_data "volume" (Py.PInt 0);
    Py.get_or trade_data "turnover" (Py.PInt 0);
    Py.get trade_data "premium";
    Py.get_or trade_data "trade_direction" (Py.PStr "");
    Py.get trade_data "bid_price";
    Py.get trade_data "ask_price";
    Py.get trade_data "last_price";
    Py.get trade_data "change_rate";
    Py.get trade_data "implied_volatility";
    Py.get trade_data "delta_value";
    Py.get trade_data "gamma_value";
    Py.get trade_data "theta_value";
    Py.get trade_data "vega_value";
    Py.get trade_data "open_interest";
    Py.get trade_data "time_to_expiry";
    Py.get_or trade_data "moneyness" (Py.PStr "");
    Py.get_or trade_data "data_source" (Py.PStr "futu") ].

(** [save_option_trade] *)
Definition save_option_trade (trade_data : Py.dict) : prog MySQLHandler bool :=
  call m_save_option_trade ;;
  t <- now ;;
  execute_insert sql_insert_option_trade (option_trade_params trade_data t).

(** [get_recent_trades]: the rows of the query, or the empty list. *)
Definition get_recent_trades (stock_code : option string) (hours : Z)
  : prog MySQLHandler (list Py.dict) :=
  call m_get_recent_trades ;;
  t <- now ;;
  let since_time := Py.PTime (t - hours * 3600) in
  r <- match stock_code with
       | Some code =>
           if String.eqb code "" then execute_query (sql_recent_trades false) [since_time]
           else execute_query (sql_recent_trades true) [since_time; Py.PStr code]
       | None => execute_query (sql_recent_trades false) [since_time]
       end ;;
  match r with
  | Some rows => ret rows
  | None => ret []
  end.

(** [health_check]: the probe statement answered with at least one row. *)
Definition health_check : prog MySQLHandler bool :=
  call m_health_check ;;
  r <- execute_query sql_health_check [] ;;
  match r with
  | Some rows => ret (0 <? Z.of_nat (List.length rows))
  | None => ret false
  end.

(** [get_connection_info] *)
Definition get_connection_info (h : MySQLHandler) : Py.dict :=
  [ ("host", Py.PStr (host (config h)));
    ("port", Py.PInt (port (config h)));
    ("database", Py.PStr (database (config h)));
    ("user", Py.PStr (user (config h)));
    ("connected", Py.PBool (connected h));
    ("last_ping", if last_ping_time h >? 0 then Py.PTime (last_ping_time h)
                  else Py.PNone) ].

End MySQL.

(** ** utils/db_health_checker.py *)

Module Health.
Import Env.
Local Open Scope prog_scope.

(** The monitoring thread, as far as the checker looks at it. *)
Record Thread : Type := { is_alive : bool }.

Record DatabaseHealthChecker : Type := {
  mysql_handler : option MySQL.MySQLHandler;
  last_check_time : option Z;
  check_interval : Z;
  is_healthy : bool;
  health_check_thread : option Thread;
  stop_event : bool;
  check_count : Z;
  success_count : Z;
  failure_count : Z;
  last_failure_time : option Z;
  last_failure_reason : option string }.

(** [__init__]; [make_handler] is what [MySQLHandler()] gives when it is
    called. *)
Definition init (cfg : DataConfig) (make_handler : Py.result MySQL.MySQLHandler)
  : DatabaseHealthChecker :=
  {| mysql_handler :=
       if save_to_db cfg then
         match make_handler with
         | Py.Return h => Some h
         | Py.Raise _ => None
         end
       else None;
     last_check_time := None;
     check_interval := 60;
     is_healthy := false;
     health_check_thread := None;
     stop_event := false;
     check_count := 0;
     success_count := 0;
     failure_count := 0;
     last_failure_time := None;
     last_failure_reason := None |}.

Definition set_mysql_handler (c : DatabaseHealthChecker) (h : MySQL.MySQLHandler)
  : DatabaseHealthChecker :=
  {| mysql_handler := Some h;
     last_check_time := last_check_time c;
     check_interval := check_interval c;
     is_healthy := is_healthy c;
     health_check_thread := health_check_thread c;
     stop_event := stop_event c;
     check_count := check_count c;
     success_count := success_count c;
     failure_count := failure_count c;
     last_failure_time := last_failure_time c;
     last_failure_reason := last_failure_reason c |}.

(** A method call on [self.mysql_handler]; on [None] the attribute
    lookup raises. *)
Definition on_handler {A} (m : prog MySQL.MySQLHandler A)
  : prog DatabaseHealthChecker (Py.result A) :=
  fun c w =>
    match mysql_handler c with
    | Some h => let '(a, h', w') := m h w in (Py.Return a, set_mysql_handler c h', w')
    | None => (Py.Raise "'NoneType' object has no attribute", c, w)
    end.

(** [self.check_count += 1; self.last_check_time = datetime.now()] *)
Definition begin_check (t : Z) (c : DatabaseHealthChecker) : DatabaseHealthChecker :=
  {| mysql_handler := mysql_handler c;
     last_check_time := Some t;
     check_interval := check_interval c;
     is_healthy := is_healthy c;
     health_check_thread := health_check_thread c;
     stop_event := stop_event c;
     check_count := check_count c + 1;
     success_count := success_count c;
     failure_count := failure_count c;
     last_failure_time := last_failure_time c;
     last_failure_reason := last_failure_reason c |}.

(** [self.success_count += 1; self.is_healthy = True] *)
Definition record_success (c : DatabaseHealthChecker) : DatabaseHealthChecker :=
  {| mysql_handler := mysql_handler c;
     last_check_time := last_check_time c;
     check_interval := check_interval c;
     is_healthy := true;
     health_check_thread := health_check_thread c;
     stop_event := stop_event c;
     check_count := check_count c;
     success_count := success_count c + 1;
     failure_count := failure_count c;
     last_failure_time := last_failure_time c;
     last_failure_reason := last_failure_reason c |}.

(** [self.failure_count += 1; self.is_healthy = False;
     self.last_failure_time = datetime.now(); self.last_failure_reason = reason] *)
Definition record_failure (t : Z) (reason : string) (c : DatabaseHealthChecker)
  : DatabaseHealthChecker :=
  {| mysql_handler := mysql_handler c;
     last_check_time := last_check_time c;
     check_interval := check_interval c;
     is_healthy := false;
     health_check_thread := health_check_thread c;
     stop_event := stop_event c;
     check_count := check_count c;
     success_count := success_count c;
     failure_count := failure_count c + 1;
     last_failure_time := Some t;
     last_failure_reason := Some reason |}.

Definition modify (f : DatabaseHealthChecker -> DatabaseHealthChecker)
  : prog DatabaseHealthChecker unit :=
  c <- get ;; put (f c).

(** The two failure branches of [check_health]. *)
Definition fail_check (reason : string) : prog DatabaseHealthChecker bool :=
  t <- now ;;
  modify (record_failure t reason) ;;
  ret false.

(** [check_health] *)
Definition check_health : prog DatabaseHealthChecker bool :=
  call m_check_health ;;
  c <- get ;;
  match mysql_handler c with
  | None => ret false
  | Some _ =>
      t <- now ;;
      modify (begin_check t) ;;
      health_result <- on_handler MySQL.health_check ;;
      match health_result with
      | Py.Return true =>
          modify record_success ;;
          ret true
      | Py.Return false => fail_check "Health check query failed"
      | Py.Raise msg => fail_check msg
      end
  end.

Definition thread_alive (c : DatabaseHealthChecker) : bool :=
  match health_check_thread c with
  | Some t => is_alive t
  | None => false
  end.

Definition set_thread (t : option Thread) (stop : bool) (c : DatabaseHealthChecker)
  : DatabaseHealthChecker :=
  {| mysql_handler := mysql_handler c;
     last_check_time := last_check_time c;
     check_interval := check_interval c;
     is_healthy := is_healthy c;
     health_check_thread := t;
     stop_event := stop;
     check_count := check_count c;
     success_count := success_count c;
     failure_count := failure_count c;
     last_failure_time := last_failure_time c;
     last_failure_reason := last_failure_reason c |}.

(** [start_monitoring]: the thread object is created and started; its
    body is [_monitoring_loop]. *)
Definition start_monitoring : prog DatabaseHealthChecker unit :=
  c <- get ;;
  if thread_alive c then ret tt
  else
    match mysql_handler c with
    | None => ret tt
    | Some _ => put (set_thread (Some {| is_alive := true |}) false c)
    end.

(** [stop_monitoring]: sets the event and joins for at most five
    seconds; [stop_is_set] of the oracle tells whether the thread saw the
    event in time. *)
Definition stop_monitoring : prog DatabaseHealthChecker unit :=
  c <- get ;;
  if thread_alive c then
    seen <- ask stop_is_set ;;
    put (set_thread (Some {| is_alive := negb seen |}) true c)
  else ret tt.

(** One turn of the [while] loop of [_monitoring_loop], after the stop
    event was found clear. *)
Definition monitoring_iteration : prog DatabaseHealthChecker unit :=
  check_health ;;
  c <- get ;;
  if negb (is_healthy c) then
    match mysql_handler c with
    | Some _ => on_handler MySQL.connect ;; ret tt
    | None => ret tt
    end
  else ret tt.

(** [_monitoring_loop], for at most [fuel] turns.  The event is set by
    another thread, so the oracle answers [is_set()]. *)
Fixpoint _monitoring_loop (fuel : nat) : prog DatabaseHealthChecker unit :=
  match fuel with
  | O => ret tt
  | S fuel' =>
      stop <- ask stop_is_set ;;
      if stop then ret tt
      else monitoring_iteration ;; _monitoring_loop fuel'
  end.

Definition optional_time_text (t : option Z) : Py.value :=
  match t with
  | Some t => Py.PTimeText "isoformat" t
  | None => Py.PNone
  end.

(** [get_health_status] *)
Definition get_health_status (c : DatabaseHealthChecker) : Py.dict :=
  let status :=
    [ ("is_healthy", Py.PBool (is_healthy c));
      ("last_check_time", optional_time_text (last_check_time c));
      ("check_count", Py.PInt (check_count c));
      ("success_count", Py.PInt (success_count c));
      ("failure_count", Py.PInt (failure_count c));
      ("success_rate",
        if check_count c >? 0
        then Py.PFloat (Py.float_mul_int (Py.int_truediv (success_count c) (check_count c)) 100)
        else Py.PInt 0);
      ("last_failure_time", optional_time_text (last_failure_time c));
      ("last_failure_reason",
        match last_failure_reason c with
        | Some r => Py.PStr r
        | None => Py.PNone
        end);
      ("monitoring_active",
        match health_check_thread c with
        | Some t => Py.PBool (is_alive t)
        | None => Py.PNone
        end) ] in
  match mysql_handler c with
  | Some h =>
      let connection_info := MySQL.get_connection_info h in
      List.app status
      [ ("database_host", Py.get connection_info "host");
        ("database_port", Py.get connection_info "port");
        ("database_name", Py.get connection_info "database");
        ("database_connected", Py.get_or connection_info "connected" (Py.PBool false));
        ("last_ping_time", Py.get connection_info "last_ping") ]
  | None => status
  end.

(** [force_reconnect] *)
Definition force_reconnect : prog DatabaseHealthChecker bool :=
  call m_force_reconnect ;;
  c <- get ;;
  match mysql_handler c with
  | None => ret false
  | Some _ =>
      d <- on_handler MySQL.disconnect ;;
      match d with
      | Py.Raise _ => ret false
      | Py.Return _ =>
          r <- on_handler MySQL.connect ;;
          match r with
          | Py.Raise _ => ret false
          | Py.Return success =>
              if success then check_health ;; ret true
              else ret false
          end
      end
  end.

(** [is_database_available] *)
Definition is_database_available (c : DatabaseHealthChecker) : bool :=
  is_healthy c && match mysql_handler c with Some _ => true | None => false end.

(** [reset_statistics] *)
Definition reset_statistics : prog DatabaseHealthChecker unit :=
  call m_reset_statistics ;;
  modify (fun c =>
    {| mysql_handler := mysql_handler c;
       last_check_time := last_check_time c;
       check_interval := check_interval c;
       is_healthy := is_healthy c;
       health_check_thread := health_check_thread c;
       stop_event := stop_event c;
       check_count := 0;
       success_count := 0;
       failure_count := 0;
       last_failure_time := None;
       last_failure_reason := None |}).

(** The calls a client or the monitoring thread can make on a checker. *)
Inductive operation : Type :=
| op_check_health
| op_force_reconnect
| op_monitoring_iteration
| op_monitoring_loop (fuel : nat)
| op_reset_statistics
| op_start_monitoring
| op_stop_monitoring.

Definition run (o : operation) : prog DatabaseHealthChecker unit :=
  match o with
  | op_check_health => check_health ;; ret tt
  | op_force_reconnect => force_reconnect ;; ret tt
  | op_monitoring_iteration => monitoring_iteration
  | op_monitoring_loop fuel => _monitoring_loop fuel
  | op_reset_statistics => reset_statistics
  | op_start_monitoring => start_monitoring
  | op_stop_monitoring => stop_monitoring
  end.

(** The states a checker is in between calls that run one after another,
    each to its end: the one [__init__] builds, and every state one more
    whole call leads to. *)
Inductive serial : DatabaseHealthChecker -> World -> Prop :=
| serial_init cfg make_handler w :
    serial (init cfg make_handler) w
| serial_step o c w c' w' :
    serial c w ->
    run o c w = (tt, c', w') ->
    serial c' w'.

(** *** Calls that overlap *)

(** [check_health] up to the probe: the guard and the two statements
    before the [try].  It tells whether the probe is to follow. *)
Definition check_health_begin : prog DatabaseHealthChecker bool :=
  call m_check_health ;;
  c <- get ;;
  match mysql_handler c with
  | None => ret false
  | Some _ =>
      t <- now ;;
      modify (begin_check t) ;;
      ret true
  end.

(** [check_health] from the probe on: the [try] block. *)
Definition check_health_finish : prog DatabaseHealthChecker bool :=
  health_result <- on_handler MySQL.health_check ;;
  match health_result with
  | Py.Return true =>
      modify record_success ;;
      ret true
  | Py.Return false => fail_check "Health check query failed"
  | Py.Raise msg => fail_check msg
  end.

(** Where the monitoring thread is: outside [check_health], or inside it
    with the probe still to come. *)
Inductive monitor : Type := outside | probing.

(** The operations that only the monitoring thread runs. *)
Definition by_thread (o : operation) : bool :=
  match o with
  | op_monitoring_iteration | op_monitoring_loop _ => true
  | _ => false
  end.

(** States of a checker whose monitoring thread runs beside a caller.
    [start_monitoring] starts [_monitoring_loop] in a thread of its own and
    no method of the checker takes a lock, so a whole call of the caller
    can fall between the two halves of the thread's [check_health]; the
    thread itself does nothing else until its probe is over.  These are
    some of the interleavings the source allows, not all of them. *)
Inductive reachable : DatabaseHealthChecker -> World -> monitor -> Prop :=
| reachable_init cfg make_handler w :
    reachable (init cfg make_handler) w outside
| reachable_call o c w m c' w' :
    reachable c w m ->
    (m = probing -> by_thread o = false) ->
    run o c w = (tt, c', w') ->
    reachable c' w' m
| reachable_begin c w c' w' :
    reachable c w outside ->
    thread_alive c = true ->
    check_health_begin c w = (true, c', w') ->
    reachable c' w' probing
| reachable_finish c w r c' w' :
    reachable c w probing ->
    check_health_finish c w = (r, c', w') ->
    reachable c' w' outside.

(** [check_health] called [n] times in a row: the result of each call
    and the checker as the call left it. *)
Fixpoint check_health_times (n : nat)
  : prog DatabaseHealthChecker (list (bool * DatabaseHealthChecker)) :=
  match n with
  | O => ret []
  | S n' =>
      r <- check_health ;;
      c <- get ;;
      rest <- check_health_times n' ;;
      ret ((r, c) :: rest)
  end.

(** The checker after the calls of [hist], started from [c]. *)
Fixpoint final_state (c : DatabaseHealthChecker)
    (hist : list (bool * DatabaseHealthChecker)) : DatabaseHealthChecker :=
  match hist with
  | [] => c
  | (_, c1) :: rest => final_state c1 rest
  end.

Fixpoint tally (b : bool) (results : list bool) : Z :=
  match results with
  | [] => 0
  | r :: rest => (if Bool.eqb r b then 1 else 0) + tally b rest
  end.

Definition successes (hist : list (bool * DatabaseHealthChecker)) : Z :=
  tally true (map fst hist).

Definition failures (hist : list (bool * DatabaseHealthChecker)) : Z :=
  tally false (map fst hist).

(** The checker as the most recent failing call left it. *)
Fixpoint last_failing (hist : list (bool * DatabaseHealthChecker))
  : option DatabaseHealthChecker :=
  match hist with
  | [] => None
  | (r, c) :: rest =>
      match last_failing rest with
      | Some c' => Some c'
      | None => if r then None else Some c
      end
  end.

(** [b; not b; b; ...], [n] results long. *)
Fixpoint alternating (b : bool) (n : nat) : list bool :=
  match n with
  | O => []
  | S n' => b :: alternating (negb b) n'
  end.

(** What one call with result [r] does to the status, from [c] to [c1]. *)
Definition call_accounts (c : DatabaseHealthChecker) (r : bool) (c1 : DatabaseHealthChecker)
  : Prop :=
  check_count c1 = check_count c + 1 /\
  (exists t, last_check_time c1 = Some t) /\
  if r then
    success_count c1 = success_count c + 1 /\
    failure_count c1 = failure_count c /\
    is_healthy c1 = true /\
    last_failure_time c1 = last_failure_time c /\
    last_failure_reason c1 = last_failure_reason c
  else
    failure_count c1 = failure_count c + 1 /\
    success_count c1 = success_count c /\
    is_healthy c1 = false /\
    (exists t, last_failure_time c1 = Some t) /\
    last_failure_reason c1 = Some "Health check query failed".

Fixpoint each_call_accounts (c : DatabaseHealthChecker)
    (hist : list (bool * DatabaseHealthChecker)) : Prop :=
  match hist with
  | [] => True
  | (r, c1) :: rest => call_accounts c r c1 /\ each_call_accounts c1 rest
  end.

(** The probes that [n] calls of [check_health] in a row run on the
    handler [h] from the world [w] on: for each the answer of
    [health_check], the clock reading the call starts with and the clock
    reading a failure is stamped with.  A call that fails reads the clock
    once more than one that succeeds. *)
Fixpoint probes (n : nat) (h : MySQL.MySQLHandler) (w : World) : list (bool * Z * Z) :=
  match n with
  | O => []
  | S n' =>
      let '(answer, h', w1) :=
        MySQL.health_check h (answered (logged (Call m_check_health) w)) in
      (answer, clock (oracle w) (tick w), clock (oracle w1) (tick w1))
      :: probes n' h' (if answer then w1 else answered w1)
  end.

Definition answers (ps : list (bool * Z * Z)) : list bool :=
  map (fun p => fst (fst p)) ps.

(** What one call does to the status, from [c] to [c1], when its probe is
    [p]: the result is the answer of the probe, and the counters, the flag
    and the times follow it. *)
Definition call_follows (c : DatabaseHealthChecker) (p : bool * Z * Z) (r : bool)
    (c1 : DatabaseHealthChecker) : Prop :=
  let '(answer, started, failed) := p in
  r = answer /\
  check_count c1 = check_count c + 1 /\
  last_check_time c1 = Some started /\
  if answer then
    success_count c1 = success_count c + 1 /\
    failure_count c1 = failure_count c /\
    is_healthy c1 = true /\
    last_failure_time c1 = last_failure_time c /\
    last_failure_reason c1 = last_failure_reason c
  else
    failure_count c1 = failure_count c + 1 /\
    success_count c1 = success_count c /\
    is_healthy c1 = false /\
    last_failure_time c1 = Some failed /\
    last_failure_reason c1 = Some "Health check query failed".

Fixpoint each_call_follows (c : DatabaseHealthChecker) (ps : list (bool * Z * Z))
    (hist : list (bool * DatabaseHealthChecker)) : Prop :=
  match ps, hist with
  | [], [] => True
  | p :: ps', (r, c1) :: rest => call_follows c p r c1 /\ each_call_follows c1 ps' rest
  | _, _ => False
  end.

(** A property of the three counters, read off a checker. *)
Definition on_counters (inv : Z -> Z -> Z -> Prop) (c : DatabaseHealthChecker) : Prop :=
  inv (check_count c) (success_count c) (failure_count c).

(** The counters add up. *)
Definition balanced : DatabaseHealthChecker -> Prop :=
  on_counters (fun checks successes failures => checks = successes + failures).

(** No counter is negative. *)
Definition counted : DatabaseHealthChecker -> Prop :=
  on_counters (fun checks successes failures =>
                 0 <= checks /\ 0 <= successes /\ 0 <= failures).

End Health.

(** ** utils/data_handler.py *)

Module Data.
Import Env.
Local Open Scope prog_scope.

(** *** Tables *)

Definition bind_result {A B} (r : Py.result A) (k : A -> Py.result B) : Py.result B :=
  match r with
  | Py.Return a => k a
  | Py.Raise msg => Py.Raise msg
  end.

Fixpoint add_new (seen : list string) (ks : list string) : list string :=
  match ks with
  | [] => seen
  | k :: ks' =>
      if existsb (String.eqb k) seen then add_new seen ks'
      else add_new (List.app seen [k]) ks'
  end.

(** [pd.DataFrame(records)]: the columns are the keys in the order in
    which they first appear. *)
Definition DataFrame_of_records (records : list Py.dict) : DataFrame :=
  {| df_columns := fold_left (fun seen r => add_new seen (Py.keys r)) records [];
     df_rows := records |}.

(** [pd.DataFrame()] *)
Definition empty_frame : DataFrame := {| df_columns := []; df_rows := [] |}.

(** [df.empty]: some axis has length zero. *)
Definition empty (df : DataFrame) : bool :=
  match df_columns df, df_rows df with
  | [], _ => true
  | _, [] => true
  | _ :: _, _ :: _ => false
  end.

Definition has_column (df : DataFrame) (name : string) : bool :=
  existsb (String.eqb name) (df_columns df).

(** [df[name]]; a [KeyError] shows the key in quotes. *)
Definition column (df : DataFrame) (name : string) : Py.result (list Py.value) :=
  if has_column df name
  then Py.Return (map (fun r => Py.get r name) (df_rows df))
  else Py.Raise (String.append "'" (String.append name "'")).

Fixpoint dict_set (k : string) (v : Py.value) (d : Py.dict) : Py.dict :=
  match d with
  | [] => [(k, v)]
  | (k', v') :: d' =>
      if String.eqb k k' then (k, v) :: d' else (k', v') :: dict_set k v d'
  end.

Fixpoint set_cells (name : string) (rows : list Py.dict) (cells : list Py.value)
  : list Py.dict :=
  match rows, cells with
  | r :: rows', c :: cells' => dict_set name c r :: set_cells name rows' cells'
  | _, _ => rows
  end.

(** [df[name] = cells] *)
Definition set_column (df : DataFrame) (name : string) (cells : list Py.value)
  : DataFrame :=
  {| df_columns := if has_column df name then df_columns df
                   else List.app (df_columns df) [name];
     df_rows := set_cells name (df_rows df) cells |}.

(** [df[df[name] >= cutoff]]; a missing time compares false. *)
Definition rows_since (df : DataFrame) (name : string) (cutoff : Z) : DataFrame :=
  {| df_columns := df_columns df;
     df_rows := filter (fun r => match Py.get r name with
                                 | Py.PTime t => cutoff <=? t
                                 | _ => false
                                 end) (df_rows df) |}.

(** The pandas operations on a column that the handler uses.  pandas is
    a library: its aggregations are parameters of the model. *)
Record Pandas : Type := {
  to_datetime : list Py.value -> Py.result (list Py.value);
  nunique : list Py.value -> Z;
  col_sum : list Py.value -> Py.result Py.value;
  col_mean : list Py.value -> Py.result Py.value;
  col_max : list Py.value -> Py.result Py.value;
  strftime : Py.value -> string -> Py.result Py.value }.

(** *** The handler *)

Record DataHandler : Type := {
  mysql_handler : option MySQL.MySQLHandler;
  data_config : DataConfig }.

(** A method call on [self.mysql_handler]. *)
Definition on_handler {A} (m : prog MySQL.MySQLHandler A)
  : prog DataHandler (Py.result A) :=
  fun d w =>
    match mysql_handler d with
    | Some h =>
        let '(a, h', w') := m h w in
        (Py.Return a, {| mysql_handler := Some h'; data_config := data_config d |}, w')
    | None => (Py.Raise "'NoneType' object has no attribute", d, w)
    end.

(** [_save_to_csv]: appends the row, with the header when the file is
    new; every exception is swallowed; there is no [return]. *)
Definition _save_to_csv (trade_info : Py.dict) : prog DataHandler Py.value :=
  call m_save_to_csv ;;
  present <- ask path_exists ;;
  ok <- ask csv_write_ok ;;
  emit (CsvWrite (negb present) trade_info ok) ;;
  ret Py.PNone.

(** [_save_to_database] *)
Definition _save_to_database (trade_info : Py.dict) : prog DataHandler bool :=
  call m_save_to_database ;;
  d <- get ;;
  match mysql_handler d with
  | None => ret false
  | Some _ =>
      r <- on_handler (MySQL.save_option_trade trade_info) ;;
      match r with
      | Py.Return success => ret success
      | Py.Raise _ => ret false
      end
  end.

(** [save_trade]: both sinks in turn; the results of the two helpers are
    dropped and there is no [return]. *)
Definition save_trade (trade_info : Py.dict) : prog DataHandler Py.value :=
  call m_save_trade ;;
  d <- get ;;
  (if save_to_csv (data_config d) then _save_to_csv trade_info ;; ret tt
   else ret tt) ;;
  (if save_to_db (data_config d) then _save_to_database trade_info ;; ret tt
   else ret tt) ;;
  ret Py.PNone.

Section WithPandas.
Variable pandas : Pandas.

(** The first half of [load_historical_data]: the rows of the database,
    when there is a handler and it returns some. *)
Definition load_from_database (days : Z) : prog DataHandler (option DataFrame) :=
  d <- get ;;
  match mysql_handler d with
  | Some _ =>
      if save_to_db (data_config d) then
        r <- on_handler (MySQL.get_recent_trades None (days * 24)) ;;
        match r with
        | Py.Return ((_ :: _) as trades_data) =>
            let df := DataFrame_of_records trades_data in
            if has_column df "trade_time" then
              match bind_result (column df "trade_time") (to_datetime pandas) with
              | Py.Return times => ret (Some (set_column df "timestamp" times))
              | Py.Raise _ => ret None
              end
            else ret (Some df)
        | Py.Return [] => ret None
        | Py.Raise _ => ret None
        end
      else ret None
  | None => ret None
  end.

(** The second half: the rows of the CSV file of the last [days] days. *)
Definition load_from_csv (days : Z) : prog DataHandler DataFrame :=
  d <- get ;;
  if negb (save_to_csv (data_config d)) then ret empty_frame
  else
    present <- ask path_exists ;;
    if negb present then ret empty_frame
    else
      content <- ask csv_content ;;
      match content with
      | Py.Raise _ => emit (CsvRead false) ;; ret empty_frame
      | Py.Return df =>
          emit (CsvRead true) ;;
          match bind_result (column df "timestamp") (to_datetime pandas) with
          | Py.Raise _ => ret empty_frame
          | Py.Return times =>
              let df := set_column df "timestamp" times in
              t <- now ;;
              ret (rows_since df "timestamp" (t - days * 86400))
          end
      end.

(** [load_historical_data] *)
Definition load_historical_data (days : Z) : prog DataHandler DataFrame :=
  call m_load_historical_data ;;
  from_db <- load_from_database days ;;
  match from_db with
  | Some df => ret df
  | None => load_from_csv days
  end.

(** The dict literal of [get_statistics], evaluated entry by entry. *)
Definition summary (df : DataFrame) : Py.result Py.dict :=
  bind_result (column df "stock_code") (fun stock_code =>
  bind_result (column df "option_code") (fun option_code =>
  bind_result (column df "volume") (fun volume =>
  bind_result (col_sum pandas volume) (fun total_volume =>
  bind_result (column df "turnover") (fun turnover =>
  bind_result (col_sum pandas turnover) (fun total_turnover =>
  bind_result (col_mean pandas volume) (fun avg_trade_size =>
  bind_result (column df "timestamp") (fun timestamp =>
  bind_result (col_max pandas timestamp) (fun latest =>
  bind_result (strftime pandas latest "%Y-%m-%d %H:%M:%S") (fun latest_trade_time =>
  Py.Return
    [ ("total_trades", Py.PInt (Z.of_nat (List.length (df_rows df))));
      ("unique_stocks", Py.PInt (nunique pandas stock_code));
      ("unique_options", Py.PInt (nunique pandas option_code));
      ("total_volume", total_volume);
      ("total_turnover", total_turnover);
      ("avg_trade_size", avg_trade_size);
      ("latest_trade_time", latest_trade_time) ])))))))))).

(** [get_statistics] *)
Definition get_statistics : prog DataHandler Py.dict :=
  call m_get_statistics ;;
  df <- load_historical_data 7 ;;
  if empty df then ret [("total_trades", Py.PInt 0)]
  else
    match summary df with
    | Py.Return stats => ret stats
    | Py.Raise msg => ret [("error", Py.PStr msg)]
    end.

End WithPandas.

(** A pandas for columns of ints and datetimes; [None] is a missing
    value. *)
Definition value_eqb (a b : Py.value) : bool :=
  match a, b with
  | Py.PNone, Py.PNone => true
  | Py.PBool x, Py.PBool y => Bool.eqb x y
  | Py.PInt x, Py.PInt y => x =? y
  | Py.PFloat x, Py.PFloat y => SFeqb x y
  | Py.PStr x, Py.PStr y => String.eqb x y
  | Py.PTime x, Py.PTime y => x =? y
  | Py.PTimeText f x, Py.PTimeText g y => String.eqb f g && (x =? y)
  | _, _ => false
  end.

Fixpoint distinct (seen cells : list Py.value) : list Py.value :=
  match cells with
  | [] => seen
  | Py.PNone :: cells' => distinct seen cells'
  | c :: cells' =>
      if existsb (value_eqb c) seen then distinct seen cells'
      else distinct (c :: seen) cells'
  end.

Fixpoint int_sum (cells : list Py.value) : Py.result (Z * Z) :=
  match cells with
  | [] => Py.Return (0, 0)
  | Py.PNone :: cells' => int_sum cells'
  | Py.PInt z :: cells' =>
      bind_result (int_sum cells') (fun '(total, n) => Py.Return (z + total, n + 1))
  | _ :: _ => Py.Raise "unsupported operand type"
  end.

Fixpoint all_times (cells : list Py.value) : bool :=
  match cells with
  | [] => true
  | (Py.PTime _ | Py.PNone) :: cells' => all_times cells'
  | _ :: _ => false
  end.

Fixpoint latest_time (cells : list Py.value) : option Z :=
  match cells with
  | [] => None
  | Py.PTime t :: cells' =>
      match latest_time cells' with
      | Some t' => Some (Z.max t t')
      | None => Some t
      end
  | _ :: cells' => latest_time cells'
  end.

Definition int_pandas : Pandas :=
  {| to_datetime := fun cells =>
       if all_times cells then Py.Return cells
       else Py.Raise "Unknown datetime string format";
     nunique := fun cells => Z.of_nat (List.length (distinct [] cells));
     col_sum := fun cells =>
       bind_result (int_sum cells) (fun '(total, _) => Py.Return (Py.PInt total));
     col_mean := fun cells =>
       bind_result (int_sum cells) (fun '(total, n) =>
         if n =? 0 then Py.Return Py.PNone
         else Py.Return (Py.PFloat (Py.float_truediv_int (Py.float_of_int total) n)));
     col_max := fun cells =>
       match latest_time cells with
       | Some t => Py.Return (Py.PTime t)
       | None => Py.Return Py.PNone
       end;
     strftime := fun v fmt =>
       match v with
       | Py.PTime t => Py.Return (Py.PTimeText fmt t)
       | _ => Py.Raise "NaTType does not support strftime"
       end |}.

End Data.

(** ** Concrete worlds *)

Module Scenario.
Import Env.

Definition cfg : MySQL.Config :=
  {| MySQL.host := "localhost"; MySQL.port := 3306; MySQL.user := "monitor";
     MySQL.password := "secret"; MySQL.database := "options";
     MySQL.charset := "utf8mb4"; MySQL.autocommit := Some true |}.

(** An outside world given by its clock, its answers to [pymysql.connect],
    to pings and to statements; everything else succeeds, the CSV file
    does not exist and nobody sets the stop event. *)
Definition world_of (clk : nat -> Z) (conn : nat -> bool) (ping : nat -> outcome)
    (exec : nat -> exec_result) : World :=
  {| oracle :=
       {| clock := clk;
          connect_ok := conn;
          ping_result := ping;
          close_ok := fun _ => true;
          exec_answer := exec;
          commit_result := fun _ => Done;
          rollback_ok := fun _ => true;
          stop_is_set := fun _ => false;
          path_exists := fun _ => false;
          csv_write_ok := fun _ => true;
          csv_content := fun _ => Py.Raise "No such file or directory" |};
     tick := 0;
     trace := [] |}.

Definition one_row : exec_result := Rows [[("health_check", Py.PInt 1)]].

(** The server cannot be reached. *)
Definition offline : World :=
  world_of (fun _ => 1000) (fun _ => false) (fun _ => Failed false)
           (fun _ => ExecFailed false).

(** The server answers everything; the clock stands at [t]. *)
Definition online_at (t : Z) : World :=
  world_of (fun _ => t) (fun _ => true) (fun _ => Done) (fun _ => one_row).

Definition online : World := online_at 1000.


(** A handler that connected at time 100. *)
Definition connected_at_100 : MySQL.MySQLHandler :=
  {| MySQL.connection := Some {| MySQL.open := true |};
     MySQL.last_ping_time := 100;
     MySQL.ping_interval := 300;
     MySQL.config := cfg |}.

(** The same handler after [disconnect]. *)
Definition disconnected_after_100 : MySQL.MySQLHandler :=
  {| MySQL.connection := None;
     MySQL.last_ping_time := 100;
     MySQL.ping_interval := 300;
     MySQL.config := cfg |}.

Definition data_cfg : DataConfig :=
  {| save_to_csv := true; save_to_db := true; csv_path := "data/option_trades.csv" |}.

Definition csv_only : DataConfig :=
  {| save_to_csv := true; save_to_db := false; csv_path := "data/option_trades.csv" |}.

(** A checker on a handler that never connected. *)
Definition new_checker : Health.DatabaseHealthChecker :=
  Health.init data_cfg (Py.Return (MySQL.init cfg)).

(** A checker on the handler that connected at time 100. *)
Definition live_checker : Health.DatabaseHealthChecker :=
  Health.init data_cfg (Py.Return connected_at_100).

(** A checker built with the database switched off. *)
Definition idle_checker : Health.DatabaseHealthChecker :=
  Health.init csv_only (Py.Return (MySQL.init cfg)).

(** At time 200, a server whose answers to the probe alternate, the first
    one being a row.  A successful check asks the oracle three times, a
    failing one four times, so the statements fall on the ticks 2, 5, 9,
    12, ... *)
Definition flapping : World :=
  world_of (fun _ => 200) (fun _ => true) (fun _ => Done)
           (fun n => if (Nat.modulo n 7 =? 2)%nat then one_row else ExecFailed true).

(** A handler of trades that writes the CSV file only. *)
Definition csv_handler : Data.DataHandler :=
  {| Data.mysql_handler := None; Data.data_config := csv_only |}.

Definition trade : Py.dict :=
  [ ("timestamp", Py.PTime 1000); ("stock_code", Py.PStr "HK.00700");
    ("option_code", Py.PStr "HK.TCH250530C400000");
    ("volume", Py.PInt 100); ("turnover", Py.PInt 5000) ].

(** The CSV file exists and holds the one trade; the clock stands at
    2000. *)
Definition with_csv : World :=
  {| oracle :=
       {| clock := fun _ => 2000;
          connect_ok := fun _ => false;
          ping_result := fun _ => Failed false;
          close_ok := fun _ => true;
          exec_answer := fun _ => ExecFailed false;
          commit_result := fun _ => Done;
          rollback_ok := fun _ => true;
          stop_is_set := fun _ => false;
          path_exists := fun _ => true;
          csv_write_ok := fun _ => true;
          csv_content := fun _ =>
            Py.Return {| df_columns := Py.keys trade; df_rows := [trade] |} |};
     tick := 0;
     trace := [] |}.

(** A handler of trades with both sinks, on a handler that never
    connected. *)
Definition both_sinks : Data.DataHandler :=
  {| Data.mysql_handler := Some (MySQL.init cfg); Data.data_config := data_cfg |}.

End Scenario.

(** ** Further kinds of events *)

Module Events.
Import Env.

Definition is_execute (e : event) : bool :=
  match e with NetExecute _ _ _ => true | _ => false end.

Definition is_execute_many (e : event) : bool :=
  match e with NetExecuteMany _ _ _ => true | _ => false end.

Definition is_commit (e : event) : bool :=
  match e with NetCommit _ => true | _ => false end.

Definition is_rollback (e : event) : bool :=
  match e with NetRollback _ => true | _ => false end.

(** A commit that the server took. *)
Definition is_committed (e : event) : bool :=
  match e with NetCommit Done => true | _ => false end.

Definition is_connect_attempt (e : event) : bool :=
  match e with NetConnect _ => true | _ => false end.

Definition is_csv_read (e : event) : bool :=
  match e with CsvRead _ => true | _ => false end.

(** The statements among some events, in order. *)
Definition statements (evs : list event) : list event := filter is_statement evs.

(** What reading the recent trades may do: method entries, connecting,
    pinging, the select of the recent trades, and reading the CSV file. *)
Definition is_reading (e : event) : bool :=
  match e with
  | Call _ | NetConnect _ | NetPing _ | CsvRead _ => true
  | NetExecute (sql_recent_trades _) _ _ => true
  | _ => false
  end.

(** What the handler does when it selects the recent trades. *)
Definition is_select_work (e : event) : bool := is_handler_work e && is_reading e.

End Events.

(** ** The rest of utils/mysql_handler.py *)

Module Handler.
Import Env MySQL.
Local Open Scope prog_scope.

(** The handler after an operation that left the connection object
    reporting [b]: what [MySQL.set_open] stores. *)
Definition with_open (b : bool) (h : MySQLHandler) : MySQLHandler :=
  match connection h with
  | Some _ =>
      {| connection := Some {| open := b |};
         last_ping_time := last_ping_time h;
         ping_interval := ping_interval h;
         config := config h |}
  | None => h
  end.

(** The [try] block that [execute_insert] and [execute_batch_insert]
    share, with its [except] branch; [sent] is the event of the statement. *)
Definition send_and_settle (sent : bool -> event) : prog MySQLHandler bool :=
  r <- ask exec_answer ;;
  match r with
  | Rows _ =>
      emit (sent true) ;;
      commit_if_needed
  | ExecFailed still_open =>
      emit (sent false) ;;
      set_open still_open ;;
      rollback_and_fail
  end.

(** What an insert says to the server once the connection is there, and
    what it returns.  The oracle is asked at [t] for the statement, then for
    the commit, then for the rollback. *)
Definition insert_protocol (auto : bool) (o : Oracle) (t : nat) (sent : bool -> event)
  : bool * list event :=
  match exec_answer o t with
  | Rows _ =>
      if auto then (true, [sent true])
      else
        match commit_result o (S t) with
        | Done => (true, [sent true; NetCommit Done])
        | Failed b =>
            (false, [sent true; NetCommit (Failed b); NetRollback (rollback_ok o (S (S t)))])
        end
  | ExecFailed _ =>
      if auto then (false, [sent false])
      else (false, [sent false; NetRollback (rollback_ok o (S t))])
  end.










(** The parameters of [save_stock_price]. *)
Definition stock_price_params (price_data : Py.dict) (default_time : Z) : list Py.value :=
  [ Py.get_or price_data "stock_code" (Py.PStr "");
    Py.get_or price_data "stock_name" (Py.PStr "");
    Py.get_or price_data "price" (Py.PInt 0);
    Py.get price_data "change_amount";
    Py.get price_data "change_rate";
    Py.get price_data "volume";
    Py.get price_data "turnover";
    Py.get price_data "high_price";
    Py.get price_data "low_price";
    Py.get price_data "open_price";
    Py.get price_data "prev_close";
    Py.get price_data "market_cap";
    Py.get price_data "pe_ratio";
    Py.get_or price_data "record_time" (Py.PTime default_time);
    Py.get_or price_data "data_source" (Py.PStr "futu") ].

Definition sql_upsert_stock_price : statement :=
  sql_other "INSERT INTO stock_prices_history ... ON DUPLICATE KEY UPDATE ...".

(** [save_stock_price] *)
Definition save_stock_price (price_data : Py.dict) : prog MySQLHandler bool :=
  t <- now ;;
  execute_insert sql_upsert_stock_price (stock_price_params price_data t).

(** The parameters of [save_push_record]. *)
Definition push_record_params (push_data : Py.dict) (default_time : Z) : list Py.value :=
  [ Py.get_or push_data "option_id" (Py.PStr "");
    Py.get_or push_data "push_type" (Py.PStr "");
    Py.get_or push_data "push_status" (Py.PStr "");
    Py.get_or push_data "push_content" (Py.PStr "");
    Py.get_or push_data "push_time" (Py.PTime default_time);
    Py.get_or push_data "error_message" (Py.PStr "");
    Py.get_or push_data "retry_count" (Py.PInt 0) ].

Definition sql_insert_push_record : statement :=
  sql_other "INSERT INTO push_records ... VALUES (%s, %s, %s, %s, %s, %s, %s)".

(** [save_push_record] *)
Definition save_push_record (push_data : Py.dict) : prog MySQLHandler bool :=
  t <- now ;;
  execute_insert sql_insert_push_record (push_record_params push_data t).

(** The texts of the three inserts, as the source has them. *)
Definition text_insert_option_trade : string :=
  "
        INSERT INTO option_trades (
            trade_time, stock_code, stock_name, stock_price, option_code, 
            option_type, strike_price, expiry_date, volume, turnover, 
            premium, trade_direction, bid_price, ask_price, last_price,
            change_rate, implied_volatility, delta_value, gamma_value,
            theta_value, vega_value, open_interest, time_to_expiry,
            moneyness, data_source
        ) VALUES (
            %s, %s, %s, %s, %s, %s, %s, %s, %s, %s,
            %s, %s, %s, %s, %s, %s, %s, %s, %s,
            %s, %s, %s, %s, %s, %s
        )
        ".

Definition text_upsert_stock_price : string :=
  "
        INSERT INTO stock_prices_history (
            stock_code, stock_name, price, change_amount, change_rate,
            volume, turnover, high_price, low_price, open_price,
            prev_close, market_cap, pe_ratio, record_time, data_source
        ) VALUES (
            %s, %s, %s, %s, %s, %s, %s, %s, %s, %s,
            %s, %s, %s, %s, %s
        )
        ON DUPLICATE KEY UPDATE
            price = VALUES(price),
            change_amount = VALUES(change_amount),
            change_rate = VALUES(change_rate),
            volume = VALUES(volume),
            turnover = VALUES(turnover),
            high_price = VALUES(high_price),
            low_price = VALUES(low_price),
            open_price = VALUES(open_price),
            prev_close = VALUES(prev_close),
            market_cap = VALUES(market_cap),
            pe_ratio = VALUES(pe_ratio)
        ".

Definition text_insert_push_record : string :=
  "
        INSERT INTO push_records (
            option_id, push_type, push_status, push_content,
            push_time, error_message, retry_count
        ) VALUES (%s, %s, %s, %s, %s, %s, %s)
        ".

(** The number of [%s] in a statement: the number of parameters that
    pymysql formats into it. *)
Fixpoint placeholders (text : string) : nat :=
  match text with
  | EmptyString => O
  | String "%"%char (String "s"%char rest) => S (placeholders rest)
  | String _ rest => placeholders rest
  end.

(** White space in the text of a statement. *)
Definition is_blank (c : Ascii.ascii) : bool :=
  (Nat.leb (Ascii.nat_of_ascii c) 32).

(** The names between the first pair of parentheses of a statement: the
    columns of an insert, in order. *)
Fixpoint column_names (name : string) (text : string) : list string :=
  match text with
  | EmptyString => []
  | String c rest =>
      if Ascii.eqb c ")" then match name with EmptyString => [] | _ => [name] end
      else if Ascii.eqb c "," then name :: column_names EmptyString rest
      else if is_blank c then column_names name rest
      else column_names (String.append name (String c EmptyString)) rest
  end.

Fixpoint columns (text : string) : list string :=
  match text with
  | EmptyString => []
  | String c rest => if Ascii.eqb c "(" then column_names EmptyString rest else columns rest
  end.

(** The keys that the three methods read with a default, and the
    default of each; [t] is the [datetime.now()] of the call.  Every other
    key is read with [get] alone, whose default is [None]. *)
Definition option_trade_defaults (t : Z) : Py.dict :=
  [ ("trade_time", Py.PTime t); ("stock_code", Py.PStr ""); ("stock_name", Py.PStr "");
    ("option_code", Py.PStr ""); ("option_type", Py.PStr ""); ("volume", Py.PInt 0);
    ("turnover", Py.PInt 0); ("trade_direction", Py.PStr ""); ("moneyness", Py.PStr "");
    ("data_source", Py.PStr "futu") ].

Definition stock_price_defaults (t : Z) : Py.dict :=
  [ ("stock_code", Py.PStr ""); ("stock_name", Py.PStr ""); ("price", Py.PInt 0);
    ("record_time", Py.PTime t); ("data_source", Py.PStr "futu") ].

Definition push_record_defaults (t : Z) : Py.dict :=
  [ ("option_id", Py.PStr ""); ("push_type", Py.PStr ""); ("push_status", Py.PStr "");
    ("push_content", Py.PStr ""); ("push_time", Py.PTime t);
    ("error_message", Py.PStr ""); ("retry_count", Py.PInt 0) ].

(** The parameter [param] is what the record holds for the column, and
    the default of the column when the record has no such key.  The expiry
    date of a trade is special: the empty string is passed as [None]. *)
Definition filled (defaults : Py.dict) (record : Py.dict) (column : string)
    (param : Py.value) : Prop :=
  param =
    match Py.lookup column record with
    | Some v =>
        if String.eqb column "expiry_date"
        then match v with Py.PStr "" => Py.PNone | _ => v end
        else v
    | None =>
        match Py.lookup column defaults with
        | Some d => d
        | None => Py.PNone
        end
    end.

(** [if not date: date = datetime.now().strftime('%Y-%m-%d')] *)
Definition date_or_today (date : option string) : prog MySQLHandler Py.value :=
  match date with
  | Some (String c rest) => ret (Py.PStr (String c rest))
  | _ => t <- now ;; ret (Py.PTimeText "%Y-%m-%d" t)
  end.

Definition sql_daily_summary : statement :=
  sql_other "SELECT * FROM daily_summary WHERE summary_date = %s ORDER BY total_turnover DESC".

Definition sql_update_daily_summary : statement :=
  sql_other "INSERT INTO daily_summary ... SELECT ... FROM option_trades WHERE DATE(trade_time) = %s ... ON DUPLICATE KEY UPDATE ...".

(** [get_daily_summary] *)
Definition get_daily_summary (date : option string) : prog MySQLHandler (list Py.dict) :=
  day <- date_or_today date ;;
  r <- execute_query sql_daily_summary [day] ;;
  match r with
  | Some rows => ret rows
  | None => ret []
  end.

(** [update_daily_summary] *)
Definition update_daily_summary (date : option string) : prog MySQLHandler bool :=
  day <- date_or_today date ;;
  execute_insert sql_update_daily_summary [day].

(** [__del__]: [disconnect], with whatever it raises swallowed.  CPython
    runs it as soon as the last reference to the handler goes. *)
Definition __del__ : prog MySQLHandler unit := disconnect.

End Handler.

(** ** The rest of utils/db_health_checker.py *)

Module Monitor.
Import Env Health.
Local Open Scope prog_scope.

(** The module's [_health_checker_instance]: [None] until the first
    call of [get_health_checker]. *)
Definition instance : Type := option DatabaseHealthChecker.

Section Global.
(** What [DatabaseHealthChecker()] reads when it is called. *)
Variable cfg : DataConfig.
Variable make_handler : Py.result MySQL.MySQLHandler.

(** [get_health_checker]: builds the checker on the first call and
    returns the one object ever after. *)
Definition get_health_checker : prog instance DatabaseHealthChecker :=
  g <- get ;;
  match g with
  | Some c => ret c
  | None =>
      let c := init cfg make_handler in
      put (Some c) ;;
      ret c
  end.

(** A method called on the object that [get_health_checker] returned:
    what it does to the object is seen through the global. *)
Definition on_instance {A} (m : prog DatabaseHealthChecker A) : prog instance A :=
  c <- get_health_checker ;;
  fun _ w => let '(a, c', w') := m c w in (a, Some c', w').

(** [start_database_monitoring] *)
Definition start_database_monitoring : prog instance unit :=
  on_instance start_monitoring.

(** [stop_database_monitoring] *)
Definition stop_database_monitoring : prog instance unit :=
  on_instance stop_monitoring.

(** [check_database_health] *)
Definition check_database_health : prog instance bool :=
  on_instance check_health.

(** [get_database_status] *)
Definition get_database_status : prog instance Py.dict :=
  on_instance (c <- get ;; ret (get_health_status c)).

End Global.


Definition has_handler (c : DatabaseHealthChecker) : bool :=
  match mysql_handler c with Some _ => true | None => false end.

(** [__del__]: [stop_monitoring], with whatever it raises swallowed. *)
Definition __del__ : prog DatabaseHealthChecker unit := stop_monitoring.

End Monitor.

(** ** The rest of utils/data_handler.py *)

Module Store.
Import Env Data.
Local Open Scope prog_scope.

(** [head = p[:p.rfind('/') + 1]]: the path up to its last slash, if it
    has one. *)
Fixpoint through_last_slash (p : string) : option string :=
  match p with
  | EmptyString => None
  | String c rest =>
      match through_last_slash rest with
      | Some head => Some (String c head)
      | None => if Ascii.eqb c "/" then Some (String c EmptyString) else None
      end
  end.

(** [head.rstrip('/')] *)
Fixpoint rstrip_slashes (s : string) : string :=
  match s with
  | EmptyString => EmptyString
  | String c rest =>
      match rstrip_slashes rest with
      | EmptyString => if Ascii.eqb c "/" then EmptyString else String c EmptyString
      | stripped => String c stripped
      end
  end.

(** [os.path.dirname] of [posixpath]: a head of slashes only is kept, any
    other head loses its trailing slashes. *)
Definition dirname (p : string) : string :=
  match through_last_slash p with
  | None => ""
  | Some head =>
      match rstrip_slashes head with
      | EmptyString => head
      | stripped => stripped
      end
  end.

(** The directory that [_ensure_data_directory] creates, if any. *)
Definition data_directory (cfg : DataConfig) : option string :=
  if save_to_csv cfg then
    match dirname (csv_path cfg) with
    | EmptyString => None
    | dir => Some dir
    end
  else None.

(** [_ensure_data_directory]; [makedirs] is [os.makedirs(dir, exist_ok=True)]. *)
Definition _ensure_data_directory (makedirs : string -> Py.result unit) (cfg : DataConfig)
  : Py.result unit :=
  match data_directory cfg with
  | Some dir => makedirs dir
  | None => Py.Return tt
  end.

(** [DataHandler.__init__]: the handler is kept only when it connected;
    an exception of [makedirs] leaves the constructor. *)
Definition init (makedirs : string -> Py.result unit) (cfg : DataConfig)
    (make_handler : Py.result MySQL.MySQLHandler) : prog unit (Py.result DataHandler) :=
  match _ensure_data_directory makedirs cfg with
  | Py.Raise msg => ret (Py.Raise msg)
  | Py.Return _ =>
      if save_to_db cfg then
        match make_handler with
        | Py.Return h =>
            fun s w =>
              let '(ok, h', w') := MySQL.connect h w in
              (Py.Return {| mysql_handler := if ok then Some h' else None;
                            data_config := cfg |}, s, w')
        | Py.Raise _ => ret (Py.Return {| mysql_handler := None; data_config := cfg |})
        end
      else ret (Py.Return {| mysql_handler := None; data_config := cfg |})
  end.

Definition has_handler (d : DataHandler) : bool :=
  match mysql_handler d with Some _ => true | None => false end.

Fixpoint has_slash (p : string) : bool :=
  match p with
  | EmptyString => false
  | String c rest => Ascii.eqb c "/" || has_slash rest
  end.

End Store.

(** ** manage_db.py *)

Module Manage.
Import Env MySQL.
Local Open Scope prog_scope.

(** The script keeps its handlers in local variables: a method called on
    the handler [h] gives its result and the handler it leaves. *)
Definition on {A} (h : MySQLHandler) (m : prog MySQLHandler A)
  : prog unit (A * MySQLHandler) :=
  fun s w => let '(a, h', w') := m h w in ((a, h'), s, w').

Definition is_connected_event (e : event) : bool :=
  match e with NetConnect true => true | _ => false end.

Definition sql_version : statement := sql_other "SELECT VERSION() as version".

Definition sql_show_tables : statement := sql_other "SHOW TABLES".

(** [list(table.values())[0]] *)
Definition first_value (table : Py.dict) : Py.result Py.value :=
  match table with
  | (_, v) :: _ => Py.Return v
  | [] => Py.Raise "list index out of range"
  end.

(** [table_name != 'stock_info'], negated. *)
Definition is_stock_info (table_name : Py.value) : bool :=
  match table_name with
  | Py.PStr s => String.eqb s "stock_info"
  | _ => false
  end.

(** [if result: version = result[0]['version']] *)
Definition version_of (result : option (list Py.dict)) : Py.result Py.value :=
  match result with
  | Some (row :: _) =>
      match Py.lookup "version" row with
      | Some v => Py.Return v
      | None => Py.Raise "'version'"
      end
  | _ => Py.Return Py.PNone
  end.

(** The loop over the tables of [test_database_connection], which takes
    the name of each. *)
Fixpoint table_names (tables : list Py.dict) : Py.result (list Py.value) :=
  match tables with
  | [] => Py.Return []
  | table :: rest =>
      match first_value table with
      | Py.Return name =>
          match table_names rest with
          | Py.Return names => Py.Return (name :: names)
          | Py.Raise msg => Py.Raise msg
          end
      | Py.Raise msg => Py.Raise msg
      end
  end.

(** A handler that no name refers to any more: CPython releases it at
    once and runs its [__del__]. *)
Definition drop (held : option MySQLHandler) : prog unit unit :=
  match held with
  | Some h => fun s w => let '(_, _, w') := Handler.__del__ h w in (tt, s, w')
  | None => ret tt
  end.

(** A function returns: its result is there, and the handler that its
    local variable still holds is released with the frame. *)
Definition leave {A} (body : prog unit (A * option MySQLHandler)) : prog unit A :=
  r <- body ;;
  drop (snd r) ;;
  ret (fst r).

(** Whether the handler holds a connection object, open or not: what
    [disconnect] looks at. *)
Definition holds (h : MySQLHandler) : bool :=
  match connection h with Some _ => true | None => false end.

Definition has_connection (held : option MySQLHandler) : bool :=
  match held with Some h => holds h | None => false end.

Definition is_refused (e : event) : bool :=
  match e with NetConnect false => true | _ => false end.

Definition is_failed_close (e : event) : bool :=
  match e with NetClose false => true | _ => false end.

Section Script.
(** What [MySQLHandler()] reads when it is called: the configuration, or
    the exception of building it. *)
Variable make_config : Py.result Config.
(** The text of a value in an f-string. *)
Variable str : Py.value -> string.

(** [MySQLHandler()]: a new handler each time. *)
Definition new_handler : Py.result MySQLHandler :=
  match make_config with
  | Py.Return cfg => Py.Return (init cfg)
  | Py.Raise msg => Py.Raise msg
  end.

Definition constructs : bool :=
  match make_config with Py.Return _ => true | Py.Raise _ => false end.

(** The loop of [_wait_for_mysql_ready], at most [fuel] times round;
    [None] when the fuel is used up.  [held] is the handler of the round
    before, which the local variable holds until the next one is built or
    the function returns.  [time.sleep] has no result: what the loop sees
    of it is the next reading of the clock. *)
Fixpoint wait_loop (fuel : nat) (start_time max_wait_time : Z)
    (held : option MySQLHandler) : prog unit (option bool) :=
  match fuel with
  | O => ret None
  | S fuel' =>
      t <- now ;;
      if t - start_time <? max_wait_time then
        match new_handler with
        | Py.Return h =>
            drop held ;;
            r <- on h connect ;;
            if fst r then
              closed <- on (snd r) disconnect ;;
              drop (Some (snd closed)) ;;
              ret (Some true)
            else wait_loop fuel' start_time max_wait_time (Some (snd r))
        | Py.Raise _ => wait_loop fuel' start_time max_wait_time held
        end
      else drop held ;; ret (Some false)
  end.

(** [_wait_for_mysql_ready] *)
Definition _wait_for_mysql_ready (fuel : nat) (max_wait_time : Z)
  : prog unit (option bool) :=
  start_time <- now ;;
  wait_loop fuel start_time max_wait_time None.

(** The body of [test_database_connection]: its result, and the handler
    that the local variable holds when it returns. *)
Definition test_database_connection_body : prog unit (bool * option MySQLHandler) :=
  match new_handler with
  | Py.Raise _ => ret (false, None)
  | Py.Return h =>
      c <- on h connect ;;
      if fst c then
        result <- on (snd c) (execute_query sql_version []) ;;
        match version_of (fst result) with
        | Py.Raise _ => ret (false, Some (snd result))
        | Py.Return _ =>
            tables <- on (snd result) (execute_query sql_show_tables []) ;;
            match table_names (match fst tables with Some rows => rows | None => [] end) with
            | Py.Raise _ => ret (false, Some (snd tables))
            | Py.Return _ =>
                closed <- on (snd tables) disconnect ;;
                ret (true, Some (snd closed))
            end
        end
      else ret (false, Some (snd c))
  end.

(** [test_database_connection] *)
Definition test_database_connection : prog unit bool :=
  leave test_database_connection_body.

(** [run_health_check]: a new checker, one check; the status is only
    printed.  On return the checker is released, and its handler with
    it. *)
Definition run_health_check (cfg : DataConfig) : prog unit bool :=
  fun s w =>
    let '(health_result, c, w1) := Health.check_health (Health.init cfg new_handler) w in
    let '(_, c', w2) := Monitor.__del__ c w1 in
    let '(_, _, w') := drop (Health.mysql_handler c') s w2 in
    (health_result, s, w').

(** [f"TRUNCATE TABLE {table_name}"] *)
Definition sql_truncate (table_name : Py.value) : statement :=
  sql_other (String.append "TRUNCATE TABLE " (str table_name)).

(** The loop of [reset_database]: whether it ran to its end or met a row
    without a value, and the handler as it leaves it. *)
Fixpoint truncate_tables (tables : list Py.dict) (h : MySQLHandler)
  : prog unit (Py.result unit * MySQLHandler) :=
  match tables with
  | [] => ret (Py.Return tt, h)
  | table :: rest =>
      match first_value table with
      | Py.Raise msg => ret (Py.Raise msg, h)
      | Py.Return table_name =>
          if is_stock_info table_name then truncate_tables rest h
          else
            r <- on h (execute_insert (sql_truncate table_name) []) ;;
            truncate_tables rest (snd r)
      end
  end.

(** The body of [reset_database]; [confirm] is what [input] returned. *)
Definition reset_database_body (confirm : string)
  : prog unit (bool * option MySQLHandler) :=
  if negb (String.eqb confirm "YES") then ret (false, None)
  else
    match new_handler with
    | Py.Raise _ => ret (false, None)
    | Py.Return h =>
        c <- on h connect ;;
        if negb (fst c) then ret (false, Some (snd c))
        else
          tables <- on (snd c) (execute_query sql_show_tables []) ;;
          match fst tables with
          | None => ret (true, Some (snd tables))
          | Some [] => ret (true, Some (snd tables))
          | Some (table :: rest) =>
              r <- truncate_tables (table :: rest) (snd tables) ;;
              match fst r with
              | Py.Raise _ => ret (false, Some (snd r))
              | Py.Return _ =>
                  closed <- on (snd r) disconnect ;;
                  ret (true, Some (snd closed))
              end
          end
    end.

(** [reset_database] *)
Definition reset_database (confirm : string) : prog unit bool :=
  leave (reset_database_body confirm).

End Script.


(** What [test_database_connection] may leave in the trace: of the
    statements, only its two queries. *)
Definition inspects (e : event) : Prop :=
  match e with
  | NetExecute sql params _ =>
      params = [] /\ (sql = sql_version \/ sql = sql_show_tables)
  | NetExecuteMany _ _ _ | NetCommit _ | NetRollback _ => False
  | _ => True
  end.

(** What [reset_database] may leave in the trace: of the statements, only
    the listing of the tables, the truncation of a table that is not
    [stock_info], and what settles it. *)
Definition resets (str : Py.value -> string) (e : event) : Prop :=
  match e with
  | NetExecute sql params _ =>
      params = [] /\
      (sql = sql_show_tables \/
       exists name, is_stock_info name = false /\ sql = sql_truncate str name)
  | NetExecuteMany _ _ _ => False
  | _ => True
  end.

End Manage.

(** ** More concrete worlds *)

Module Cases.
Import Env.

(** The stop event is set; the server answers everything. *)
Definition stopping : World :=
  {| oracle :=
       {| clock := fun _ => 200;
          connect_ok := fun _ => true;
          ping_result := fun _ => Done;
          close_ok := fun _ => true;
          exec_answer := fun _ => Scenario.one_row;
          commit_result := fun _ => Done;
          rollback_ok := fun _ => true;
          stop_is_set := fun _ => true;
          path_exists := fun _ => false;
          csv_write_ok := fun _ => true;
          csv_content := fun _ => Py.Raise "No such file or directory" |};
     tick := 0;
     trace := [] |}.

(** Closing the connection raises; everything else succeeds. *)
Definition sticky : World :=
  {| oracle :=
       {| clock := fun _ => 200;
          connect_ok := fun _ => true;
          ping_result := fun _ => Done;
          close_ok := fun _ => false;
          exec_answer := fun _ => Scenario.one_row;
          commit_result := fun _ => Done;
          rollback_ok := fun _ => true;
          stop_is_set := fun _ => false;
          path_exists := fun _ => false;
          csv_write_ok := fun _ => true;
          csv_content := fun _ => Py.Raise "No such file or directory" |};
     tick := 0;
     trace := [] |}.

(** A checker on the handler that connected at time 100, after four
    checks of which the last one failed. *)
Definition troubled : Health.DatabaseHealthChecker :=
  {| Health.mysql_handler := Some Scenario.connected_at_100;
     Health.last_check_time := Some 180;
     Health.check_interval := 60;
     Health.is_healthy := false;
     Health.health_check_thread := None;
     Health.stop_event := false;
     Health.check_count := 4;
     Health.success_count := 3;
     Health.failure_count := 1;
     Health.last_failure_time := Some 181;
     Health.last_failure_reason := Some "Health check query failed" |}.

(** A checker whose counters have outgrown the floats: neither is a
    float itself. *)
Definition veteran : Health.DatabaseHealthChecker :=
  {| Health.mysql_handler := None;
     Health.last_check_time := Some 200;
     Health.check_interval := 60;
     Health.is_healthy := true;
     Health.health_check_thread := None;
     Health.stop_event := false;
     Health.check_count := 1958407237842948995;
     Health.success_count := 64677661903135824;
     Health.failure_count := 1893729575939813171;
     Health.last_failure_time := Some 100;
     Health.last_failure_reason := Some "Health check query failed" |}.



End Cases.

(** * Properties *)

(** ** Running programs symbolically *)

Ltac unfold_prog :=
  unfold Env.call, Env.now;
  unfold Env.bind, Env.ret, Env.get, Env.put, Env.emit, Env.ask;
  unfold Env.logged, Env.answered;
  simpl.

Ltac unfold_prog_in H :=
  unfold Env.call, Env.now in H;
  unfold Env.bind, Env.ret, Env.get, Env.put, Env.emit, Env.ask in H;
  unfold Env.logged, Env.answered in H;
  simpl in H.

Ltac unfold_mysql :=
  unfold MySQL.execute_batch_insert, MySQL.execute_insert, MySQL.execute_query,
    MySQL.health_check, MySQL.save_option_trade, MySQL.get_recent_trades,
    MySQL.commit_if_needed, MySQL.rollback_and_fail,
    MySQL._ensure_connection, MySQL.check_connection_state, MySQL.connect,
    MySQL.disconnect, MySQL.set_open, MySQL.set_connection,
    MySQL.set_last_ping_time.

Section Traces.
Import Env.

Lemma extends_refl (w : World) : extends w w [].
Proof. unfold extends. rewrite app_nil_r. auto. Qed.

Lemma extends_trans (w1 w2 w3 : World) (e1 e2 : list event) :
  extends w1 w2 e1 -> extends w2 w3 e2 -> extends w1 w3 (e1 ++ e2).
Proof.
  unfold extends. intros [H1 [O1 T1]] [H2 [O2 T2]].
  rewrite H2, H1, app_assoc, O2, O1. repeat split; auto. lia.
Qed.

Lemma extends_logged (e : event) (w : World) : extends w (logged e w) [e].
Proof. unfold extends, logged. simpl. auto. Qed.

Lemma extends_answered (w : World) : extends w (answered w) [].
Proof. unfold extends, answered. simpl. rewrite app_nil_r. auto. Qed.

Lemma since_extends (w w' : World) (evs : list event) :
  extends w w' evs -> since w w' = evs.
Proof.
  unfold extends, since. intros [H _]. rewrite H.
  rewrite skipn_app, skipn_all, Nat.sub_diag. reflexivity.
Qed.

Lemma extends_unique (w w' : World) (e1 e2 : list event) :
  extends w w' e1 -> extends w w' e2 -> e1 = e2.
Proof.
  intros H1 H2. rewrite <- (since_extends _ _ _ H1). apply since_extends, H2.
Qed.

Lemma count_app (p : event -> bool) (l1 l2 : list event) :
  count p (l1 ++ l2) = (count p l1 + count p l2)%nat.
Proof. unfold count. rewrite filter_app, length_app. reflexivity. Qed.

Lemma count_none (p q : event -> bool) (evs : list event) :
  (forall e, p e = true -> q e = false) ->
  forallb p evs = true -> count q evs = 0%nat.
Proof.
  intros Hpq. unfold count. induction evs as [|e evs IH]; simpl; [reflexivity|].
  intros H. apply andb_prop in H. destruct H as [He Hevs].
  rewrite (Hpq e He). auto.
Qed.

Section Confined.
Context {S : Type} (p : event -> bool).

Lemma confined_ret {A} (a : A) : confined p (ret a : prog S A).
Proof. intros s w. exists []. split; [apply extends_refl | reflexivity]. Qed.

Lemma confined_get : confined p (get : prog S S).
Proof. intros s w. exists []. split; [apply extends_refl | reflexivity]. Qed.

Lemma confined_put (s' : S) : confined p (put s').
Proof. intros s w. exists []. split; [apply extends_refl | reflexivity]. Qed.

Lemma confined_ask {A} (field : Oracle -> nat -> A) : confined p (ask field : prog S A).
Proof. intros s w. exists []. split; [apply extends_answered | reflexivity]. Qed.

Lemma confined_emit (e : event) : p e = true -> confined p (emit e : prog S unit).
Proof.
  intros He s w. exists [e]. split; [apply extends_logged | simpl; rewrite He; reflexivity].
Qed.

Lemma confined_bind {A B} (m : prog S A) (k : A -> prog S B) :
  confined p m -> (forall a, confined p (k a)) -> confined p (bind m k).
Proof.
  intros Hm Hk s w. unfold bind.
  destruct (Hm s w) as [e1 [X1 P1]].
  destruct (m s w) as [[a s1] w1]. simpl in X1.
  destruct (Hk a s1 w1) as [e2 [X2 P2]].
  exists (e1 ++ e2). split.
  - eapply extends_trans; eassumption.
  - rewrite forallb_app, P1, P2. reflexivity.
Qed.

End Confined.

Lemma confined_weaken (p q : event -> bool) {S A} (m : prog S A) :
  (forall e, p e = true -> q e = true) -> confined p m -> confined q m.
Proof.
  intros Hpq Hm s w. destruct (Hm s w) as [evs [X P]]. exists evs. split; [exact X|].
  rewrite forallb_forall in *. auto.
Qed.

End Traces.

(** Decompose a program into its steps. *)
Ltac confine :=
  repeat first
    [ assumption
    | apply confined_ret
    | apply confined_get
    | apply confined_put
    | apply confined_ask
    | apply confined_emit; reflexivity
    | apply confined_bind; [ | intros ? ]
    | match goal with
      | |- Env.confined _ (if ?b then _ else _) => destruct b
      | |- Env.confined _ (match ?x with _ => _ end) => destruct x
      end ].

Section ConnectionHandle.
Import Env MySQL.

Lemma connect_confined : confined is_connect_event connect.
Proof. unfold connect, set_connection, set_last_ping_time, call, now. confine. Qed.


Lemma ensure_connection_confined : confined is_connection_event _ensure_connection.
Proof.
  assert (confined is_connection_event connect).
  { apply (confined_weaken is_connect_event); [|apply connect_confined].
    intros [[]| | | | | | | | |]; simpl; congruence. }
  unfold _ensure_connection, check_connection_state, set_open, set_connection,
    set_last_ping_time, call, now.
  confine.
Qed.

Lemma connected_true (h : MySQLHandler) :
  connected h = true -> exists c, connection h = Some c /\ open c = true.
Proof.
  unfold connected. destruct (connection h) as [c|]; [|discriminate].
  intros Hc. exists c. split; [reflexivity | exact Hc].
Qed.

Lemma connect_when_open (h : MySQLHandler) (w : World) :
  connected h = true -> connect h w = (true, h, logged (Call m_connect) w).
Proof.
  intros Hc. unfold_mysql. unfold_prog. rewrite Hc. reflexivity.
Qed.

Lemma connect_when_closed (h : MySQLHandler) (w : World) :
  connected h = false ->
  connect h w =
    if connect_ok (oracle w) (tick w)
    then (true,
          {| connection := Some {| open := true |};
             last_ping_time := clock (oracle w) (S (tick w));
             ping_interval := ping_interval h;
             config := config h |},
          answered (logged (NetConnect true) (answered (logged (Call m_connect) w))))
    else (false,
          {| connection := None;
             last_ping_time := last_ping_time h;
             ping_interval := ping_interval h;
             config := config h |},
          logged (NetConnect false) (answered (logged (Call m_connect) w))).
Proof.
  intros Hc. unfold_mysql. unfold_prog. rewrite Hc. simpl.
  destruct (connect_ok (oracle w) (tick w)); reflexivity.
Qed.

(** [_ensure_connection] case by case. *)
Lemma ensure_connection_cases (h : MySQLHandler) (w : World) :
  _ensure_connection h w =
    let t := clock (oracle w) (tick w) in
    let w1 := answered (logged (Call m_ensure_connection) w) in
    if ping_due h w then
      match ping_result (oracle w) (S (tick w)) with
      | Done =>
          (true,
           {| connection := connection h; last_ping_time := t;
              ping_interval := ping_interval h; config := config h |},
           logged (NetPing Done) (answered w1))
      | Failed b =>
          connect {| connection := Some {| open := b |};
                     last_ping_time := last_ping_time h;
                     ping_interval := ping_interval h; config := config h |}
                  (logged (NetPing (Failed b)) (answered w1))
      end
    else if connected h then (true, h, w1) else connect h w1.
Proof.
  unfold ping_due. unfold _ensure_connection, check_connection_state, set_open,
    set_last_ping_time, set_connection. unfold_prog.
  destruct (clock (oracle w) (tick w) - last_ping_time h >? ping_interval h); simpl.
  - destruct (connected h) eqn:Hc; simpl.
    + destruct (ping_result (oracle w) (S (tick w))) as [|b]; simpl.
      * unfold connected in *. simpl. rewrite Hc. reflexivity.
      * apply connected_true in Hc. destruct Hc as [c [Hc _]]. rewrite Hc. reflexivity.
    + rewrite ?Hc. reflexivity.
  - destruct (connected h) eqn:Hc; simpl; rewrite ?Hc; reflexivity.
Qed.

(** C7. [connect] on a handler that holds an open connection returns
    [True] at once: the handler is unchanged, nothing is asked of the
    outside world and nothing reaches the server.  When there is no open
    connection and [pymysql.connect] raises, [connect] returns [False] and
    the handler holds no connection. *)
Theorem connect_idempotent_and_fail_closed (h : MySQLHandler) (w : World) :
  (connected h = true ->
     connect h w = (true, h, logged (Call m_connect) w)) /\
  (connected h = false -> connect_ok (oracle w) (tick w) = false ->
     exists h' w',
       connect h w = (false, h', w') /\
       connection h' = None /\ connected h' = false /\
       last_ping_time h' = last_ping_time h).
Proof.
  split.
  - apply connect_when_open.
  - intros Hc Hfail. rewrite (connect_when_closed h w Hc), Hfail.
    eexists; eexists. split; [reflexivity|]. simpl. auto.
Qed.




(** The events of [_ensure_connection] run no statement. *)
Lemma ensure_connection_no_statement (h : MySQLHandler) (w : World) :
  exists evs,
    extends w (snd (_ensure_connection h w)) evs /\ count is_statement evs = 0%nat.
Proof.
  destruct (ensure_connection_confined h w) as [evs [X P]]. exists evs. split; [exact X|].
  apply (count_none is_connection_event); [|exact P].
  intros [[]| | | | | | | | |]; simpl; congruence.
Qed.

(** C2, as the code has it.  With an empty list [execute_batch_insert]
    does what [_ensure_connection] does and returns its answer: no
    statement, commit or rollback is run, but the server may be pinged or
    connected to, and the call fails when no connection can be had.  On a
    handler whose open connection was verified within the interval it
    returns [True] and nothing reaches the server. *)
Theorem execute_batch_insert_empty (sql : statement) (h : MySQLHandler) (w : World) :
  execute_batch_insert sql [] h w =
    _ensure_connection h (logged (Call m_execute_batch_insert) w) /\
  (let '(ok, h', w') := execute_batch_insert sql [] h w in
   count is_statement (since w w') = 0%nat /\
   (connected h = true ->
    clock (oracle w) (tick w) - last_ping_time h <= ping_interval h ->
    ok = true /\ h' = h /\ count is_network (since w w') = 0%nat)).
Proof.
  assert (E : execute_batch_insert sql [] h w =
              _ensure_connection h (logged (Call m_execute_batch_insert) w)).
  { unfold execute_batch_insert. unfold call, emit, bind, ret.
    destruct (_ensure_connection h (logged (Call m_execute_batch_insert) w))
      as [[[|] h'] w']; reflexivity. }
  split; [exact E|]. rewrite E.
  set (w0 := logged (Call m_execute_batch_insert) w).
  assert (X0 : extends w w0 [Call m_execute_batch_insert]) by apply extends_logged.
  destruct (ensure_connection_no_statement h w0) as [evs [X P]].
  pose proof (ensure_connection_cases h w0) as Hcases. cbv zeta in Hcases.
  destruct (_ensure_connection h w0) as [[ok h'] w'] eqn:Hrun. simpl in X.
  split.
  - rewrite (since_extends _ _ _ (extends_trans _ _ _ _ _ X0 X)).
    rewrite count_app, P. reflexivity.
  - intros Hc Hfresh.
    assert (Hdue : ping_due h w0 = false).
    { unfold ping_due. apply andb_false_intro1. rewrite Z.gtb_ltb. apply Z.ltb_ge. exact Hfresh. }
    rewrite Hdue, Hc in Hcases. inversion Hcases; subst.
    repeat split.
    rewrite (since_extends _ _ [Call m_execute_batch_insert; Call m_ensure_connection]);
      [reflexivity|].
    unfold extends, answered, logged, w0. simpl. rewrite <- app_assoc. auto.
Qed.

End ConnectionHandle.

Section ConnectionHandleExamples.
Import Env MySQL.

Lemma connect_idempotent_and_fail_closed_witness :
  connect Scenario.connected_at_100 Scenario.online =
    (true, Scenario.connected_at_100, logged (Call m_connect) Scenario.online) /\
  exists h' w',
    connect Scenario.disconnected_after_100 Scenario.offline = (false, h', w') /\
    connection h' = None /\ connected h' = false /\
    last_ping_time h' = last_ping_time Scenario.disconnected_after_100.
Proof.
  split.
  - apply (connect_idempotent_and_fail_closed Scenario.connected_at_100 Scenario.online).
    reflexivity.
  - apply (connect_idempotent_and_fail_closed
             Scenario.disconnected_after_100 Scenario.offline); reflexivity.
Defined.



(** The claim of C2 fails on a handler without a connection when the
    server cannot be reached: the empty batch is refused, after one attempt
    to connect. *)
Lemma execute_batch_insert_empty_counterexample :
  let w := Scenario.offline in
  let '(ok, _, w') :=
    execute_batch_insert (sql_other "INSERT INTO t VALUES (%s)") [] (init Scenario.cfg) w in
  ok = false /\ count is_network (since w w') = 1%nat.
Proof. vm_compute. split; reflexivity. Qed.

Lemma execute_batch_insert_empty_witness :
  let h := Scenario.connected_at_100 in
  let w := Scenario.online_at 200 in
  let '(ok, h', w') := execute_batch_insert (sql_other "INSERT INTO t VALUES (%s)") [] h w in
  ok = true /\ h' = h /\ count is_network (since w w') = 0%nat.
Proof.
  cbv zeta.
  pose proof (execute_batch_insert_empty (sql_other "INSERT INTO t VALUES (%s)")
                Scenario.connected_at_100 (Scenario.online_at 200)) as [_ T].
  destruct (execute_batch_insert (sql_other "INSERT INTO t VALUES (%s)") []
              Scenario.connected_at_100 (Scenario.online_at 200)) as [[ok h'] w'].
  destruct T as [_ T]. apply T.
  - reflexivity.
  - simpl. lia.
Defined.

End ConnectionHandleExamples.

Section Preservation.
Import Env.
Context {S : Type} (inv : S -> Prop).

Lemma preserves_ret {A} (a : A) : preserves inv (ret a : prog S A).
Proof. intros s w H. exact H. Qed.

Lemma preserves_get : preserves inv (get : prog S S).
Proof. intros s w H. exact H. Qed.

Lemma preserves_ask {A} (field : Oracle -> nat -> A) : preserves inv (ask field : prog S A).
Proof. intros s w H. exact H. Qed.

Lemma preserves_emit (e : event) : preserves inv (emit e : prog S unit).
Proof. intros s w H. exact H. Qed.

Lemma preserves_bind {A B} (m : prog S A) (k : A -> prog S B) :
  preserves inv m -> (forall a, preserves inv (k a)) -> preserves inv (bind m k).
Proof.
  intros Hm Hk s w H. unfold bind. specialize (Hm s w H).
  destruct (m s w) as [[a s1] w1]. simpl in Hm. apply Hk, Hm.
Qed.

End Preservation.

Ltac preserve :=
  repeat first
    [ assumption
    | apply preserves_ret
    | apply preserves_get
    | apply preserves_ask
    | apply preserves_emit
    | apply preserves_bind; [ | intros ? ]
    | match goal with
      | |- Env.preserves _ (if ?b then _ else _) => destruct b
      | |- Env.preserves _ (match ?x with _ => _ end) => destruct x
      end ].

Section HealthMonitor.
Import Env Health.

Lemma check_health_without (c : DatabaseHealthChecker) (w : World) :
  mysql_handler c = None ->
  check_health c w = (false, c, logged (Call m_check_health) w).
Proof.
  intros Hnone. unfold check_health. unfold_prog. rewrite Hnone. reflexivity.
Qed.

(** [check_health] on a checker with a handler, in terms of the probe. *)
Lemma check_health_cases (c : DatabaseHealthChecker) (w : World) (h : MySQL.MySQLHandler) :
  mysql_handler c = Some h ->
  check_health c w =
    let t := clock (oracle w) (tick w) in
    let '(r, h', w1) := MySQL.health_check h (answered (logged (Call m_check_health) w)) in
    let c1 := set_mysql_handler (begin_check t c) h' in
    if r then (true, record_success c1, w1)
    else (false,
          record_failure (clock (oracle w1) (tick w1)) "Health check query failed" c1,
          answered w1).
Proof.
  intros Hsome. unfold check_health, fail_check, modify, on_handler. unfold_prog.
  rewrite Hsome. simpl. rewrite Hsome.
  match goal with |- context [MySQL.health_check h ?w0] =>
    destruct (MySQL.health_check h w0) as [[[|] h'] w1] end; reflexivity.
Qed.

Lemma check_health_keeps_handler (c : DatabaseHealthChecker) (w : World) :
  forall h, mysql_handler c = Some h ->
  exists h', mysql_handler (snd (fst (check_health c w))) = Some h'.
Proof.
  intros h Hsome. rewrite (check_health_cases c w h Hsome). cbv zeta.
  destruct (MySQL.health_check h _) as [[[|] h'] w1]; exists h'; reflexivity.
Qed.

Lemma check_health_call_accounts (c : DatabaseHealthChecker) (w : World) :
  forall h, mysql_handler c = Some h ->
  call_accounts c (fst (fst (check_health c w))) (snd (fst (check_health c w))).
Proof.
  intros h Hsome. rewrite (check_health_cases c w h Hsome). cbv zeta.
  destruct (MySQL.health_check h _) as [[[|] h'] w1]; unfold call_accounts; simpl;
    repeat split; eauto.
Qed.

(** C10. On a checker whose handler was never set, [check_health] returns
    [False] and the checker is the very same: no counter, flag, time or
    reason changes, and nothing is asked of the outside world.  This is the
    state [__init__] builds when saving to the database is off or the
    handler's constructor raised. *)
Theorem check_health_without_handler (c : DatabaseHealthChecker) (w : World) :
  mysql_handler c = None ->
  check_health c w = (false, c, logged (Call m_check_health) w) /\
  (forall cfg msg, mysql_handler (init cfg (Py.Raise msg)) = None) /\
  (forall cfg make_handler, save_to_db cfg = false ->
     mysql_handler (init cfg make_handler) = None).
Proof.
  intros Hnone. split; [apply check_health_without, Hnone|]. split.
  - intros cfg msg. unfold init. simpl. destruct (save_to_db cfg); reflexivity.
  - intros cfg mk Hoff. unfold init. simpl. rewrite Hoff. reflexivity.
Qed.

Lemma check_health_times_accounts (n : nat) :
  forall c w h, mysql_handler c = Some h ->
  let '(hist, c', _) := check_health_times n c w in
  List.length hist = n /\ c' = final_state c hist /\ each_call_accounts c hist.
Proof.
  induction n as [|n IH]; intros c w h Hsome.
  - simpl. auto.
  - simpl. unfold bind, get, ret.
    pose proof (check_health_call_accounts c w h Hsome) as Hacc.
    destruct (check_health_keeps_handler c w h Hsome) as [h1 Hsome1].
    destruct (check_health c w) as [[r c1] w1]. simpl in Hacc, Hsome1.
    specialize (IH c1 w1 h1 Hsome1).
    destruct (check_health_times n c1 w1) as [[hist c'] w'].
    destruct IH as [Hlen [Hfin Hall]]. simpl. rewrite Hlen. auto.
Qed.

Lemma accounts_totals (hist : list (bool * DatabaseHealthChecker)) :
  forall c, each_call_accounts c hist ->
  let c' := final_state c hist in
  check_count c' = check_count c + Z.of_nat (List.length hist) /\
  success_count c' = success_count c + successes hist /\
  failure_count c' = failure_count c + failures hist /\
  match last_failing hist with
  | Some cf =>
      last_failure_reason c' = last_failure_reason cf /\
      last_failure_time c' = last_failure_time cf /\
      last_failure_reason cf = Some "Health check query failed"
  | None =>
      last_failure_reason c' = last_failure_reason c /\
      last_failure_time c' = last_failure_time c
  end.
Proof.
  unfold successes, failures.
  induction hist as [|[r c1] rest IH]; intros c Hall.
  - simpl. repeat split; lia.
  - destruct Hall as [[Hcount [_ Hr]] Hrest].
    specialize (IH c1 Hrest). cbv zeta in IH.
    destruct IH as [IHc [IHs [IHf IHl]]].
    cbn [final_state last_failing map fst tally List.length].
    rewrite IHc, IHs, IHf, Hcount.
    destruct r; simpl Bool.eqb; cbv iota.
    + destruct Hr as [Hs [Hf [_ [Ht Hre]]]]. rewrite Hs, Hf.
      repeat split; try lia.
      destruct (last_failing rest); [exact IHl|].
      destruct IHl as [I1 I2]. rewrite I1, I2. auto.
    + destruct Hr as [Hf [Hs [_ [_ Hre]]]]. rewrite Hs, Hf.
      repeat split; try lia.
      destruct (last_failing rest); [exact IHl|].
      destruct IHl as [I1 I2]. auto.
Qed.

Lemma alternating_tally (b c : bool) : tally c (alternating b 10) = 5.
Proof. destruct b, c; reflexivity. Qed.

Lemma alternating_last_failing (hist : list (bool * DatabaseHealthChecker)) (b : bool) :
  map fst hist = alternating b 10 -> exists cf, last_failing hist = Some cf.
Proof.
  intros Hmap.
  assert (Hin : exists rest1 cf rest2,
             hist = rest1 ++ (false, cf) :: rest2).
  { assert (In false (map fst hist)) as Hf.
    { rewrite Hmap. destruct b; simpl; auto. }
    apply in_map_iff in Hf. destruct Hf as [[r cf] [Hr Hin]]. simpl in Hr. subst r.
    apply in_split in Hin. destruct Hin as [l1 [l2 Hin]]. exists l1, cf, l2. exact Hin. }
  destruct Hin as [rest1 [cf [rest2 Heq]]]. subst hist. clear Hmap.
  induction rest1 as [|[r c1] rest1 IH]; simpl.
  - destruct (last_failing rest2); eauto.
  - destruct IH as [cf' IH]. rewrite IH. eauto.
Qed.

Lemma check_health_times_follows (n : nat) :
  forall c w h, mysql_handler c = Some h ->
  let '(hist, _, _) := check_health_times n c w in
  each_call_follows c (probes n h w) hist /\ map fst hist = answers (probes n h w).
Proof.
  induction n as [|n IH]; intros c w h Hsome.
  - simpl. auto.
  - cbn [check_health_times probes]. unfold bind at 1.
    rewrite (check_health_cases c w h Hsome). cbv zeta.
    destruct (MySQL.health_check h (answered (logged (Call m_check_health) w)))
      as [[answer h'] w1].
    destruct answer; unfold bind, get, ret; cbv beta iota zeta.
    + specialize (IH (record_success
                        (set_mysql_handler (begin_check (clock (oracle w) (tick w)) c) h'))
                     w1 h' eq_refl).
      destruct (check_health_times n _ w1) as [[hist c'] w'].
      destruct IH as [Hall Hmap]. unfold answers in *. simpl. rewrite Hmap.
      repeat split; auto.
    + specialize (IH (record_failure (clock (oracle w1) (tick w1))
                        "Health check query failed"
                        (set_mysql_handler (begin_check (clock (oracle w) (tick w)) c) h'))
                     (answered w1) h' eq_refl).
      destruct (check_health_times n _ (answered w1)) as [[hist c'] w'].
      destruct IH as [Hall Hmap]. unfold answers in *. simpl. rewrite Hmap.
      repeat split; auto.
Qed.

(** C4. On a checker with a handler, every call of [check_health] runs
    the probe once and returns its answer.  It adds one to [check_count]
    and to exactly one of the two other counters: to [success_count] when
    the probe succeeds, and then [is_healthy] is set and the record of the
    last failure is kept; to [failure_count] otherwise, and then
    [is_healthy] is cleared and the reason and the time of the failure,
    read from the clock after the probe, are recorded; the time of the
    check is the clock reading the call starts with.  After any number of
    calls in a row the counters have grown by the numbers of calls, of
    probes that succeeded and of probes that failed, and the recorded
    failure is that of the most recent failing call.  Ten calls whose
    probes alternate add five to each of the two counters. *)
Theorem check_health_accounting (n : nat) (c : DatabaseHealthChecker) (w : World)
    (h : MySQL.MySQLHandler) :
  mysql_handler c = Some h ->
  let '(hist, c', _) := check_health_times n c w in
  let probed := answers (probes n h w) in
  map fst hist = probed /\
  each_call_follows c (probes n h w) hist /\
  c' = final_state c hist /\
  check_count c' = check_count c + Z.of_nat n /\
  success_count c' = success_count c + tally true probed /\
  failure_count c' = failure_count c + tally false probed /\
  match last_failing hist with
  | Some cf =>
      last_failure_reason c' = last_failure_reason cf /\
      last_failure_time c' = last_failure_time cf /\
      last_failure_reason cf = Some "Health check query failed"
  | None =>
      last_failure_reason c' = last_failure_reason c /\
      last_failure_time c' = last_failure_time c
  end /\
  (forall b, probed = alternating b 10 ->
     success_count c' = success_count c + 5 /\
     failure_count c' = failure_count c + 5 /\
     last_failure_reason c' = Some "Health check query failed").
Proof.
  intros Hsome.
  pose proof (check_health_times_accounts n c w h Hsome) as Hrun.
  pose proof (check_health_times_follows n c w h Hsome) as Hprobe.
  destruct (check_health_times n c w) as [[hist c'] w'].
  destruct Hrun as [Hlen [Hfin Hall]]. destruct Hprobe as [Hfollow Hmap].
  pose proof (accounts_totals hist c Hall) as Htot. cbv zeta in Htot.
  rewrite <- Hfin, Hlen in Htot. destruct Htot as [Hc [Hs [Hf Hl]]].
  unfold successes, failures in Hs, Hf. rewrite Hmap in Hs, Hf.
  cbv zeta. repeat (split; [assumption|]).
  intros b Halt. rewrite Halt in Hs, Hf. rewrite <- Hmap in Halt.
  rewrite !alternating_tally in Hs, Hf.
  destruct (alternating_last_failing hist b Halt) as [cf Hcf].
  rewrite Hcf in Hl. destruct Hl as [Hreason [_ Hfailed]].
  repeat split; try assumption. congruence.
Qed.

(** *** Properties of the counters that every operation keeps *)

Section CounterInvariant.
Variable inv : Z -> Z -> Z -> Prop.
Hypothesis inv_zero : inv 0 0 0.
Hypothesis inv_success : forall c s f, inv c s f -> inv (c + 1) (s + 1) f.
Hypothesis inv_failure : forall c s f, inv c s f -> inv (c + 1) s (f + 1).

Lemma init_inv cfg make_handler : on_counters inv (init cfg make_handler).
Proof. exact inv_zero. Qed.

Lemma on_handler_inv {A} (m : prog MySQL.MySQLHandler A) :
  preserves (on_counters inv) (on_handler m).
Proof.
  intros c w H. unfold on_handler. destruct (mysql_handler c) as [h|]; [|exact H].
  destruct (m h w) as [[a h'] w']. exact H.
Qed.

Lemma check_health_inv : preserves (on_counters inv) check_health.
Proof.
  intros c w H. destruct (mysql_handler c) as [h|] eqn:Hh.
  - rewrite (check_health_cases c w h Hh). cbv zeta.
    destruct (MySQL.health_check h _) as [[[|] h'] w1]; unfold on_counters; simpl.
    + apply inv_success, H.
    + apply inv_failure, H.
  - rewrite (check_health_without c w Hh). exact H.
Qed.

Lemma monitoring_iteration_inv : preserves (on_counters inv) monitoring_iteration.
Proof.
  pose proof check_health_inv. pose proof (on_handler_inv MySQL.connect).
  unfold monitoring_iteration. preserve.
Qed.

Lemma monitoring_loop_inv (fuel : nat) : preserves (on_counters inv) (_monitoring_loop fuel).
Proof.
  pose proof monitoring_iteration_inv.
  induction fuel as [|fuel IH]; simpl; preserve.
Qed.

Lemma force_reconnect_inv : preserves (on_counters inv) force_reconnect.
Proof.
  pose proof check_health_inv.
  pose proof (on_handler_inv MySQL.connect).
  pose proof (on_handler_inv MySQL.disconnect).
  unfold force_reconnect, call. preserve.
Qed.

Lemma run_inv (o : operation) : preserves (on_counters inv) (run o).
Proof.
  destruct o; unfold run.
  - pose proof check_health_inv. preserve.
  - pose proof force_reconnect_inv. preserve.
  - apply monitoring_iteration_inv.
  - apply monitoring_loop_inv.
  - intros c w _. exact inv_zero.
  - intros c w H. unfold start_monitoring, bind, get, put, ret. simpl.
    destruct (thread_alive c); [exact H|]. destruct (mysql_handler c); exact H.
  - intros c w H. unfold stop_monitoring, bind, get, put, ret, ask. simpl.
    destruct (thread_alive c); exact H.
Qed.

Lemma serial_inv (c : DatabaseHealthChecker) (w : World) :
  serial c w -> on_counters inv c.
Proof.
  induction 1 as [cfg mk w | o c w c' w' _ IH Hrun].
  - apply init_inv.
  - pose proof (run_inv o c w IH) as Hb. rewrite Hrun in Hb. exact Hb.
Qed.

End CounterInvariant.

Lemma run_balanced (o : operation) : preserves balanced (run o).
Proof. apply run_inv; intros; lia. Qed.

Lemma serial_balanced (c : DatabaseHealthChecker) (w : World) :
  serial c w -> balanced c.
Proof. apply serial_inv; intros; lia. Qed.

Lemma serial_counted (c : DatabaseHealthChecker) (w : World) :
  serial c w -> counted c.
Proof. apply serial_inv; intros; lia. Qed.

Lemma check_health_halves (c : DatabaseHealthChecker) (w : World) :
  check_health c w =
    let '(started, c1, w1) := check_health_begin c w in
    if started then check_health_finish c1 w1 else (false, c1, w1).
Proof.
  unfold check_health, check_health_begin, check_health_finish, modify, call, now.
  unfold bind, ret, get, put, emit, ask.
  destruct (mysql_handler c); reflexivity.
Qed.

(** C9. The three counters are zero when the checker is built, and
    [check_count = success_count + failure_count] holds between calls
    that run one after another: in every state that whole calls of
    [check_health], [force_reconnect], [reset_statistics],
    [start_monitoring], [stop_monitoring] and turns of the monitoring loop
    lead to, and each such call keeps it; [reset_statistics] sets the three
    counters back to zero.  Inside a call of [check_health] it does not
    hold: the call is its two halves, and from the first one to the end of
    the probe [check_count] is one ahead of the sum. *)
Theorem counters_add_up :
  (forall cfg make_handler,
     let c := init cfg make_handler in
     check_count c = 0 /\ success_count c = 0 /\ failure_count c = 0) /\
  (forall c w, serial c w -> check_count c = success_count c + failure_count c) /\
  (forall o c w,
     check_count c = success_count c + failure_count c ->
     let c' := snd (fst (run o c w)) in
     check_count c' = success_count c' + failure_count c') /\
  (forall c w,
     let c' := snd (fst (reset_statistics c w)) in
     check_count c' = 0 /\ success_count c' = 0 /\ failure_count c' = 0) /\
  (forall c w h,
     mysql_handler c = Some h ->
     check_count c = success_count c + failure_count c ->
     let '(started, c1, w1) := check_health_begin c w in
     started = true /\
     check_count c1 = success_count c1 + failure_count c1 + 1 /\
     check_health c w = check_health_finish c1 w1).
Proof.
  split; [|split; [|split; [|split]]].
  - intros cfg mk. simpl. auto.
  - intros c w Hreach. apply (serial_balanced c w Hreach).
  - intros o c w Hsum. apply (run_balanced o c w Hsum).
  - intros c w. simpl. auto.
  - intros c w h Hsome Hsum.
    pose proof (check_health_halves c w) as Hhalves.
    unfold check_health_begin, modify, call, now in *. unfold_prog.
    unfold_prog_in Hhalves.
    rewrite Hsome in *. simpl in *. repeat split; [lia | exact Hhalves].
Qed.

(** C5. Whatever the state of the checker, and so after every history of
    checks, the status reports [success_rate] as the float
    [success_count / check_count * 100] when [check_count] is positive,
    the two ints being divided as ints, and as the int [0] otherwise.  In
    particular, after [n] calls of [check_health] on a new checker with a
    handler the rate is [0] for [n = 0] and the number of successful calls
    divided by [n], times 100, otherwise. *)
Theorem success_rate_formula :
  (forall c,
     (check_count c > 0 ->
      Py.lookup "success_rate" (get_health_status c) =
        Some (Py.PFloat (Py.float_mul_int
                           (Py.int_truediv (success_count c) (check_count c)) 100))) /\
     (check_count c <= 0 ->
      Py.lookup "success_rate" (get_health_status c) = Some (Py.PInt 0))) /\
  (forall n cfg h w,
     save_to_db cfg = true ->
     let '(hist, c', _) := check_health_times n (init cfg (Py.Return h)) w in
     Py.lookup "success_rate" (get_health_status c') =
       Some (match n with
             | O => Py.PInt 0
             | S _ => Py.PFloat (Py.float_mul_int
                                   (Py.int_truediv (successes hist) (Z.of_nat n)) 100)
             end)).
Proof.
  assert (Hrate : forall c,
    Py.lookup "success_rate" (get_health_status c) =
      Some (if check_count c >? 0
            then Py.PFloat (Py.float_mul_int
                              (Py.int_truediv (success_count c) (check_count c)) 100)
            else Py.PInt 0)).
  { intros c. unfold get_health_status. destruct (mysql_handler c); reflexivity. }
  split.
  - intros c. rewrite Hrate.
    destruct (Z.gtb_spec (check_count c) 0) as [Hpos|Hzero]; split; intros H;
      try reflexivity; lia.
  - intros n cfg h w Hdb.
    assert (Hsome : mysql_handler (init cfg (Py.Return h)) = Some h).
    { unfold init. simpl. rewrite Hdb. reflexivity. }
    pose proof (check_health_times_accounts n _ w h Hsome) as Hrun.
    destruct (check_health_times n (init cfg (Py.Return h)) w) as [[hist c'] w'].
    destruct Hrun as [Hlen [Hfin Hall]].
    pose proof (accounts_totals hist _ Hall) as Htot. cbv zeta in Htot.
    rewrite <- Hfin, Hlen in Htot. destruct Htot as [Hc [Hs _]].
    rewrite Hrate, Hc, Hs. simpl check_count. simpl success_count.
    destruct n as [|n]; [reflexivity|].
    destruct (Z.gtb_spec (0 + Z.of_nat (S n)) 0) as [_|Hle]; [|lia].
    rewrite !Z.add_0_l. reflexivity.
Qed.

(** *** Forced reconnection *)

Lemma health_check_confined : confined is_handler_work MySQL.health_check.
Proof.
  assert (confined is_handler_work MySQL._ensure_connection).
  { apply (confined_weaken is_connection_event); [|apply ensure_connection_confined].
    intros [[]| | | | | | | | |]; simpl; congruence. }
  unfold MySQL.health_check, MySQL.execute_query, MySQL.set_open, MySQL.set_connection, call.
  confine.
Qed.

Lemma check_health_events (c : DatabaseHealthChecker) (w : World) (h : MySQL.MySQLHandler) :
  mysql_handler c = Some h ->
  exists probe,
    extends w (snd (check_health c w)) (Call m_check_health :: probe) /\
    forallb is_handler_work probe = true.
Proof.
  intros Hsome. rewrite (check_health_cases c w h Hsome). cbv zeta.
  set (w0 := answered (logged (Call m_check_health) w)).
  assert (X0 : extends w w0 ([Call m_check_health] ++ [])).
  { apply (extends_trans w (logged (Call m_check_health) w) w0);
      [apply extends_logged | apply extends_answered]. }
  destruct (health_check_confined h w0) as [probe [X P]].
  destruct (MySQL.health_check h w0) as [[[|] h'] w1]; simpl in X |- *;
    exists probe; (split; [|exact P]).
  - apply (extends_trans _ _ _ _ _ X0 X).
  - replace (Call m_check_health :: probe)
      with (([Call m_check_health] ++ []) ++ (probe ++ [])) by
      (simpl; rewrite app_nil_r; reflexivity).
    apply (extends_trans _ _ _ _ _ X0).
    apply (extends_trans _ _ _ _ _ X). apply extends_answered.
Qed.

(** [force_reconnect] on a handler that holds no connection. *)
Lemma force_reconnect_cases (c : DatabaseHealthChecker) (w : World) (h : MySQL.MySQLHandler) :
  mysql_handler c = Some h -> MySQL.connection h = None ->
  force_reconnect c w =
    let w1 := logged (Call m_connect)
                (logged (Call m_disconnect) (logged (Call m_force_reconnect) w)) in
    if connect_ok (oracle w) (tick w) then
      let h2 := {| MySQL.connection := Some {| MySQL.open := true |};
                   MySQL.last_ping_time := clock (oracle w) (S (tick w));
                   MySQL.ping_interval := MySQL.ping_interval h;
                   MySQL.config := MySQL.config h |} in
      let '(_, c', w') :=
        check_health (set_mysql_handler c h2)
          (answered (logged (NetConnect true) (answered w1))) in
      (true, c', w')
    else (false, c, logged (NetConnect false) (answered w1)).
Proof.
  intros Hsome Hnone.
  unfold force_reconnect, on_handler, MySQL.disconnect, MySQL.connect, MySQL.connected,
    MySQL.set_connection, MySQL.set_last_ping_time.
  unfold_prog. repeat (progress (rewrite ?Hsome, ?Hnone; simpl)).
  destruct (connect_ok (oracle w) (tick w)); simpl.
  - reflexivity.
  - destruct c, h; simpl in *; subst; reflexivity.
Qed.

(** On a connection made less than the interval ago the probe neither
    pings nor connects. *)
Lemma health_check_fresh (h : MySQL.MySQLHandler) (w : World) :
  MySQL.ping_due h w = false -> MySQL.connected h = true ->
  exists evs,
    extends w (snd (MySQL.health_check h w)) evs /\
    count (is_call m_connect) evs = 0%nat.
Proof.
  intros Hdue Hc.
  unfold MySQL.health_check, MySQL.execute_query, MySQL.set_open, MySQL.set_connection.
  unfold_prog. rewrite ensure_connection_cases. cbv zeta.
  replace (MySQL.ping_due h _) with false by (rewrite <- Hdue; reflexivity).
  rewrite Hc. unfold answered, logged. simpl.
  destruct (exec_answer (oracle w) (S (tick w))) as [rows|b]; simpl.
  - exists [Call m_health_check; Call m_execute_query; Call m_ensure_connection;
            NetExecute sql_health_check [] true].
    split; [|reflexivity].
    unfold extends. simpl. rewrite <- !app_assoc. simpl. repeat split; lia.
  - exists [Call m_health_check; Call m_execute_query; Call m_ensure_connection;
            NetExecute sql_health_check [] false].
    split; [|reflexivity].
    destruct (MySQL.connection h); unfold extends; simpl; rewrite <- !app_assoc; simpl;
      repeat split; lia.
Qed.

(** C3, as the code has it.  On a checker whose handler holds no
    connection, [force_reconnect] calls [disconnect] once, which closes
    nothing, and then [connect], which asks the server once.  When that
    succeeds, [check_health] runs exactly once and [check_count] grows by
    one, and [connect] is not called again if the probe starts within the
    ping interval of the new connection.  When it fails, [force_reconnect]
    returns [False], no health check is run and the checker is unchanged. *)
Theorem force_reconnect_without_connection (c : DatabaseHealthChecker) (w : World)
    (h : MySQL.MySQLHandler) :
  mysql_handler c = Some h -> MySQL.connection h = None ->
  let ok := connect_ok (oracle w) (tick w) in
  let '(r, c', w') := force_reconnect c w in
  r = ok /\
  (exists rest,
     since w w' =
       [Call m_force_reconnect; Call m_disconnect; Call m_connect; NetConnect ok] ++ rest) /\
  count (is_call m_disconnect) (since w w') = 1%nat /\
  count is_close (since w w') = 0%nat /\
  count (is_call m_check_health) (since w w') = (if ok then 1 else 0)%nat /\
  check_count c' = check_count c + (if ok then 1 else 0) /\
  (ok = false -> c' = c) /\
  (ok = true ->
   clock (oracle w) (S (S (S (tick w)))) - clock (oracle w) (S (tick w))
     <= MySQL.ping_interval h ->
   count (is_call m_connect) (since w w') = 1%nat).
Proof.
  intros Hsome Hnone. cbv zeta.
  rewrite (force_reconnect_cases c w h Hsome Hnone). cbv zeta.
  set (w1 := logged (Call m_connect)
               (logged (Call m_disconnect) (logged (Call m_force_reconnect) w))).
  assert (X1 : extends w w1 [Call m_force_reconnect; Call m_disconnect; Call m_connect]).
  { unfold extends, w1, logged. simpl. rewrite <- !app_assoc. simpl. auto. }
  destruct (connect_ok (oracle w) (tick w)).
  - set (h2 := {| MySQL.connection := Some {| MySQL.open := true |};
                  MySQL.last_ping_time := clock (oracle w) (S (tick w));
                  MySQL.ping_interval := MySQL.ping_interval h;
                  MySQL.config := MySQL.config h |}).
    set (c2 := set_mysql_handler c h2).
    set (w3 := answered (logged (NetConnect true) (answered w1))).
    assert (X3 : extends w w3
                   [Call m_force_reconnect; Call m_disconnect; Call m_connect;
                    NetConnect true]).
    { unfold extends, w3, w1, logged, answered. simpl. rewrite <- !app_assoc. simpl.
      repeat split; lia. }
    assert (Hsome2 : mysql_handler c2 = Some h2) by reflexivity.
    destruct (check_health_events c2 w3 h2 Hsome2) as [probe [X P]].
    pose proof (check_health_call_accounts c2 w3 h2 Hsome2) as [Hcount _].
    pose proof (check_health_cases c2 w3 h2 Hsome2) as Hcases. cbv zeta in Hcases.
    destruct (check_health c2 w3) as [[r c'] w'] eqn:Hrun. simpl in X, Hcount.
    pose proof (extends_trans _ _ _ _ _ X3 X) as Xall.
    rewrite (since_extends _ _ _ Xall).
    assert (Hprobe : forall q, (forall e, is_handler_work e = true -> q e = false) ->
                     count q probe = 0%nat).
    { intros q Hq. apply (count_none is_handler_work); assumption. }
    split; [reflexivity|]. split; [eexists; reflexivity|].
    change (Call m_check_health :: probe) with ([Call m_check_health] ++ probe).
    split; [|split; [|split; [|split; [|split]]]].
    + rewrite !count_app, Hprobe; [reflexivity|].
      intros [[]| | | | | | | | |]; simpl; congruence.
    + rewrite !count_app, Hprobe; [reflexivity|].
      intros [[]| | | | | | | | |]; simpl; congruence.
    + rewrite !count_app, Hprobe; [reflexivity|].
      intros [[]| | | | | | | | |]; simpl; congruence.
    + rewrite Hcount. reflexivity.
    + discriminate.
    + intros _ Hfresh.
      assert (Hdue : MySQL.ping_due h2 (answered (logged (Call m_check_health) w3)) = false).
      { unfold MySQL.ping_due. simpl. apply andb_false_intro1.
        rewrite Z.gtb_ltb. apply Z.ltb_ge. exact Hfresh. }
      destruct (health_check_fresh h2 _ Hdue eq_refl) as [evs [Xh Ph]].
      pose proof (extends_trans w3 (logged (Call m_check_health) w3)
                    (answered (logged (Call m_check_health) w3))
                    [Call m_check_health] []
                    (extends_logged _ _) (extends_answered _)) as X0.
      destruct (MySQL.health_check h2 (answered (logged (Call m_check_health) w3)))
        as [[[|] h'] wh]; inversion Hcases; subst; simpl in Xh.
      * pose proof (extends_trans _ _ _ _ _ X0 Xh) as Xp.
        change ([Call m_check_health] ++ probe) with (Call m_check_health :: probe).
        rewrite (extends_unique _ _ _ _ X Xp). rewrite !count_app, Ph. reflexivity.
      * pose proof (extends_trans _ _ _ _ _ (extends_trans _ _ _ _ _ X0 Xh)
                      (extends_answered _)) as Xp.
        change ([Call m_check_health] ++ probe) with (Call m_check_health :: probe).
        rewrite (extends_unique _ _ _ _ X Xp). rewrite !count_app, Ph. reflexivity.
  - assert (X : extends w (logged (NetConnect false) (answered w1))
                  [Call m_force_reconnect; Call m_disconnect; Call m_connect;
                   NetConnect false]).
    { unfold extends, w1, logged, answered. simpl. rewrite <- !app_assoc. simpl.
      repeat split; lia. }
    rewrite (since_extends _ _ _ X).
    split; [reflexivity|]. split; [exists []; reflexivity|].
    repeat split; try reflexivity; try lia; try discriminate.
Qed.

End HealthMonitor.

Section HealthMonitorExamples.
Import Env Health.

Lemma run_result (o : operation) (c : DatabaseHealthChecker) (w : World) :
  run o c w = (tt, snd (fst (run o c w)), snd (run o c w)).
Proof. destruct (run o c w) as [[[] c'] w']. reflexivity. Qed.

Lemma check_health_without_handler_witness :
  check_health Scenario.idle_checker Scenario.online =
    (false, Scenario.idle_checker, logged (Call m_check_health) Scenario.online).
Proof.
  apply (check_health_without_handler Scenario.idle_checker Scenario.online).
  reflexivity.
Defined.

Lemma check_health_accounting_witness :
  let '(hist, c', _) := check_health_times 10 Scenario.live_checker Scenario.flapping in
  answers (probes 10 Scenario.connected_at_100 Scenario.flapping) = alternating true 10 /\
  map fst hist = alternating true 10 /\
  success_count c' = 5 /\ failure_count c' = 5 /\ check_count c' = 10 /\
  last_failure_reason c' = Some "Health check query failed".
Proof.
  pose proof (check_health_accounting 10 Scenario.live_checker Scenario.flapping
                Scenario.connected_at_100 eq_refl) as T.
  destruct (check_health_times 10 Scenario.live_checker Scenario.flapping)
    as [[hist c'] w'].
  assert (Hprobed : answers (probes 10 Scenario.connected_at_100 Scenario.flapping)
                    = alternating true 10) by (vm_compute; reflexivity).
  cbv zeta in T.
  destruct T as (Hmap & _ & _ & Hc & _ & _ & _ & Halt).
  destruct (Halt true Hprobed) as (Hs & Hf & Hr).
  rewrite Hprobed in Hmap.
  repeat split; assumption.
Defined.

Lemma counters_add_up_witness :
  (let c := snd (fst (run (op_monitoring_loop 3) Scenario.live_checker Scenario.flapping)) in
   check_count c = success_count c + failure_count c) /\
  (let '(started, c1, _) := check_health_begin Scenario.live_checker Scenario.flapping in
   started = true /\ check_count c1 = success_count c1 + failure_count c1 + 1).
Proof.
  split.
  - cbv zeta.
    apply (proj1 (proj2 counters_add_up) _
             (snd (run (op_monitoring_loop 3) Scenario.live_checker Scenario.flapping))).
    eapply serial_step.
    + apply (serial_init Scenario.data_cfg (Py.Return Scenario.connected_at_100)
               Scenario.flapping).
    + apply run_result.
  - pose proof (proj2 (proj2 (proj2 (proj2 counters_add_up)))
                  Scenario.live_checker Scenario.flapping Scenario.connected_at_100
                  eq_refl eq_refl) as T.
    destruct (check_health_begin Scenario.live_checker Scenario.flapping)
      as [[started c1] w1].
    destruct T as (Hs & Hc & _). split; assumption.
Defined.

(** The claim of C9 fails once the monitoring thread runs.  While the
    thread waits for its probe the status shows one check and no outcome;
    a caller who resets the statistics at that moment leaves the checker,
    after the probe, with one success and no check: out of balance until
    the next reset. *)
Lemma counters_add_up_counterexample :
  let started := start_monitoring Scenario.live_checker Scenario.flapping in
  let begun := check_health_begin (snd (fst started)) (snd started) in
  let reset := reset_statistics (snd (fst begun)) (snd begun) in
  let finished := check_health_finish (snd (fst reset)) (snd reset) in
  let c2 := snd (fst begun) in
  let c4 := snd (fst finished) in
  reachable c2 (snd begun) probing /\
  (check_count c2, success_count c2, failure_count c2) = (1, 0, 0) /\
  Py.lookup "check_count" (get_health_status c2) = Some (Py.PInt 1) /\
  Py.lookup "success_count" (get_health_status c2) = Some (Py.PInt 0) /\
  Py.lookup "failure_count" (get_health_status c2) = Some (Py.PInt 0) /\
  reachable c4 (snd finished) outside /\
  (check_count c4, success_count c4, failure_count c4) = (0, 1, 0) /\
  check_count c4 <> success_count c4 + failure_count c4.
Proof.
  intros started begun reset finished c2 c4.
  assert (R1 : reachable (snd (fst started)) (snd started) outside).
  { apply (reachable_call op_start_monitoring Scenario.live_checker Scenario.flapping).
    - apply (reachable_init Scenario.data_cfg (Py.Return Scenario.connected_at_100)).
    - discriminate.
    - reflexivity. }
  assert (R2 : reachable c2 (snd begun) probing).
  { apply (reachable_begin (snd (fst started)) (snd started)); [exact R1 | |];
      reflexivity. }
  assert (R3 : reachable (snd (fst reset)) (snd reset) probing).
  { apply (reachable_call op_reset_statistics c2 (snd begun));
      [exact R2 | intros _; reflexivity | reflexivity]. }
  assert (R4 : reachable c4 (snd finished) outside).
  { apply (reachable_finish (snd (fst reset)) (snd reset) (fst (fst finished)));
      [exact R3|].
    unfold c4, finished. destruct (check_health_finish _ _) as [[r c] w]. reflexivity. }
  split; [exact R2|].
  repeat (split; [vm_compute; reflexivity|]).
  split; [exact R4|].
  split; [vm_compute; reflexivity|].
  vm_compute. discriminate.
Qed.

Lemma success_rate_formula_witness :
  (let c := snd (fst (run op_check_health Scenario.live_checker Scenario.flapping)) in
   Py.lookup "success_rate" (get_health_status c) =
     Some (Py.PFloat (S754_finite false 7036874417766400 (-46)))) /\
  Py.lookup "success_rate" (get_health_status Scenario.idle_checker) = Some (Py.PInt 0) /\
  Py.lookup "success_rate" (get_health_status Cases.veteran) =
    Some (Py.PFloat (S754_finite false 7436714091370109 (-51))) /\
  (let '(_, c', _) :=
     check_health_times 3 (init Scenario.data_cfg (Py.Return Scenario.connected_at_100))
       Scenario.flapping in
   Py.lookup "success_rate" (get_health_status c') =
     Some (Py.PFloat (S754_finite false 4691249611844266 (-46)))).
Proof.
  split; [|split; [|split]].
  - cbv zeta.
    rewrite (proj1 (proj1 success_rate_formula
               (snd (fst (run op_check_health Scenario.live_checker Scenario.flapping)))))
      by (vm_compute; reflexivity).
    vm_compute. reflexivity.
  - apply (proj2 (proj1 success_rate_formula Scenario.idle_checker)).
    vm_compute. discriminate.
  - rewrite (proj1 (proj1 success_rate_formula Cases.veteran))
      by (vm_compute; reflexivity).
    vm_compute. reflexivity.
  - pose proof (proj2 success_rate_formula 3%nat Scenario.data_cfg
                  Scenario.connected_at_100 Scenario.flapping eq_refl) as T.
    destruct (check_health_times 3
                (init Scenario.data_cfg (Py.Return Scenario.connected_at_100))
                Scenario.flapping) as [[hist c'] w'] eqn:Hrun.
    rewrite T.
    replace hist
      with (fst (fst (check_health_times 3
                        (init Scenario.data_cfg (Py.Return Scenario.connected_at_100))
                        Scenario.flapping)))
      by (rewrite Hrun; reflexivity).
    vm_compute. reflexivity.
Defined.

(** The claim of C3 fails when the server cannot be reached: the one
    [connect] fails, no health check follows and [check_count] stays. *)
Lemma force_reconnect_without_connection_counterexample :
  let w := Scenario.offline in
  let '(r, c', w') := force_reconnect Scenario.new_checker w in
  r = false /\
  count (is_call m_disconnect) (since w w') = 1%nat /\
  count (is_call m_connect) (since w w') = 1%nat /\
  count (is_call m_check_health) (since w w') = 0%nat /\
  check_count c' = check_count Scenario.new_checker.
Proof. vm_compute. repeat split. Qed.

Lemma force_reconnect_without_connection_witness :
  let w := Scenario.online in
  let '(r, c', w') := force_reconnect Scenario.new_checker w in
  r = true /\
  count (is_call m_disconnect) (since w w') = 1%nat /\
  count (is_call m_connect) (since w w') = 1%nat /\
  count (is_call m_check_health) (since w w') = 1%nat /\
  check_count c' = check_count Scenario.new_checker + 1.
Proof.
  cbv zeta.
  pose proof (force_reconnect_without_connection Scenario.new_checker Scenario.online
                (MySQL.init Scenario.cfg) eq_refl eq_refl) as T.
  cbv zeta in T.
  destruct (force_reconnect Scenario.new_checker Scenario.online) as [[r c'] w'].
  destruct T as (Tr & _ & Td & _ & Th & Tc & _ & Tconn).
  repeat split.
  - rewrite Tr. reflexivity.
  - exact Td.
  - apply Tconn; [reflexivity | simpl; lia].
  - rewrite Th. reflexivity.
  - rewrite Tc. reflexivity.
Defined.

End HealthMonitorExamples.

Section PersistenceRouter.
Import Env Data.

Lemma on_handler_confined (p : event -> bool) {A} (m : prog MySQL.MySQLHandler A) :
  confined p m -> confined p (on_handler m).
Proof.
  intros Hm d w. unfold on_handler. destruct (mysql_handler d) as [h|].
  - destruct (Hm h w) as [evs [X P]]. exists evs.
    destruct (m h w) as [[a h'] w']. split; assumption.
  - exists []. split; [apply extends_refl | reflexivity].
Qed.

Lemma execute_insert_confined sql params :
  confined is_handler_work (MySQL.execute_insert sql params).
Proof.
  assert (confined is_handler_work MySQL._ensure_connection).
  { apply (confined_weaken is_connection_event); [|apply ensure_connection_confined].
    intros [[]| | | | | | | | |]; simpl; congruence. }
  unfold MySQL.execute_insert, MySQL.commit_if_needed, MySQL.rollback_and_fail,
    MySQL.set_open, MySQL.set_connection, call.
  confine.
Qed.

Lemma save_option_trade_confined trade :
  confined is_handler_work (MySQL.save_option_trade trade).
Proof.
  pose proof execute_insert_confined.
  unfold MySQL.save_option_trade, call, now. confine.
Qed.

(** [_save_to_database] after its entry is the handler at work. *)
Lemma save_to_database_events (trade : Py.dict) (d : DataHandler) (w : World) :
  exists evs,
    extends w (snd (_save_to_database trade d w)) (Call m_save_to_database :: evs) /\
    forallb is_handler_work evs = true.
Proof.
  pose proof (on_handler_confined is_handler_work _ (save_option_trade_confined trade)) as Hon.
  unfold _save_to_database, call, emit. unfold bind at 1. cbv beta iota.
  match goal with |- context [snd (?k d (logged ?e w))] =>
    assert (Hk : confined is_handler_work k) by confine;
    destruct (Hk d (logged e w)) as [evs [X P]]
  end.
  exists evs. split; [|exact P].
  apply (extends_trans _ _ _ [Call m_save_to_database] evs (extends_logged _ w) X).
Qed.




End PersistenceRouter.

Section StatisticsAggregator.
Import Env Data.
Variable pandas : Pandas.

Lemma get_statistics_cases (d : DataHandler) (w : World) :
  get_statistics pandas d w =
    let '(df, d1, w1) := load_historical_data pandas 7 d (logged (Call m_get_statistics) w) in
    if empty df then ([("total_trades", Py.PInt 0)], d1, w1)
    else match summary pandas df with
         | Py.Return stats => (stats, d1, w1)
         | Py.Raise msg => ([("error", Py.PStr msg)], d1, w1)
         end.
Proof.
  unfold get_statistics, call, emit, bind, ret.
  destruct (load_historical_data pandas 7 d (logged (Call m_get_statistics) w))
    as [[df d1] w1].
  destruct (empty df); [reflexivity|]. destruct (summary pandas df); reflexivity.
Qed.

Lemma summary_total_trades (df : DataFrame) (stats : Py.dict) :
  summary pandas df = Py.Return stats ->
  Py.lookup "total_trades" stats = Some (Py.PInt (Z.of_nat (List.length (df_rows df)))).
Proof.
  unfold summary, bind_result.
  repeat match goal with
         | |- context [match ?r with Py.Return _ => _ | Py.Raise _ => _ end] =>
             destruct r; try discriminate
         end.
  intros H. inversion H. reflexivity.
Qed.

(** C8. When the table that [load_historical_data] returns is empty,
    [get_statistics] returns the dict with the single entry
    [total_trades = 0]: no error entry.  Whatever is loaded, and whatever
    pandas does, the call returns a dict: the zero status, a summary
    whose [total_trades] is the number of rows, or an [error] entry with
    the message of the exception. *)
Theorem get_statistics_on_empty (d : DataHandler) (w : World) :
  let '(df, d1, w1) := load_historical_data pandas 7 d (logged (Call m_get_statistics) w) in
  let '(stats, d', w') := get_statistics pandas d w in
  d' = d1 /\ w' = w1 /\
  (empty df = true ->
     stats = [("total_trades", Py.PInt 0)] /\ Py.lookup "error" stats = None) /\
  (empty df = false ->
     Py.lookup "total_trades" stats = Some (Py.PInt (Z.of_nat (List.length (df_rows df)))) \/
     exists msg, stats = [("error", Py.PStr msg)]).
Proof.
  rewrite get_statistics_cases.
  destruct (load_historical_data pandas 7 d (logged (Call m_get_statistics) w))
    as [[df d1] w1].
  destruct (empty df).
  - repeat split; try discriminate. 
  - pose proof (summary_total_trades df) as Htotal.
    destruct (summary pandas df) as [stats|msg].
    + repeat split; try discriminate. intros _. left. apply Htotal. reflexivity.
    + repeat split; try discriminate. intros _. right. exists msg. reflexivity.
Qed.

End StatisticsAggregator.

Section StatisticsAggregatorExamples.
Import Env Data.

Lemma get_statistics_on_empty_witness :
  fst (fst (get_statistics int_pandas Scenario.csv_handler Scenario.online)) =
    [("total_trades", Py.PInt 0)].
Proof.
  pose proof (get_statistics_on_empty int_pandas Scenario.csv_handler Scenario.online) as T.
  destruct (load_historical_data int_pandas 7 Scenario.csv_handler
              (logged (Call m_get_statistics) Scenario.online)) as [[df d1] w1] eqn:Hload.
  destruct (get_statistics int_pandas Scenario.csv_handler Scenario.online)
    as [[stats d'] w'].
  destruct T as (_ & _ & T & _). simpl. apply T.
  replace df with (fst (fst (load_historical_data int_pandas 7 Scenario.csv_handler
                               (logged (Call m_get_statistics) Scenario.online))))
    by (rewrite Hload; reflexivity).
  reflexivity.
Defined.

End StatisticsAggregatorExamples.

(** ** Concrete runs *)

Section Runs.
Import Env.

(** A new checker reports a rate of [0], no check and no thread. *)
Example status_of_new_checker :
  let status := Health.get_health_status Scenario.new_checker in
  Py.lookup "success_rate" status = Some (Py.PInt 0) /\
  Py.lookup "check_count" status = Some (Py.PInt 0) /\
  Py.lookup "monitoring_active" status = Some Py.PNone /\
  Py.lookup "database_connected" status = Some (Py.PBool false) /\
  Py.lookup "last_ping_time" status = Some Py.PNone.
Proof. vm_compute. repeat split. Qed.

(** Three turns of the monitoring loop against the flapping server. *)
Example three_turns_of_the_loop :
  let c := snd (fst (Health._monitoring_loop 3 Scenario.live_checker Scenario.flapping)) in
  Health.check_count c = 3 /\
  Health.success_count c + Health.failure_count c = 3 /\
  Health.last_check_time c = Some 200.
Proof. vm_compute. repeat split. Qed.

(** With the database unreachable and the CSV file in place, one trade of
    volume 100 and turnover 5000 is summarised from the file. *)
Example statistics_of_one_trade :
  fst (fst (Data.get_statistics Data.int_pandas Scenario.csv_handler Scenario.with_csv)) =
    [ ("total_trades", Py.PInt 1);
      ("unique_stocks", Py.PInt 1);
      ("unique_options", Py.PInt 1);
      ("total_volume", Py.PInt 100);
      ("total_turnover", Py.PInt 5000);
      ("avg_trade_size", Py.PFloat (Py.float_of_int 100));
      ("latest_trade_time", Py.PTimeText "%Y-%m-%d %H:%M:%S" 1000) ].
Proof. vm_compute. reflexivity. Qed.

(** With both sinks enabled and the server unreachable the row is still
    written to the file, and the insert is given up after one attempt to
    connect. *)
Example save_with_both_sinks_offline :
  let w := Scenario.offline in
  let '(r, _, w') := Data.save_trade Scenario.trade Scenario.both_sinks w in
  r = Py.PNone /\
  since w w' =
    [ Call m_save_trade; Call m_save_to_csv; CsvWrite true Scenario.trade true;
      Call m_save_to_database; Call m_save_option_trade; Call m_execute_insert;
      Call m_ensure_connection; Call m_connect; NetConnect false ].
Proof. vm_compute. split; reflexivity. Qed.

End Runs.

(** * Further properties of the sources *)

(** The events a program added, read off worlds that are written out. *)
Ltac eval_since :=
  unfold Env.since, Env.logged, Env.answered; simpl Env.trace;
  rewrite <- ?app_assoc; rewrite skipn_app, skipn_all, Nat.sub_diag; simpl.

(** The events between a world and one built from it by [logged] and
    [answered]. *)
Ltac extend :=
  first [ apply extends_refl
        | eapply extends_trans;
          [ | first [ apply extends_logged | apply extends_answered ] ]; extend ].

Section MoreConnectionHandle.
Import Env Events MySQL.

Lemma connect_state (h : MySQLHandler) (w : World) :
  connected (snd (fst (connect h w))) = fst (fst (connect h w)) /\
  ping_interval (snd (fst (connect h w))) = ping_interval h /\
  config (snd (fst (connect h w))) = config h.
Proof.
  destruct (connected h) eqn:Hc.
  - rewrite (connect_when_open h w Hc). simpl. auto.
  - rewrite (connect_when_closed h w Hc).
    destruct (connect_ok (oracle w) (tick w)); simpl; auto.
Qed.

(** X1. The answer of [connect] is the state it leaves: the handler
    reports an open connection exactly when [connect] returned [True], and
    after [False] it holds no connection at all.  At most one call reaches
    the server, and the ping interval and the configuration never
    change. *)
Theorem connect_reports_state (h : MySQLHandler) (w : World) :
  let '(b, h', w') := connect h w in
  connected h' = b /\
  (if b then True else connection h' = None) /\
  ping_interval h' = ping_interval h /\ config h' = config h /\
  count is_network (since w w') = count is_connect_attempt (since w w') /\
  (count is_connect_attempt (since w w') <= 1)%nat.
Proof.
  destruct (connected h) eqn:Hc.
  - rewrite (connect_when_open h w Hc). eval_since.
    repeat split; auto; unfold count; simpl; lia.
  - rewrite (connect_when_closed h w Hc).
    destruct (connect_ok (oracle w) (tick w)); eval_since;
      repeat split; auto; unfold count; simpl; lia.
Qed.

Lemma ensure_connection_state (h : MySQLHandler) (w : World) :
  connected (snd (fst (_ensure_connection h w))) = fst (fst (_ensure_connection h w)) /\
  ping_interval (snd (fst (_ensure_connection h w))) = ping_interval h /\
  config (snd (fst (_ensure_connection h w))) = config h.
Proof.
  rewrite ensure_connection_cases. cbv zeta.
  destruct (ping_due h w) eqn:Hdue.
  - destruct (ping_result (oracle w) (S (tick w))) as [|b].
    + simpl. unfold ping_due in Hdue. apply andb_prop in Hdue. destruct Hdue as [_ Hc].
      unfold connected in *. simpl. auto.
    + match goal with |- context [connect ?h' ?w'] =>
        destruct (connect_state h' w') as (S1 & S2 & S3) end.
      rewrite S1, S2, S3. auto.
  - destruct (connected h) eqn:Hc.
    + simpl. auto.
    + apply connect_state.
Qed.

(** X2. [_ensure_connection] returns [True] only with a handler that
    reports an open connection, and [False] only with one that does not.
    Whatever happens, it runs no statement and closes nothing: it only
    pings or connects. *)
Theorem ensure_connection_reports_state (h : MySQLHandler) (w : World) :
  let '(b, h', w') := _ensure_connection h w in
  connected h' = b /\
  ping_interval h' = ping_interval h /\ config h' = config h /\
  count is_statement (since w w') = 0%nat /\
  count is_close (since w w') = 0%nat.
Proof.
  pose proof (ensure_connection_state h w) as (S1 & S2 & S3).
  destruct (ensure_connection_confined h w) as [evs [X P]].
  destruct (_ensure_connection h w) as [[b h'] w']. simpl in *.
  rewrite (since_extends _ _ _ X).
  repeat split; try assumption.
  - apply (count_none is_connection_event); [|exact P].
    intros [[]| | | | | | | | |]; simpl; congruence.
  - apply (count_none is_connection_event); [|exact P].
    intros [[]| | | | | | | | |]; simpl; congruence.
Qed.

(** *** Statements *)

Lemma since_tail (w w1 w2 : World) (evs rest : list event) :
  extends w w1 evs -> trace w2 = trace w1 ++ rest -> since w w2 = evs ++ rest.
Proof.
  unfold extends, since. intros [H _] H2.
  rewrite H2, H, <- app_assoc, skipn_app, skipn_all, Nat.sub_diag. reflexivity.
Qed.

Lemma filter_none (p q : event -> bool) (evs : list event) :
  (forall e, p e = true -> q e = false) ->
  forallb p evs = true -> filter q evs = [].
Proof.
  intros Hpq. induction evs as [|e evs IH]; simpl; [reflexivity|].
  intros H. apply andb_prop in H. destruct H as [He Hevs].
  rewrite (Hpq e He). auto.
Qed.

Lemma connection_events_quiet (evs : list event) :
  forallb is_connection_event evs = true ->
  statements evs = [] /\
  count is_execute evs = 0%nat /\ count is_execute_many evs = 0%nat /\
  count is_commit evs = 0%nat /\ count is_rollback evs = 0%nat /\
  count is_close evs = 0%nat.
Proof.
  intros P. split; [|repeat split].
  - apply (filter_none is_connection_event); [|exact P].
    intros [[]| | | | | | | | |]; simpl; congruence.
  - apply (count_none is_connection_event); [|exact P].
    intros [[]| | | | | | | | |]; simpl; congruence.
  - apply (count_none is_connection_event); [|exact P].
    intros [[]| | | | | | | | |]; simpl; congruence.
  - apply (count_none is_connection_event); [|exact P].
    intros [[]| | | | | | | | |]; simpl; congruence.
  - apply (count_none is_connection_event); [|exact P].
    intros [[]| | | | | | | | |]; simpl; congruence.
  - apply (count_none is_connection_event); [|exact P].
    intros [[]| | | | | | | | |]; simpl; congruence.
Qed.

Lemma set_open_eq (b : bool) (h : MySQLHandler) (w : World) :
  set_open b h w = (tt, Handler.with_open b h, w).
Proof.
  unfold set_open, set_connection, Handler.with_open. unfold_prog.
  destruct (connection h); reflexivity.
Qed.

Lemma with_open_state (b : bool) (h : MySQLHandler) :
  connected h = true ->
  connected (Handler.with_open b h) = b /\
  config (Handler.with_open b h) = config h /\
  autocommit_on (Handler.with_open b h) = autocommit_on h.
Proof.
  unfold connected, Handler.with_open, autocommit_on.
  destruct (connection h); [|discriminate]. simpl. auto.
Qed.

Lemma execute_query_cases sql params (h : MySQLHandler) (w : World) :
  execute_query sql params h w =
    let '(ok, h1, w1) := _ensure_connection h (logged (Call m_execute_query) w) in
    if ok then
      match exec_answer (oracle w1) (tick w1) with
      | Rows rows =>
          (Some rows, h1, logged (NetExecute sql params true) (answered w1))
      | ExecFailed b =>
          (None, Handler.with_open b h1,
           logged (NetExecute sql params false) (answered w1))
      end
    else (None, h1, w1).
Proof.
  unfold execute_query, call, emit, bind, ret, ask. cbv beta iota zeta.
  destruct (_ensure_connection h (logged (Call m_execute_query) w)) as [[[|] h1] w1];
    cbv beta iota zeta delta [negb]; [|reflexivity].
  destruct (exec_answer (oracle w1) (tick w1)); [reflexivity|].
  rewrite set_open_eq. reflexivity.
Qed.

Lemma execute_query_spec sql params (h : MySQLHandler) (w : World) :
  let '(ok, h1, w1) := _ensure_connection h (logged (Call m_execute_query) w) in
  let '(r, h', w') := execute_query sql params h w in
  statements (since w w') =
    (if ok
     then [NetExecute sql params (match r with Some _ => true | None => false end)]
     else []) /\
  (if ok then
     match r with
     | Some rows => exec_answer (oracle w1) (tick w1) = Rows rows /\ h' = h1
     | None => exists b, exec_answer (oracle w1) (tick w1) = ExecFailed b /\
                         connected h' = b
     end
   else r = None /\ h' = h1 /\ w' = w1).
Proof.
  rewrite execute_query_cases.
  set (w0 := logged (Call m_execute_query) w).
  assert (X0 : extends w w0 [Call m_execute_query]) by apply extends_logged.
  destruct (ensure_connection_confined h w0) as [evs [X P]].
  pose proof (ensure_connection_state h w0) as (S1 & _ & _).
  destruct (_ensure_connection h w0) as [[ok h1] w1]. simpl in X, S1.
  pose proof (extends_trans _ _ _ _ _ X0 X) as X1.
  destruct (connection_events_quiet evs P) as (Q & _).
  destruct ok.
  - destruct (exec_answer (oracle w1) (tick w1)) as [rows|b].
    + split; [|auto].
      erewrite (since_tail _ _ _ _ _ X1) by
        (unfold logged, answered; simpl; reflexivity).
      unfold statements in *. rewrite !filter_app, Q. reflexivity.
    + split.
      * erewrite (since_tail _ _ _ _ _ X1) by
          (unfold logged, answered; simpl; reflexivity).
        unfold statements in *. rewrite !filter_app, Q. reflexivity.
      * exists b. split; [reflexivity|]. apply with_open_state, S1.
  - split; [|auto]. rewrite (since_extends _ _ _ X1).
    unfold statements in *. rewrite filter_app, Q. reflexivity.
Qed.

(** X3. [execute_query] sends its statement exactly when
    [_ensure_connection] made a connection available, once, and sends
    nothing else: no commit, no rollback.  It returns the rows the server
    answered, and [None] when there was no connection or the statement
    failed; after a failed statement the handler reports what the
    connection object reports. *)
Theorem execute_query_outcome sql params (h : MySQLHandler) (w : World) :
  let '(ok, h1, w1) := _ensure_connection h (logged (Call m_execute_query) w) in
  let '(r, h', w') := execute_query sql params h w in
  statements (since w w') =
    (if ok
     then [NetExecute sql params (match r with Some _ => true | None => false end)]
     else []) /\
  (if ok then
     match r with
     | Some rows => exec_answer (oracle w1) (tick w1) = Rows rows /\ h' = h1
     | None => exists b, exec_answer (oracle w1) (tick w1) = ExecFailed b /\
                         connected h' = b
     end
   else r = None /\ h' = h1 /\ w' = w1).
Proof. exact (execute_query_spec sql params h w). Qed.

Lemma execute_query_confined sql params :
  confined is_handler_work (execute_query sql params).
Proof.
  assert (confined is_handler_work _ensure_connection).
  { apply (confined_weaken is_connection_event); [|apply ensure_connection_confined].
    intros [[]| | | | | | | | |]; simpl; congruence. }
  unfold execute_query, set_open, set_connection, call. confine.
Qed.

(** What a query leaves behind, seen from a world [w] the query started
    [before] events after. *)
Lemma query_statements sql params (h : MySQLHandler) (w w0 : World)
    (before : list event) :
  extends w w0 before -> statements before = [] ->
  let '(r, h', w') := execute_query sql params h w0 in
  match r with
  | Some rows =>
      statements (since w w') = [NetExecute sql params true] /\ connected h' = true
  | None =>
      statements (since w w') = [] \/
      statements (since w w') = [NetExecute sql params false]
  end /\
  count is_close (since w w') = count is_close before.
Proof.
  intros X0 Hq.
  pose proof (execute_query_spec sql params h w0) as Hspec.
  pose proof (ensure_connection_state h (logged (Call m_execute_query) w0)) as (S1 & _).
  destruct (_ensure_connection h (logged (Call m_execute_query) w0)) as [[ok h1] w1].
  destruct (execute_query_confined sql params h w0) as [evs [X P]].
  destruct (execute_query sql params h w0) as [[r h'] w']. simpl in X, S1.
  destruct Hspec as (Hst & Hres).
  rewrite (since_extends _ _ _ X) in Hst.
  rewrite (since_extends _ _ _ (extends_trans _ _ _ _ _ X0 X)).
  unfold statements in *. rewrite filter_app, Hq, Hst. simpl.
  split.
  - destruct ok.
    + destruct r as [rows|].
      * destruct Hres as (_ & ->). auto.
      * right. reflexivity.
    + destruct Hres as (-> & _). left. reflexivity.
  - rewrite count_app. rewrite (count_none is_handler_work is_close evs); [lia| |exact P].
    intros [[]| | | | | | | | |]; simpl; congruence.
Qed.

(** What a query returns and sends, in terms of what the server
    answers once [_ensure_connection] has run. *)
Lemma query_answered sql params (h : MySQLHandler) (w w0 : World)
    (before : list event) :
  extends w w0 before -> statements before = [] ->
  let '(ok, h1, w1) := _ensure_connection h (logged (Call m_execute_query) w0) in
  let '(r, h', w') := execute_query sql params h w0 in
  r = (if ok then
         match exec_answer (oracle w1) (tick w1) with
         | Rows rows => Some rows
         | ExecFailed _ => None
         end
       else None) /\
  statements (since w w') =
    (if ok then
       [NetExecute sql params
          match exec_answer (oracle w1) (tick w1) with
          | Rows _ => true
          | ExecFailed _ => false
          end]
     else []) /\
  (if ok then
     connected h' = match exec_answer (oracle w1) (tick w1) with
                    | Rows _ => true
                    | ExecFailed still_open => still_open
                    end
   else True).
Proof.
  intros X0 Hq.
  pose proof (execute_query_spec sql params h w0) as Hspec.
  pose proof (ensure_connection_state h (logged (Call m_execute_query) w0)) as (S1 & _).
  destruct (_ensure_connection h (logged (Call m_execute_query) w0)) as [[ok h1] w1].
  destruct (execute_query_confined sql params h w0) as [evs [X P]].
  destruct (execute_query sql params h w0) as [[r h'] w']. simpl in X, S1.
  destruct Hspec as (Hst & Hres).
  rewrite (since_extends _ _ _ X) in Hst.
  rewrite (since_extends _ _ _ (extends_trans _ _ _ _ _ X0 X)).
  unfold statements in *. rewrite filter_app, Hq, Hst. simpl.
  destruct ok.
  - destruct r as [rows|].
    + destruct Hres as (Ha & ->). rewrite Ha. auto.
    + destruct Hres as (b & Ha & Hc). rewrite Ha. auto.
  - destruct Hres as (-> & _). auto.
Qed.

Lemma health_check_statements (h : MySQLHandler) (w w0 : World) (before : list event) :
  extends w w0 before -> statements before = [] ->
  let '(b, h', w') := health_check h w0 in
  count is_close (since w w') = count is_close before /\
  match statements (since w w') with
  | [] => b = false
  | [NetExecute sql_health_check [] ok] =>
      if b then ok = true /\ connected h' = true else True
  | _ => False
  end.
Proof.
  intros X0 Hq.
  assert (X1 : extends w (logged (Call m_health_check) w0) (before ++ [Call m_health_check]))
    by (eapply extends_trans; [exact X0 | apply extends_logged]).
  assert (Hq1 : statements (before ++ [Call m_health_check]) = [])
    by (unfold statements in *; rewrite filter_app, Hq; reflexivity).
  pose proof (query_statements sql_health_check [] h w _ _ X1 Hq1) as H.
  unfold health_check, call, emit. unfold bind at 1 2. cbv beta iota zeta.
  destruct (execute_query sql_health_check [] h (logged (Call m_health_check) w0))
    as [[[rows|] h'] w']; unfold ret; cbv beta iota zeta; destruct H as (Hst & Hcl).
  - destruct Hst as (Hst & Hc). rewrite Hst. split.
    + rewrite Hcl, count_app. unfold count. simpl. lia.
    + destruct (0 <? Z.of_nat (List.length rows)); auto.
  - split.
    + rewrite Hcl, count_app. unfold count. simpl. lia.
    + destruct Hst as [Hst | Hst]; rewrite Hst; auto.
Qed.

(** X6. [health_check] never closes the connection and sends at most one
    statement, the probe, and only when [_ensure_connection] made a
    connection available.  It returns [True] exactly when the server
    answered the probe with at least one row, and then the handler reports
    an open connection; no connection, a failed statement and an answer
    without rows all give [False], never an exception. *)
Theorem health_check_verdict (h : MySQLHandler) (w : World) :
  let '(ok, _, w1) :=
    _ensure_connection h
      (logged (Call m_execute_query) (logged (Call m_health_check) w)) in
  let '(b, h', w') := health_check h w in
  count is_close (since w w') = 0%nat /\
  b = ok && match exec_answer (oracle w1) (tick w1) with
            | Rows (_ :: _) => true
            | _ => false
            end /\
  statements (since w w') =
    (if ok then
       [NetExecute sql_health_check []
          match exec_answer (oracle w1) (tick w1) with
          | Rows _ => true
          | ExecFailed _ => false
          end]
     else []) /\
  (if b then connected h' = true else True).
Proof.
  pose proof (health_check_statements h w w [] (extends_refl w) eq_refl) as Hclose.
  pose proof (query_answered sql_health_check [] h w (logged (Call m_health_check) w)
                [Call m_health_check] (extends_logged _ w) eq_refl) as H.
  unfold health_check, call, emit in *. unfold bind at 1 2 in Hclose.
  unfold bind at 1 2. cbv beta iota zeta in *.
  destruct (_ensure_connection h
              (logged (Call m_execute_query) (logged (Call m_health_check) w)))
    as [[ok h1] w1].
  destruct (execute_query sql_health_check [] h (logged (Call m_health_check) w))
    as [[r h'] w'].
  destruct H as (Hr & Hst & Hc). subst r.
  destruct ok; cbn [andb].
  - destruct (exec_answer (oracle w1) (tick w1)) as [[|row rows]|still_open];
      unfold ret in *; destruct Hclose as (Hclose & _); repeat split; auto.
  - unfold ret in *. destruct Hclose as (Hclose & _). repeat split; auto.
Qed.


Lemma send_and_settle_spec (sent : bool -> event) (h1 : MySQLHandler) (w1 : World) :
  connected h1 = true ->
  let '(b, h', w') := Handler.send_and_settle sent h1 w1 in
  exists rest,
    trace w' = trace w1 ++ rest /\
    (b, rest) = Handler.insert_protocol (autocommit_on h1) (oracle w1) (tick w1) sent /\
    config h' = config h1.
Proof.
  intros Hc.
  unfold Handler.send_and_settle, Handler.insert_protocol, commit_if_needed,
    rollback_and_fail, ask, emit, bind, ret, get.
  cbv beta iota zeta.
  destruct (exec_answer (oracle w1) (tick w1)) as [rows|so]; cbv beta iota zeta.
  - destruct (autocommit_on h1) eqn:Ha; cbv beta iota zeta delta [negb].
    + eexists. split; [|split; reflexivity]. reflexivity.
    + simpl. destruct (commit_result (oracle w1) (S (tick w1))) as [|so];
        cbv beta iota zeta.
      * eexists. split; [|split; reflexivity]. simpl. rewrite <- app_assoc. reflexivity.
      * rewrite set_open_eq. cbv beta iota zeta.
        destruct (with_open_state so h1 Hc) as (_ & Hcfg & Hauto).
        rewrite Hauto, Ha. simpl.
        eexists. split; [|split; [reflexivity | exact Hcfg]].
        rewrite <- !app_assoc. reflexivity.
  - rewrite set_open_eq. cbv beta iota zeta.
    destruct (with_open_state so h1 Hc) as (_ & Hcfg & Hauto).
    rewrite Hauto.
    destruct (autocommit_on h1); simpl.
    + eexists. split; [|split; [reflexivity | exact Hcfg]]. reflexivity.
    + eexists. split; [|split; [reflexivity | exact Hcfg]].
      rewrite <- !app_assoc. reflexivity.
Qed.

Lemma insert_protocol_statements (auto : bool) (o : Oracle) (t : nat)
    (sent : bool -> event) :
  (forall b, is_statement (sent b) = true) ->
  statements (snd (Handler.insert_protocol auto o t sent)) =
    snd (Handler.insert_protocol auto o t sent).
Proof.
  intros Hsent. unfold Handler.insert_protocol, statements.
  destruct (exec_answer o t); destruct auto; try destruct (commit_result o (S t));
    simpl; rewrite ?Hsent; reflexivity.
Qed.

Lemma execute_insert_cases sql params (h : MySQLHandler) (w : World) :
  execute_insert sql params h w =
    let '(ok, h1, w1) := _ensure_connection h (logged (Call m_execute_insert) w) in
    if ok then Handler.send_and_settle (NetExecute sql params) h1 w1
    else (false, h1, w1).
Proof.
  unfold execute_insert, Handler.send_and_settle, call, emit. unfold bind at 1 2.
  cbv beta iota zeta.
  destruct (_ensure_connection h (logged (Call m_execute_insert) w)) as [[[|] h1] w1];
    reflexivity.
Qed.

Lemma execute_batch_insert_cases sql params_list (h : MySQLHandler) (w : World) :
  execute_batch_insert sql params_list h w =
    let '(ok, h1, w1) := _ensure_connection h (logged (Call m_execute_batch_insert) w) in
    if ok then
      match params_list with
      | [] => (true, h1, w1)
      | _ :: _ => Handler.send_and_settle (NetExecuteMany sql params_list) h1 w1
      end
    else (false, h1, w1).
Proof.
  unfold execute_batch_insert, Handler.send_and_settle, call, emit. unfold bind at 1 2.
  cbv beta iota zeta.
  destruct (_ensure_connection h (logged (Call m_execute_batch_insert) w))
    as [[[|] h1] w1]; [|reflexivity].
  destruct params_list; reflexivity.
Qed.

(** The two inserts, once their entry is recorded as [entry]. *)
Lemma insert_outcome (entry : method) (sent : bool -> event)
    (h : MySQLHandler) (w : World) :
  (forall b, is_statement (sent b) = true) ->
  let '(ok, h1, w1) := _ensure_connection h (logged (Call entry) w) in
  (let '(b, h', w') := (false, h1, w1) in
   ok = false -> (b, statements (since w w')) = (false, []) /\ config h' = config h) /\
  (let '(b, h', w') := (true, h1, w1) in
   ok = true -> (b, statements (since w w')) = (true, []) /\ config h' = config h) /\
  (let '(b, h', w') := Handler.send_and_settle sent h1 w1 in
   ok = true ->
   (b, statements (since w w')) =
     Handler.insert_protocol (autocommit_on h) (oracle w) (tick w1) sent /\
   config h' = config h).
Proof.
  intros Hsent.
  set (w0 := logged (Call entry) w).
  assert (X0 : extends w w0 [Call entry]) by apply extends_logged.
  destruct (ensure_connection_confined h w0) as [evs [X P]].
  pose proof (ensure_connection_state h w0) as (S1 & _ & S3).
  destruct (_ensure_connection h w0) as [[ok h1] w1]. simpl in X, S1, S3.
  pose proof (extends_trans _ _ _ _ _ X0 X) as X1.
  destruct (connection_events_quiet evs P) as (Q & _).
  assert (Hquiet : statements ([Call entry] ++ evs) = []).
  { unfold statements in *. rewrite filter_app, Q. reflexivity. }
  split; [|split].
  - intros _. rewrite (since_extends _ _ _ X1), Hquiet. auto.
  - intros _. rewrite (since_extends _ _ _ X1), Hquiet. auto.
  - pose proof (send_and_settle_spec sent h1 w1) as Hrun.
    destruct (Handler.send_and_settle sent h1 w1) as [[b h'] w'].
    intros Hok. rewrite Hok in S1. destruct (Hrun S1) as [rest (Ht & Hp & Hcfg)].
    rewrite (since_tail _ _ _ _ _ X1 Ht).
    assert (Hauto : autocommit_on h1 = autocommit_on h)
      by (unfold autocommit_on; rewrite S3; reflexivity).
    destruct X as (_ & Ho & _). unfold w0 in Ho. simpl in Ho.
    rewrite <- Hauto, <- Ho, <- Hp.
    split; [|congruence].
    pose proof (insert_protocol_statements (autocommit_on h1) (oracle w1) (tick w1)
                  sent Hsent) as Hst.
    rewrite <- Hp in Hst. simpl in Hst.
    unfold statements in *. rewrite filter_app, Hquiet, Hst. reflexivity.
Qed.

(** X4. [execute_insert] speaks to the server by a fixed protocol.  With
    no connection available it sends nothing and returns [False].
    Otherwise it sends the statement once; with autocommit on (the default
    when the key is missing) nothing follows; with autocommit off a
    successful statement is followed by one commit, and a failed statement
    or a failed commit by one rollback.  It returns [True] exactly when the
    statement and the commit, if there is one, succeeded.  The
    configuration is never changed. *)
Theorem execute_insert_protocol sql params (h : MySQLHandler) (w : World) :
  let '(ok, _, w1) := _ensure_connection h (logged (Call m_execute_insert) w) in
  let '(b, h', w') := execute_insert sql params h w in
  (b, statements (since w w')) =
    (if ok
     then Handler.insert_protocol (autocommit_on h) (oracle w) (tick w1)
            (NetExecute sql params)
     else (false, [])) /\
  config h' = config h.
Proof.
  rewrite execute_insert_cases.
  pose proof (insert_outcome m_execute_insert (NetExecute sql params) h w
                (fun _ => eq_refl)) as H.
  destruct (_ensure_connection h (logged (Call m_execute_insert) w)) as [[[|] h1] w1].
  - destruct H as (_ & _ & H).
    destruct (Handler.send_and_settle (NetExecute sql params) h1 w1) as [[b h'] w'].
    apply H. reflexivity.
  - destruct H as (H & _). apply H. reflexivity.
Qed.

(** X5. [execute_batch_insert] hands the whole list to the server in one
    [executemany], never row by row, and settles it like a single insert:
    with autocommit off one commit follows a successful batch and one
    rollback a failed batch or a failed commit, so the rows are kept or
    dropped together.  With no connection available it sends nothing and
    returns [False]; with an empty list it sends no statement. *)
Theorem execute_batch_insert_protocol sql params_list (h : MySQLHandler) (w : World) :
  let '(ok, _, w1) := _ensure_connection h (logged (Call m_execute_batch_insert) w) in
  let '(b, h', w') := execute_batch_insert sql params_list h w in
  (b, statements (since w w')) =
    (if ok then
       match params_list with
       | [] => (true, [])
       | _ :: _ =>
           Handler.insert_protocol (autocommit_on h) (oracle w) (tick w1)
             (NetExecuteMany sql params_list)
       end
     else (false, [])) /\
  config h' = config h.
Proof.
  rewrite execute_batch_insert_cases.
  pose proof (insert_outcome m_execute_batch_insert (NetExecuteMany sql params_list) h w
                (fun _ => eq_refl)) as H.
  destruct (_ensure_connection h (logged (Call m_execute_batch_insert) w))
    as [[[|] h1] w1].
  - destruct params_list as [|p ps].
    + destruct H as (_ & H & _). apply H. reflexivity.
    + destruct H as (_ & _ & H).
      destruct (Handler.send_and_settle (NetExecuteMany sql (p :: ps)) h1 w1)
        as [[b h'] w'].
      apply H. reflexivity.
  - destruct H as (H & _). apply H. reflexivity.
Qed.

(** X8. Whatever the record holds, each of the three inserts passes as
    many parameters as its statement has [%s] placeholders (25, 15 and 7),
    and passes them in the order of the columns that the statement names:
    each parameter is what the record holds under the name of its column,
    and, where the record has no such key, the default of that column: the
    clock reading for the time, the empty string, [0] or [futu] where the
    source gives one, and [None] everywhere else.  An expiry date given as
    the empty string is passed as [None]. *)
Theorem insert_parameters_fit (record : Py.dict) (t : Z) :
  List.length (option_trade_params record t) =
    Handler.placeholders Handler.text_insert_option_trade /\
  List.length (Handler.stock_price_params record t) =
    Handler.placeholders Handler.text_upsert_stock_price /\
  List.length (Handler.push_record_params record t) =
    Handler.placeholders Handler.text_insert_push_record /\
  Forall2 (Handler.filled (Handler.option_trade_defaults t) record)
    (Handler.columns Handler.text_insert_option_trade) (option_trade_params record t) /\
  Forall2 (Handler.filled (Handler.stock_price_defaults t) record)
    (Handler.columns Handler.text_upsert_stock_price)
    (Handler.stock_price_params record t) /\
  Forall2 (Handler.filled (Handler.push_record_defaults t) record)
    (Handler.columns Handler.text_insert_push_record)
    (Handler.push_record_params record t).
Proof.
  assert (Hget : forall k d,
            Py.get_or record k d =
              match Py.lookup k record with Some v => v | None => d end)
    by reflexivity.
  split; [reflexivity|]. split; [reflexivity|]. split; [reflexivity|].
  split; [|split].
  - let cols := eval vm_compute in (Handler.columns Handler.text_insert_option_trade) in
    change (Handler.columns Handler.text_insert_option_trade) with cols.
    unfold option_trade_params, Py.get.
    repeat (constructor;
            [unfold Handler.filled; rewrite ?Hget; cbn [String.eqb Ascii.eqb Bool.eqb];
             cbn [Py.lookup Handler.option_trade_defaults String.eqb Ascii.eqb Bool.eqb];
             try reflexivity|]).
    + destruct (Py.lookup "expiry_date" record) as [[| | | |[|]| |]|]; reflexivity.
    + constructor.
  - let cols := eval vm_compute in (Handler.columns Handler.text_upsert_stock_price) in
    change (Handler.columns Handler.text_upsert_stock_price) with cols.
    unfold Handler.stock_price_params, Py.get.
    repeat (constructor;
            [unfold Handler.filled; rewrite ?Hget; cbn [String.eqb Ascii.eqb Bool.eqb];
             cbn [Py.lookup Handler.stock_price_defaults String.eqb Ascii.eqb Bool.eqb];
             reflexivity|]).
    constructor.
  - let cols := eval vm_compute in (Handler.columns Handler.text_insert_push_record) in
    change (Handler.columns Handler.text_insert_push_record) with cols.
    unfold Handler.push_record_params, Py.get.
    repeat (constructor;
            [unfold Handler.filled; rewrite ?Hget; cbn [String.eqb Ascii.eqb Bool.eqb];
             cbn [Py.lookup Handler.push_record_defaults String.eqb Ascii.eqb Bool.eqb];
             reflexivity|]).
    constructor.
Qed.

(** *** The configuration *)



End MoreConnectionHandle.

Section MoreConnectionHandleExamples.
Import Env Events MySQL.


End MoreConnectionHandleExamples.

Section MoreHealthMonitor.
Import Env Events Health.

Lemma since_answered (w w' : World) : since w (answered w') = since w w'.
Proof. reflexivity. Qed.

(** X10. After [check_health] the checker is available exactly when the
    call returned [True]: [is_database_available] agrees with the result,
    with or without a handler.  The call closes no connection and sends at
    most one statement, the probe; a [True] means the probe was answered. *)
Theorem check_health_decides_availability (c : DatabaseHealthChecker) (w : World) :
  let '(r, c', w') := check_health c w in
  is_database_available c' = r /\
  Monitor.has_handler c' = Monitor.has_handler c /\
  count is_close (since w w') = 0%nat /\
  match statements (since w w') with
  | [] => r = false
  | [NetExecute sql_health_check [] ok] => if r then ok = true else True
  | _ => False
  end.
Proof.
  destruct (mysql_handler c) as [h|] eqn:Hh.
  - rewrite (check_health_cases c w h Hh). cbv zeta.
    assert (X0 : extends w (answered (logged (Call m_check_health) w)) [Call m_check_health]).
    { apply (extends_trans w (logged (Call m_check_health) w) _ [_] []);
        [apply extends_logged | apply extends_answered]. }
    pose proof (health_check_statements h w _ _ X0 eq_refl) as H.
    destruct (MySQL.health_check h (answered (logged (Call m_check_health) w)))
      as [[[|] h'] w1]; destruct H as (Hcl & Hst);
      unfold is_database_available, Monitor.has_handler; simpl; rewrite Hh;
      rewrite ?since_answered.
    + repeat split; try assumption.
      destruct (statements (since w w1)) as [|[| | | | [| | |] [|] ok | | | | |] [|]]; auto.
      tauto.
    + repeat split; assumption.
  - rewrite (check_health_without c w Hh).
    unfold is_database_available, Monitor.has_handler. rewrite Hh, andb_false_r.
    eval_since. auto.
Qed.

(** X11. [start_monitoring] starts the thread only on a checker with a
    handler, clears the stop event when it does, asks nothing of the
    outside world, and does nothing when the thread is alive: starting
    twice is starting once.  [stop_monitoring] on a checker whose thread
    is not alive changes nothing and asks nothing; on a live thread it sets
    the stop event.  Neither touches the counters or the health flag. *)
Theorem start_stop_monitoring (c : DatabaseHealthChecker) (w : World) :
  let '(_, c1, w1) := start_monitoring c w in
  let '(_, c2, w2) := start_monitoring c1 w1 in
  let '(_, c3, w3) := stop_monitoring c w in
  w1 = w /\ c2 = c1 /\ w2 = w1 /\
  thread_alive c1 = thread_alive c || Monitor.has_handler c /\
  (if thread_alive c then c1 = c
   else if Monitor.has_handler c then stop_event c1 = false else c1 = c) /\
  (if thread_alive c
   then stop_event c3 = true /\
        thread_alive c3 = negb (stop_is_set (oracle w) (tick w))
   else c3 = c /\ w3 = w) /\
  (check_count c1, success_count c1, failure_count c1, is_healthy c1) =
    (check_count c, success_count c, failure_count c, is_healthy c) /\
  (check_count c3, success_count c3, failure_count c3, is_healthy c3) =
    (check_count c, success_count c, failure_count c, is_healthy c).
Proof.
  unfold start_monitoring, stop_monitoring, Monitor.has_handler, set_thread.
  unfold_prog.
  destruct (thread_alive c) eqn:Ha; simpl.
  - rewrite Ha. simpl. repeat split.
  - destruct (mysql_handler c) as [h|] eqn:Hh; simpl.
    + repeat split.
    + rewrite Ha, Hh. repeat split.
Qed.

(** One turn of the loop, in terms of the check it starts with. *)
Lemma monitoring_iteration_cases (c : DatabaseHealthChecker) (w : World) :
  monitoring_iteration c w =
    let '(_, c1, w1) := check_health c w in
    if is_healthy c1 then (tt, c1, w1)
    else
      match mysql_handler c1 with
      | Some h1 =>
          let '(_, h2, w2) := MySQL.connect h1 w1 in
          (tt, set_mysql_handler c1 h2, w2)
      | None => (tt, c1, w1)
      end.
Proof.
  unfold monitoring_iteration, on_handler, bind, get, ret.
  destruct (check_health c w) as [[r c1] w1].
  destruct (is_healthy c1); [reflexivity|]. simpl.
  destruct (mysql_handler c1) as [h1|] eqn:Hh; [|reflexivity].
  rewrite Hh. destruct (MySQL.connect h1 w1) as [[b h2] w2]. reflexivity.
Qed.

Lemma connect_events (h : MySQL.MySQLHandler) (w : World) :
  exists evs,
    extends w (snd (MySQL.connect h w)) (Call m_connect :: evs) /\
    forallb is_connect_attempt evs = true.
Proof.
  destruct (MySQL.connected h) eqn:Hc.
  - rewrite (connect_when_open h w Hc). exists []. split; [apply extends_logged | reflexivity].
  - rewrite (connect_when_closed h w Hc).
    destruct (connect_ok (oracle w) (tick w)); simpl.
    + exists [NetConnect true]. split; [|reflexivity].
      unfold extends, logged, answered. simpl. rewrite <- app_assoc. simpl.
      repeat split; lia.
    + exists [NetConnect false]. split; [|reflexivity].
      unfold extends, logged, answered. simpl. rewrite <- app_assoc. simpl.
      repeat split; lia.
Qed.

(** X12. A turn of the monitoring loop tries to reconnect exactly when
    its check left the checker unhealthy and there is a handler: [connect]
    is then called once, and no statement is sent.  The attempt, even when
    it succeeds, changes neither the health flag nor a counter nor the
    recorded failure: the checker stays unhealthy until the next check. *)
Theorem monitoring_iteration_reconnects (c : DatabaseHealthChecker) (w : World) :
  let '(_, c1, w1) := check_health c w in
  let '(_, c', w') := monitoring_iteration c w in
  count (is_call m_connect) (since w1 w') =
    (if negb (is_healthy c1) && Monitor.has_handler c1 then 1 else 0)%nat /\
  count is_statement (since w1 w') = 0%nat /\
  is_healthy c' = is_healthy c1 /\
  (check_count c', success_count c', failure_count c') =
    (check_count c1, success_count c1, failure_count c1) /\
  (last_check_time c', last_failure_time c', last_failure_reason c') =
    (last_check_time c1, last_failure_time c1, last_failure_reason c1).
Proof.
  rewrite monitoring_iteration_cases.
  destruct (check_health c w) as [[r c1] w1].
  unfold Monitor.has_handler.
  destruct (is_healthy c1) eqn:Hhealthy; simpl.
  - rewrite (since_extends _ _ _ (extends_refl w1)), Hhealthy. repeat split.
  - destruct (mysql_handler c1) as [h1|] eqn:Hh.
    + destruct (connect_events h1 w1) as [evs [X P]].
      destruct (MySQL.connect h1 w1) as [[b h2] w2]. simpl in X |- *.
      rewrite (since_extends _ _ _ X), Hhealthy.
      change (Call m_connect :: evs) with ([Call m_connect] ++ evs).
      rewrite !count_app.
      rewrite (count_none is_connect_attempt (is_call m_connect) evs);
        [| intros [[]| | | | | | | | |]; simpl; congruence | exact P].
      rewrite (count_none is_connect_attempt is_statement evs);
        [| intros [[]| | | | | | | | |]; simpl; congruence | exact P].
      repeat split.
    + rewrite (since_extends _ _ _ (extends_refl w1)), Hhealthy. repeat split.
Qed.

Lemma monitoring_iteration_step (c : DatabaseHealthChecker) (w : World)
    (h : MySQL.MySQLHandler) :
  mysql_handler c = Some h ->
  let '(_, c', w') := monitoring_iteration c w in
  check_count c' = check_count c + 1 /\
  (exists h', mysql_handler c' = Some h') /\
  exists evs, extends w w' evs /\ count (is_call m_check_health) evs = 1%nat.
Proof.
  intros Hh. rewrite monitoring_iteration_cases.
  destruct (check_health_events c w h Hh) as [probe [X P]].
  pose proof (check_health_call_accounts c w h Hh) as (Hcount & _).
  destruct (check_health_keeps_handler c w h Hh) as [h1 Hh1].
  destruct (check_health c w) as [[r c1] w1]. simpl in *.
  assert (Hprobe : count (is_call m_check_health) (Call m_check_health :: probe) = 1%nat).
  { change (Call m_check_health :: probe) with ([Call m_check_health] ++ probe).
    rewrite count_app, (count_none is_handler_work _ probe); [reflexivity| |exact P].
    intros [[]| | | | | | | | |]; simpl; congruence. }
  destruct (is_healthy c1).
  - split; [exact Hcount|]. split; [eauto|]. eauto.
  - rewrite Hh1. destruct (connect_events h1 w1) as [evs [X2 P2]].
    destruct (MySQL.connect h1 w1) as [[b h2] w2]. simpl in X2 |- *.
    split; [exact Hcount|]. split; [eauto|].
    eexists. split; [eapply extends_trans; eassumption|].
    rewrite count_app, Hprobe.
    change (Call m_connect :: evs) with ([Call m_connect] ++ evs).
    rewrite count_app, (count_none is_connect_attempt _ evs); [reflexivity| |exact P2].
    intros [[]| | | | | | | | |]; simpl; congruence.
Qed.

(** X13. The monitoring loop checks the health once per turn.  While the
    stop event stays clear, [n] turns on a checker with a handler call
    [check_health] [n] times and add [n] to [check_count].  When the event
    is already set as the loop starts, the loop ends at once: the checker
    is untouched and nothing reaches the server. *)
Theorem monitoring_loop_counts :
  (forall n c w h,
     mysql_handler c = Some h ->
     (forall i, stop_is_set (oracle w) i = false) ->
     let '(_, c', w') := _monitoring_loop n c w in
     check_count c' = check_count c + Z.of_nat n /\
     count (is_call m_check_health) (since w w') = n) /\
  (forall n c w,
     stop_is_set (oracle w) (tick w) = true ->
     _monitoring_loop (S n) c w = (tt, c, answered w)).
Proof.
  split.
  - assert (G : forall n c w h, mysql_handler c = Some h ->
                (forall i, stop_is_set (oracle w) i = false) ->
                let '(_, c', w') := _monitoring_loop n c w in
                check_count c' = check_count c + Z.of_nat n /\
                exists evs, extends w w' evs /\ count (is_call m_check_health) evs = n).
    { induction n as [|n IH]; intros c w h Hh Hclear.
      - simpl. unfold ret. split; [lia|]. exists []. split; [apply extends_refl|reflexivity].
      - cbn [_monitoring_loop]. unfold bind at 1. unfold ask. cbv beta iota zeta.
        rewrite Hclear. unfold bind.
        pose proof (monitoring_iteration_step c (answered w) h Hh) as Hstep.
        destruct (monitoring_iteration c (answered w)) as [[[] c1] w1].
        destruct Hstep as (Hc1 & [h1 Hh1] & evs1 & X1 & P1).
        assert (Hclear1 : forall i, stop_is_set (oracle w1) i = false).
        { destruct X1 as (_ & Ho & _). rewrite Ho. exact Hclear. }
        specialize (IH c1 w1 h1 Hh1 Hclear1).
        destruct (_monitoring_loop n c1 w1) as [[[] c'] w'].
        destruct IH as (Hc' & evs & X & P).
        split; [lia|]. exists (([] ++ evs1) ++ evs). split.
        + eapply extends_trans; [|exact X].
          eapply extends_trans; [apply extends_answered | exact X1].
        + rewrite !count_app, P1, P. reflexivity. }
    intros n c w h Hh Hclear. specialize (G n c w h Hh Hclear).
    destruct (_monitoring_loop n c w) as [[[] c'] w'].
    destruct G as (Hc & evs & X & P). rewrite (since_extends _ _ _ X). auto.
  - intros n c w Hset. cbn [_monitoring_loop]. unfold bind, ask, ret.
    rewrite Hset. reflexivity.
Qed.

(** X14. [reset_statistics] forgets the history and nothing else: the
    three counters are zero and the time and the reason of the last failure
    are gone, from the checker and from the status it reports, the rate
    being [0]; the health flag, the time of the last check, the interval,
    the handler, the thread and the stop event are kept, and nothing is
    asked of the server.  Whatever was counted before, after a reset and
    [n] further checks, run one after another on a checker with a handler,
    the counters are those of the [n] probes alone. *)
Theorem reset_forgets_history (n : nat) (c : DatabaseHealthChecker) (w : World)
    (h : MySQL.MySQLHandler) :
  mysql_handler c = Some h ->
  let '(_, c0, w0) := reset_statistics c w in
  let '(hist, c', _) := check_health_times n c0 w0 in
  let probed := answers (probes n h w0) in
  (check_count c0, success_count c0, failure_count c0) = (0, 0, 0) /\
  (last_failure_time c0, last_failure_reason c0) = (None, None) /\
  (is_healthy c0, last_check_time c0, check_interval c0) =
    (is_healthy c, last_check_time c, check_interval c) /\
  (mysql_handler c0, health_check_thread c0, stop_event c0) =
    (mysql_handler c, health_check_thread c, stop_event c) /\
  Py.lookup "success_rate" (get_health_status c0) = Some (Py.PInt 0) /\
  Py.lookup "last_failure_time" (get_health_status c0) = Some Py.PNone /\
  Py.lookup "last_failure_reason" (get_health_status c0) = Some Py.PNone /\
  count is_network (since w w0) = 0%nat /\
  map fst hist = probed /\
  check_count c' = Z.of_nat n /\
  success_count c' = tally true probed /\
  failure_count c' = tally false probed.
Proof.
  intros Hh. unfold reset_statistics, modify. unfold_prog.
  match goal with |- context [check_health_times n ?c0 ?w0] =>
    pose proof (check_health_times_accounts n c0 w0 h Hh) as Hrun;
    pose proof (check_health_times_follows n c0 w0 h Hh) as Hprobe;
    destruct (check_health_times n c0 w0) as [[hist c'] w']
  end.
  destruct Hrun as (Hlen & Hfin & Hall). destruct Hprobe as (_ & Hmap).
  pose proof (accounts_totals hist _ Hall) as Htot. cbv zeta in Htot.
  rewrite <- Hfin, Hlen in Htot. simpl in Htot. destruct Htot as (Hc & Hs & Hf & _).
  unfold successes, failures in Hs, Hf. rewrite Hmap in Hs, Hf.
  cbv zeta.
  repeat (split; [reflexivity|]).
  split; [unfold get_health_status; simpl; rewrite Hh; reflexivity|].
  split; [unfold get_health_status; simpl; rewrite Hh; reflexivity|].
  split; [unfold get_health_status; simpl; rewrite Hh; reflexivity|].
  split; [eval_since; reflexivity|].
  auto.
Qed.

(** [force_reconnect] on a handler that holds a connection object. *)
Lemma force_reconnect_open_cases (c : DatabaseHealthChecker) (w : World)
    (h : MySQL.MySQLHandler) (conn : MySQL.Connection) :
  mysql_handler c = Some h -> MySQL.connection h = Some conn ->
  force_reconnect c w =
    let closed := close_ok (oracle w) (tick w) in
    let w1 := logged (NetClose closed)
                (answered (logged (Call m_disconnect)
                             (logged (Call m_force_reconnect) w))) in
    let h1 := if closed
              then {| MySQL.connection := None;
                      MySQL.last_ping_time := MySQL.last_ping_time h;
                      MySQL.ping_interval := MySQL.ping_interval h;
                      MySQL.config := MySQL.config h |}
              else h in
    let '(ok, h2, w2) := MySQL.connect h1 w1 in
    if ok then
      let '(_, c', w') := check_health (set_mysql_handler c h2) w2 in (true, c', w')
    else (false, set_mysql_handler c h2, w2).
Proof.
  intros Hsome Hconn.
  unfold force_reconnect, on_handler, MySQL.disconnect, MySQL.set_connection.
  unfold call, emit, bind, ret, get, put, ask. cbv beta iota zeta.
  repeat (progress (rewrite ?Hsome, ?Hconn; cbv beta iota zeta;
                    cbn [mysql_handler set_mysql_handler])).
  change (oracle (logged (Call m_disconnect) (logged (Call m_force_reconnect) w)))
    with (oracle w).
  change (tick (logged (Call m_disconnect) (logged (Call m_force_reconnect) w)))
    with (tick w).
  destruct (close_ok (oracle w) (tick w)); cbv beta iota zeta;
    cbn [mysql_handler set_mysql_handler]; cbv beta iota zeta.
  - match goal with |- context [MySQL.connect ?h1 ?w1] =>
      destruct (MySQL.connect h1 w1) as [[[|] h2] w2] end; reflexivity.
  - match goal with |- context [MySQL.connect ?h1 ?w1] =>
      destruct (MySQL.connect h1 w1) as [[[|] h2] w2] end; reflexivity.
Qed.

(** X15. On a checker whose handler reports an open connection,
    [force_reconnect] first closes it.  When the close succeeds, the
    server is connected to anew, the call returns what that attempt gave,
    and one health check follows a success.  When the close raises, the old
    connection object is kept: [connect] finds it open and returns at once,
    so the call reports success and runs its health check without having
    connected anew.  [check_count] grows by one exactly when the call
    returns [True]. *)
Theorem force_reconnect_on_open_connection (c : DatabaseHealthChecker) (w : World)
    (h : MySQL.MySQLHandler) :
  mysql_handler c = Some h -> MySQL.connected h = true ->
  let closed := close_ok (oracle w) (tick w) in
  let '(r, c', w') := force_reconnect c w in
  check_count c' = check_count c + (if r then 1 else 0) /\
  exists rest,
    since w w' =
      [Call m_force_reconnect; Call m_disconnect; NetClose closed; Call m_connect] ++ rest /\
    if closed then
      r = connect_ok (oracle w) (S (tick w)) /\
      exists rest', rest = NetConnect r :: rest' /\
                    count (is_call m_check_health) rest' = (if r then 1 else 0)%nat
    else
      r = true /\
      exists probe, rest = Call m_check_health :: probe /\
                    count (is_call m_check_health) probe = 0%nat.
Proof.
  intros Hsome Hc. destruct (connected_true h Hc) as [conn [Hconn Hopen]].
  cbv zeta. rewrite (force_reconnect_open_cases c w h conn Hsome Hconn). cbv zeta.
  set (w1 := logged (NetClose (close_ok (oracle w) (tick w)))
               (answered (logged (Call m_disconnect)
                            (logged (Call m_force_reconnect) w)))).
  assert (X1 : extends w w1
                 [Call m_force_reconnect; Call m_disconnect;
                  NetClose (close_ok (oracle w) (tick w))]).
  { unfold extends, w1, logged, answered. simpl. rewrite <- !app_assoc. simpl.
    repeat split; lia. }
  assert (Hprobe : forall probe, forallb is_handler_work probe = true ->
                   count (is_call m_check_health) probe = 0%nat).
  { intros probe. apply (count_none is_handler_work).
    intros [[]| | | | | | | | |]; simpl; congruence. }
  destruct (close_ok (oracle w) (tick w)).
  - rewrite connect_when_closed by reflexivity.
    change (oracle w1) with (oracle w). change (tick w1) with (S (tick w)).
    destruct (connect_ok (oracle w) (S (tick w))).
    + match goal with |- context [check_health ?c2 ?w3] =>
        assert (Hsome2 : exists h2, mysql_handler c2 = Some h2) by (eexists; reflexivity);
        destruct Hsome2 as [h2 Hsome2];
        destruct (check_health_events c2 w3 h2 Hsome2) as [probe [X P]];
        pose proof (check_health_call_accounts c2 w3 h2 Hsome2) as [Hcount _];
        assert (X3 : extends w1 w3 [Call m_connect; NetConnect true])
          by (unfold extends, logged, answered; simpl; rewrite <- !app_assoc; simpl;
              repeat split; lia);
        destruct (check_health c2 w3) as [[r c'] w']
      end.
      simpl in X, Hcount. split; [exact Hcount|].
      rewrite (since_extends _ _ _ (extends_trans _ _ _ _ _ (extends_trans _ _ _ _ _ X1 X3) X)).
      eexists. split; [simpl; reflexivity|]. split; [reflexivity|].
      eexists. split; [reflexivity|].
      change (Call m_check_health :: probe) with ([Call m_check_health] ++ probe).
      rewrite count_app, (Hprobe probe P). reflexivity.
    + split; [simpl; lia|].
      assert (X3 : extends w1 (logged (NetConnect false) (answered (logged (Call m_connect) w1)))
                     [Call m_connect; NetConnect false])
        by (unfold extends, logged, answered; simpl; rewrite <- !app_assoc; simpl;
            repeat split; lia).
      rewrite (since_extends _ _ _ (extends_trans _ _ _ _ _ X1 X3)).
      eexists. split; [simpl; reflexivity|]. split; [reflexivity|].
      eexists. split; reflexivity.
  - rewrite (connect_when_open h w1 Hc).
    match goal with |- context [check_health ?c2 ?w3] =>
      assert (Hsome2 : mysql_handler c2 = Some h) by reflexivity;
      destruct (check_health_events c2 w3 h Hsome2) as [probe [X P]];
      pose proof (check_health_call_accounts c2 w3 h Hsome2) as [Hcount _];
      destruct (check_health c2 w3) as [[r c'] w']
    end.
    simpl in X, Hcount. split; [exact Hcount|].
    rewrite (since_extends _ _ _
               (extends_trans _ _ _ _ _
                  (extends_trans _ _ _ _ _ X1 (extends_logged (Call m_connect) w1)) X)).
    eexists. split; [simpl; reflexivity|]. split; [reflexivity|].
    exists probe. split; [reflexivity | exact (Hprobe probe P)].
Qed.

(** *** The module's one checker *)

Lemma on_instance_new cfg make_handler {A} (m : prog DatabaseHealthChecker A) (w : World) :
  Monitor.on_instance cfg make_handler m None w =
    let '(a, c', w') := m (init cfg make_handler) w in (a, Some c', w').
Proof. reflexivity. Qed.

Lemma on_instance_old cfg make_handler {A} (m : prog DatabaseHealthChecker A)
    (c : DatabaseHealthChecker) (w : World) :
  Monitor.on_instance cfg make_handler m (Some c) w =
    let '(a, c', w') := m c w in (a, Some c', w').
Proof. reflexivity. Qed.

(** X16. The module keeps one checker.  The first call of
    [check_database_health] builds it from the configuration of that
    moment; later calls, whatever the configuration has become, work on the
    same object, so that the checks add up; [get_database_status] reports
    them and changes nothing. *)
Theorem health_checker_singleton cfg make_handler cfg' make_handler'
    (h : MySQL.MySQLHandler) (w : World) :
  save_to_db cfg = true -> make_handler = Py.Return h ->
  let '(r1, g1, w1) := Monitor.check_database_health cfg make_handler None w in
  let '(r2, g2, w2) := Monitor.check_database_health cfg' make_handler' g1 w1 in
  let '(status, g3, w3) := Monitor.get_database_status cfg' make_handler' g2 w2 in
  g3 = g2 /\ w3 = w2 /\
  Py.lookup "check_count" status = Some (Py.PInt 2) /\
  Py.lookup "success_count" status = Some (Py.PInt (tally true [r1; r2])) /\
  Py.lookup "failure_count" status = Some (Py.PInt (tally false [r1; r2])) /\
  Py.lookup "is_healthy" status = Some (Py.PBool r2).
Proof.
  intros Hdb ->. unfold Monitor.check_database_health, Monitor.get_database_status.
  rewrite on_instance_new.
  assert (Hh : mysql_handler (init cfg (Py.Return h)) = Some h)
    by (unfold init; simpl; rewrite Hdb; reflexivity).
  pose proof (check_health_call_accounts _ w h Hh) as A1.
  destruct (check_health_keeps_handler _ w h Hh) as [h1 Hh1].
  destruct (check_health (init cfg (Py.Return h)) w) as [[r1 c1] w1].
  simpl in A1, Hh1. rewrite on_instance_old.
  pose proof (check_health_call_accounts c1 w1 h1 Hh1) as A2.
  destruct (check_health_keeps_handler c1 w1 h1 Hh1) as [h2 Hh2].
  destruct (check_health c1 w1) as [[r2 c2] w2].
  simpl in A2, Hh2. rewrite on_instance_old. unfold bind, get, ret.
  destruct A1 as (C1 & _ & R1). destruct A2 as (C2 & _ & R2).
  assert (Hcounts : check_count c2 = 2 /\ success_count c2 = tally true [r1; r2] /\
                    failure_count c2 = tally false [r1; r2] /\ is_healthy c2 = r2).
  { simpl in C1. destruct r1, r2; simpl; simpl in R1;
      destruct R1 as (S1 & F1 & _); destruct R2 as (S2 & F2 & H2 & _);
      repeat split; try lia; assumption. }
  destruct Hcounts as (K1 & K2 & K3 & K4).
  unfold get_health_status. rewrite Hh2. simpl. rewrite K1, K2, K3, K4.
  repeat split; reflexivity.
Qed.



End MoreHealthMonitor.

Section MoreHealthMonitorExamples.
Import Env Events Health.

Lemma monitoring_loop_counts_witness :
  (let '(_, c', w') := _monitoring_loop 3 Scenario.live_checker Scenario.flapping in
   check_count c' = check_count Scenario.live_checker + 3 /\
   count (is_call m_check_health) (since Scenario.flapping w') = 3%nat) /\
  _monitoring_loop 2 Scenario.live_checker Cases.stopping =
    (tt, Scenario.live_checker, answered Cases.stopping).
Proof.
  split.
  - exact (proj1 monitoring_loop_counts 3%nat Scenario.live_checker Scenario.flapping
             Scenario.connected_at_100 eq_refl (fun _ => eq_refl)).
  - exact (proj2 monitoring_loop_counts 1%nat Scenario.live_checker Cases.stopping eq_refl).
Defined.

Lemma reset_forgets_history_witness :
  let '(_, c0, w0) := reset_statistics Cases.troubled Scenario.flapping in
  let '(hist, c', _) := check_health_times 2 c0 w0 in
  let probed := answers (probes 2 Scenario.connected_at_100 w0) in
  (check_count c0, success_count c0, failure_count c0) = (0, 0, 0) /\
  (last_failure_time c0, last_failure_reason c0) = (None, None) /\
  (is_healthy c0, last_check_time c0, check_interval c0) = (false, Some 180, 60) /\
  (mysql_handler c0, health_check_thread c0, stop_event c0) =
    (Some Scenario.connected_at_100, None, false) /\
  Py.lookup "success_rate" (get_health_status c0) = Some (Py.PInt 0) /\
  Py.lookup "last_failure_time" (get_health_status c0) = Some Py.PNone /\
  Py.lookup "last_failure_reason" (get_health_status c0) = Some Py.PNone /\
  count is_network (since Scenario.flapping w0) = 0%nat /\
  map fst hist = probed /\
  check_count c' = 2 /\
  success_count c' = tally true probed /\
  failure_count c' = tally false probed.
Proof.
  exact (reset_forgets_history 2 Cases.troubled Scenario.flapping
           Scenario.connected_at_100 eq_refl).
Defined.

Lemma force_reconnect_on_open_connection_witness :
  (let '(r, c', w') := force_reconnect Scenario.live_checker Scenario.online in
   check_count c' = check_count Scenario.live_checker + (if r then 1 else 0) /\
   exists rest,
     since Scenario.online w' =
       [Call m_force_reconnect; Call m_disconnect; NetClose true; Call m_connect] ++ rest /\
     (r = true /\
      exists rest', rest = NetConnect r :: rest' /\
                    count (is_call m_check_health) rest' = (if r then 1 else 0)%nat)) /\
  (let '(r, c', w') := force_reconnect Scenario.live_checker Cases.sticky in
   check_count c' = check_count Scenario.live_checker + (if r then 1 else 0) /\
   exists rest,
     since Cases.sticky w' =
       [Call m_force_reconnect; Call m_disconnect; NetClose false; Call m_connect] ++ rest /\
     (r = true /\
      exists probe, rest = Call m_check_health :: probe /\
                    count (is_call m_check_health) probe = 0%nat)).
Proof.
  split.
  - exact (force_reconnect_on_open_connection Scenario.live_checker Scenario.online
             Scenario.connected_at_100 eq_refl eq_refl).
  - exact (force_reconnect_on_open_connection Scenario.live_checker Cases.sticky
             Scenario.connected_at_100 eq_refl eq_refl).
Defined.

Lemma health_checker_singleton_witness :
  let '(r1, g1, w1) :=
    Monitor.check_database_health Scenario.data_cfg (Py.Return Scenario.connected_at_100)
      None Scenario.flapping in
  let '(r2, g2, w2) :=
    Monitor.check_database_health Scenario.csv_only (Py.Raise "no configuration") g1 w1 in
  let '(status, g3, w3) :=
    Monitor.get_database_status Scenario.csv_only (Py.Raise "no configuration") g2 w2 in
  g3 = g2 /\ w3 = w2 /\
  Py.lookup "check_count" status = Some (Py.PInt 2) /\
  Py.lookup "success_count" status = Some (Py.PInt (tally true [r1; r2])) /\
  Py.lookup "failure_count" status = Some (Py.PInt (tally false [r1; r2])) /\
  Py.lookup "is_healthy" status = Some (Py.PBool r2).
Proof.
  exact (health_checker_singleton Scenario.data_cfg (Py.Return Scenario.connected_at_100)
           Scenario.csv_only (Py.Raise "no configuration") Scenario.connected_at_100
           Scenario.flapping eq_refl eq_refl).
Defined.


End MoreHealthMonitorExamples.

Section MoreStore.
Import Env Events Data.

(** *** Construction *)

Lemma dirname_no_slash (p : string) : Store.has_slash p = false -> Store.dirname p = "".
Proof.
  intros H. unfold Store.dirname.
  assert (G : Store.through_last_slash p = None).
  { induction p as [|c rest IH]; [reflexivity|]. simpl in *.
    apply orb_false_elim in H. destruct H as [Hc Hrest].
    rewrite (IH Hrest), Hc. reflexivity. }
  rewrite G. reflexivity.
Qed.

Lemma since_same (w : World) : since w w = [].
Proof. apply since_extends, extends_refl. Qed.

Lemma connect_network_count (h : MySQL.MySQLHandler) (w : World) :
  (count is_network (since w (snd (MySQL.connect h w))) <= 1)%nat.
Proof.
  destruct (MySQL.connected h) eqn:Hc.
  - rewrite (connect_when_open h w Hc). eval_since. unfold count. simpl. lia.
  - rewrite (connect_when_closed h w Hc).
    destruct (connect_ok (oracle w) (tick w)); eval_since; unfold count; simpl; lia.
Qed.

(** X18. A [DataHandler] is built with a handler only when that handler
    connected: what [__init__] keeps reports an open connection, and a failed
    connection or a failed [MySQLHandler()] leaves none.  With the database
    switched off the server is not contacted at all.  The constructor can
    raise only through [os.makedirs], which it calls only when the CSV sink
    is enabled and the path of the file has a directory part. *)
Theorem data_handler_construction (makedirs : string -> Py.result unit)
    (cfg : DataConfig) (make_handler : Py.result MySQL.MySQLHandler) (w : World) :
  let '(r, _, w') := Store.init makedirs cfg make_handler tt w in
  match r with
  | Py.Return d =>
      data_config d = cfg /\
      match mysql_handler d with
      | Some h' => MySQL.connected h' = true /\ save_to_db cfg = true
      | None => True
      end
  | Py.Raise msg =>
      exists dir, Store.data_directory cfg = Some dir /\ makedirs dir = Py.Raise msg /\ w' = w
  end /\
  (if save_to_db cfg then (count is_network (since w w') <= 1)%nat else w' = w) /\
  (if save_to_csv cfg && Store.has_slash (csv_path cfg) then True
   else exists d, r = Py.Return d).
Proof.
  assert (Hdir : (save_to_csv cfg && Store.has_slash (csv_path cfg)) = false ->
                 Store.data_directory cfg = None).
  { unfold Store.data_directory. intros H. destruct (save_to_csv cfg); [|reflexivity].
    simpl in H. rewrite (dirname_no_slash _ H). reflexivity. }
  unfold Store.init, Store._ensure_data_directory.
  assert (Hcount : (count is_network [] <= 1)%nat) by (unfold count; simpl; lia).
  destruct (Store.data_directory cfg) as [dir|] eqn:Hd.
  - destruct (makedirs dir) as [[]|msg] eqn:Hmk.
    + destruct (save_to_db cfg) eqn:Hdb.
      * destruct make_handler as [h|msg].
        -- pose proof (connect_state h w) as (S1 & _).
           pose proof (connect_network_count h w) as Hn.
           destruct (MySQL.connect h w) as [[[|] h'] w']; simpl in *;
             repeat split; auto;
             destruct (save_to_csv cfg && Store.has_slash (csv_path cfg)); eauto.
        -- unfold ret. rewrite since_same. repeat split; auto.
           destruct (save_to_csv cfg && Store.has_slash (csv_path cfg)); eauto.
      * unfold ret. repeat split; auto.
        destruct (save_to_csv cfg && Store.has_slash (csv_path cfg)); eauto.
    + unfold ret. split; [exists dir; auto|]. split.
      * destruct (save_to_db cfg); cbv iota; [|reflexivity]. rewrite since_same.
        exact Hcount.
      * destruct (save_to_csv cfg && Store.has_slash (csv_path cfg)) eqn:E; [exact I|].
        discriminate (Hdir eq_refl).
  - destruct (save_to_db cfg) eqn:Hdb.
    + destruct make_handler as [h|msg].
      * pose proof (connect_state h w) as (S1 & _).
        pose proof (connect_network_count h w) as Hn.
        destruct (MySQL.connect h w) as [[[|] h'] w']; simpl in *;
          repeat split; auto;
          destruct (save_to_csv cfg && Store.has_slash (csv_path cfg)); eauto.
      * unfold ret. rewrite since_same. repeat split; auto.
        destruct (save_to_csv cfg && Store.has_slash (csv_path cfg)); eauto.
    + unfold ret. repeat split; auto.
      destruct (save_to_csv cfg && Store.has_slash (csv_path cfg)); eauto.
Qed.

(** *** Saving *)

Lemma count_statements (p : event -> bool) (evs : list event) :
  (forall e, p e = true -> is_statement e = true) ->
  count p evs = count p (statements evs).
Proof.
  intros Hp. unfold count, statements.
  induction evs as [|e evs IH]; simpl; [reflexivity|].
  destruct (p e) eqn:He.
  - rewrite (Hp e He). simpl. rewrite He. simpl. congruence.
  - destruct (is_statement e); simpl; rewrite ?He; exact IH.
Qed.

Lemma save_option_trade_outcome (trade : Py.dict) (h : MySQL.MySQLHandler) (w : World) :
  let '(ok, _, w1) :=
    MySQL._ensure_connection h
      (logged (Call m_execute_insert) (answered (logged (Call m_save_option_trade) w))) in
  let '(b, h', w') := MySQL.save_option_trade trade h w in
  exists evs,
    extends w w' (Call m_save_option_trade :: evs) /\
    forallb is_handler_work evs = true /\
    (b, statements evs) =
      (if ok
       then Handler.insert_protocol (MySQL.autocommit_on h) (oracle w) (tick w1)
              (NetExecute sql_insert_option_trade
                 (MySQL.option_trade_params trade (clock (oracle w) (tick w))))
       else (false, [])) /\
    MySQL.config h' = MySQL.config h.
Proof.
  unfold MySQL.save_option_trade, call, now, ask, emit. unfold bind at 1 2.
  cbv beta iota zeta.
  set (w0 := answered (logged (Call m_save_option_trade) w)).
  set (params := MySQL.option_trade_params trade (clock (oracle w) (tick w))).
  change (clock (oracle (logged (Call m_save_option_trade) w))
                (tick (logged (Call m_save_option_trade) w)))
    with (clock (oracle w) (tick w)).
  fold params.
  assert (X0 : extends w w0 [Call m_save_option_trade]).
  { exact (extends_trans _ _ _ _ _ (extends_logged _ w) (extends_answered _)). }
  destruct (execute_insert_confined sql_insert_option_trade params h w0) as [evs [X P]].
  pose proof (insert_outcome m_execute_insert
                (NetExecute sql_insert_option_trade params) h w0 (fun _ => eq_refl)) as H.
  rewrite execute_insert_cases in X |- *.
  destruct (MySQL._ensure_connection h (logged (Call m_execute_insert) w0))
    as [[[|] h1] w1].
  - destruct H as (_ & _ & H).
    destruct (Handler.send_and_settle (NetExecute sql_insert_option_trade params) h1 w1)
      as [[b h'] w'].
    simpl in X. destruct (H eq_refl) as [Hst Hcfg].
    rewrite (since_extends _ _ _ X) in Hst.
    exists evs. split; [exact (extends_trans _ _ _ _ _ X0 X)|].
    split; [exact P|]. split; [exact Hst|exact Hcfg].
  - destruct H as (H & _). simpl in X. destruct (H eq_refl) as [Hst Hcfg].
    rewrite (since_extends _ _ _ X) in Hst.
    exists evs. split; [exact (extends_trans _ _ _ _ _ X0 X)|].
    split; [exact P|]. split; [exact Hst|exact Hcfg].
Qed.

(** X22. [_save_to_database] returns [False] without touching the server
    when there is no handler.  With a handler it sends at most one
    statement, never a batch, and returns [True] only when the server
    took the insert of the trade, stamped with the clock reading where the
    record has no trade time, and, with autocommit off, the commit after
    it.  When it returns [False] nothing was committed; with autocommit
    off every statement it sent was followed by one call of [rollback],
    whose own failure is swallowed, and with autocommit on there is no
    rollback.  The handler stays in place with its configuration. *)
Theorem save_to_database_outcome (trade : Py.dict) (d : DataHandler) (w : World) :
  let '(b, d', w') := _save_to_database trade d w in
  data_config d' = data_config d /\
  match mysql_handler d with
  | None => b = false /\ d' = d /\ since w w' = [Call m_save_to_database]
  | Some h =>
      match mysql_handler d' with
      | Some h' => MySQL.config h' = MySQL.config h
      | None => False
      end /\
      (count is_execute (since w w') <= 1)%nat /\
      count is_execute_many (since w w') = 0%nat /\
      count is_csv_write (since w w') = 0%nat /\
      (if b
       then statements (since w w') =
              NetExecute sql_insert_option_trade
                (MySQL.option_trade_params trade (clock (oracle w) (tick w))) true ::
              (if MySQL.autocommit_on h then [] else [NetCommit Done])
       else count is_committed (since w w') = 0%nat /\
            count is_rollback (since w w') =
              (if MySQL.autocommit_on h then 0%nat else count is_execute (since w w')))
  end.
Proof.
  unfold _save_to_database, on_handler, call, emit. unfold bind at 1 2. unfold get.
  cbv beta iota zeta.
  set (w0 := logged (Call m_save_to_database) w).
  assert (X0 : extends w w0 [Call m_save_to_database]) by apply extends_logged.
  destruct (mysql_handler d) as [h|] eqn:Hh.
  - unfold bind. rewrite Hh.
    pose proof (save_option_trade_outcome trade h w0) as H.
    destruct (MySQL._ensure_connection h
                (logged (Call m_execute_insert)
                   (answered (logged (Call m_save_option_trade) w0)))) as [[ok hx] w1].
    destruct (MySQL.save_option_trade trade h w0) as [[b h'] w'].
    destruct H as (evs & X & P & Hst & Hcfg).
    unfold ret. cbv beta iota zeta. simpl mysql_handler. simpl data_config.
    rewrite (since_extends _ _ _ (extends_trans _ _ _ _ _ X0 X)).
    assert (Hstm : statements ([Call m_save_to_database] ++ Call m_save_option_trade :: evs)
                   = statements evs) by reflexivity.
    assert (Hcw : count is_csv_write
                    ([Call m_save_to_database] ++ Call m_save_option_trade :: evs) = 0%nat).
    { change (count is_csv_write evs = 0%nat).
      apply (count_none is_handler_work); [|exact P].
      intros [[]| | | | | | | | |]; simpl; congruence. }
    rewrite (count_statements is_execute), (count_statements is_execute_many),
      (count_statements is_committed), (count_statements is_rollback), Hstm
      by (intros [| | | | | |[]| | |]; simpl; congruence).
    change (oracle w0) with (oracle w) in Hst. change (tick w0) with (tick w) in Hst.
    split; [reflexivity|]. split; [exact Hcfg|].
    destruct ok.
    + unfold Handler.insert_protocol in Hst.
      destruct (exec_answer (oracle w) (tick w1));
        destruct (MySQL.autocommit_on h);
        try destruct (commit_result (oracle w) (S (tick w1)));
        inversion Hst as [[Hb He]]; rewrite ?He; unfold count; simpl;
        repeat split; auto.
    + inversion Hst as [[Hb He]]. rewrite ?He. unfold count; simpl.
      destruct (MySQL.autocommit_on h); repeat split; auto.
  - unfold ret. rewrite (since_extends _ _ _ X0). repeat split; reflexivity.
Qed.

(** X23. [save_trade] serves the CSV sink first and the database sink
    second.  The file is written once, with the header row exactly when
    the file did not exist yet; whether that write succeeds or not, the
    database sink runs next when it is enabled.  Everything after the
    entry of the database sink is work of the handler, and without a
    handler there is none. *)
Theorem save_trade_order (trade : Py.dict) (d : DataHandler) (w : World) :
  let '(_, d', w') := save_trade trade d w in
  exists rest,
    since w w' =
      Call m_save_trade ::
      List.app
        (if save_to_csv (data_config d)
         then [Call m_save_to_csv;
               CsvWrite (negb (path_exists (oracle w) (tick w))) trade
                        (csv_write_ok (oracle w) (S (tick w)))]
         else [])
        (if save_to_db (data_config d) then Call m_save_to_database :: rest else []) /\
    forallb is_handler_work rest = true /\
    (if save_to_db (data_config d) && Store.has_handler d then True
     else rest = [] /\ d' = d).
Proof.
  assert (Hnone : forall w1, mysql_handler d = None ->
            _save_to_database trade d w1 = (false, d, logged (Call m_save_to_database) w1)).
  { intros w1 Hh. unfold _save_to_database, call, emit. unfold bind at 1 2. unfold get.
    cbv beta iota zeta. rewrite Hh. reflexivity. }
  unfold save_trade, _save_to_csv. unfold_prog. unfold Store.has_handler.
  destruct (save_to_csv (data_config d)); destruct (save_to_db (data_config d)); simpl.
  - match goal with |- context [_save_to_database trade d ?w1] =>
      destruct (save_to_database_events trade d w1) as [evs [X P]];
      pose proof (Hnone w1) as Hn;
      destruct (_save_to_database trade d w1) as [[b d'] w'] eqn:Hsave;
      assert (X1 : extends w w1
                     [Call m_save_trade; Call m_save_to_csv;
                      CsvWrite (negb (path_exists (oracle w) (tick w))) trade
                               (csv_write_ok (oracle w) (S (tick w)))])
        by (unfold extends; simpl; rewrite <- !app_assoc; simpl; repeat split; lia)
    end.
    simpl in X.
    rewrite (since_extends _ _ _ (extends_trans _ _ _ _ _ X1 X)).
    exists evs. split; [reflexivity|]. split; [exact P|].
    destruct (mysql_handler d); [exact I|].
    specialize (Hn eq_refl). inversion Hn; subst.
    pose proof (extends_unique _ _ _ _ X (extends_logged _ _)) as Hu.
    inversion Hu. auto.
  - rewrite (since_extends w _
               [Call m_save_trade; Call m_save_to_csv;
                CsvWrite (negb (path_exists (oracle w) (tick w))) trade
                         (csv_write_ok (oracle w) (S (tick w)))])
      by (unfold extends; simpl; rewrite <- !app_assoc; simpl; repeat split; lia).
    exists []. repeat split.
  - match goal with |- context [_save_to_database trade d ?w1] =>
      destruct (save_to_database_events trade d w1) as [evs [X P]];
      pose proof (Hnone w1) as Hn;
      destruct (_save_to_database trade d w1) as [[b d'] w'] eqn:Hsave;
      assert (X1 : extends w w1 [Call m_save_trade])
        by (unfold extends; simpl; repeat split; lia)
    end.
    simpl in X.
    rewrite (since_extends _ _ _ (extends_trans _ _ _ _ _ X1 X)).
    exists evs. split; [reflexivity|]. split; [exact P|].
    destruct (mysql_handler d); [exact I|].
    specialize (Hn eq_refl). inversion Hn; subst.
    pose proof (extends_unique _ _ _ _ X (extends_logged _ _)) as Hu.
    inversion Hu. auto.
  - rewrite (since_extends w _ [Call m_save_trade])
      by (unfold extends; simpl; repeat split; lia).
    exists []. repeat split.
Qed.

(** *** Loading *)

Section WithPandas.
Variable pandas : Pandas.

Lemma load_from_csv_confined (days : Z) : confined is_csv_read (load_from_csv pandas days).
Proof. unfold load_from_csv, now. confine. Qed.

Lemma load_from_csv_state (days : Z) (d : DataHandler) (w : World) :
  snd (fst (load_from_csv pandas days d w)) = d.
Proof.
  unfold load_from_csv. unfold_prog.
  destruct (save_to_csv (data_config d)); simpl; [|reflexivity].
  destruct (path_exists (oracle w) (tick w)); simpl; [|reflexivity].
  destruct (csv_content (oracle w) (S (tick w))) as [df|msg]; simpl; [|reflexivity].
  destruct (bind_result (column df "timestamp") (to_datetime pandas)); reflexivity.
Qed.

Lemma csv_read_counts (evs : list event) :
  forallb is_csv_read evs = true ->
  forallb is_reading evs = true /\
  count is_network evs = 0%nat /\ count is_csv_write evs = 0%nat.
Proof.
  intros P. split; [|split].
  - rewrite forallb_forall in *. intros e He. specialize (P e He).
    destruct e; simpl in *; congruence.
  - apply (count_none is_csv_read); [|exact P].
    intros [[]| | | | | | | | |]; simpl; congruence.
  - apply (count_none is_csv_read); [|exact P].
    intros [[]| | | | | | | | |]; simpl; congruence.
Qed.

(** X19. What [load_historical_data] takes from the CSV file lies in the
    window: every row it returns carries a timestamp that is a time, not
    older than the given days before the clock reading.  It returns the
    empty table when the CSV sink is off or the file does not exist, and
    then it does not read the file.  The database is never involved and
    the file is never written. *)
Theorem load_from_csv_window (days : Z) (d : DataHandler) (w : World) :
  let '(df, d', w') := load_from_csv pandas days d w in
  d' = d /\
  count is_network (since w w') = 0%nat /\
  count is_csv_write (since w w') = 0%nat /\
  Forall (fun row =>
            exists t, Py.get row "timestamp" = Py.PTime t /\
                      clock (oracle w) (S (S (tick w))) - days * 86400 <= t)
         (df_rows df) /\
  (if save_to_csv (data_config d) && path_exists (oracle w) (tick w) then True
   else df = empty_frame /\ count is_csv_read (since w w') = 0%nat).
Proof.
  assert (Hwin : forall df cutoff,
            Forall (fun row => exists t, Py.get row "timestamp" = Py.PTime t /\ cutoff <= t)
                   (df_rows (rows_since df "timestamp" cutoff))).
  { intros df cutoff. unfold rows_since. simpl. apply Forall_forall.
    intros row Hin. apply filter_In in Hin. destruct Hin as [_ Hrow].
    destruct (Py.get row "timestamp"); try discriminate.
    eexists. split; [reflexivity|]. apply Z.leb_le. exact Hrow. }
  unfold load_from_csv. unfold_prog.
  destruct (save_to_csv (data_config d)); simpl.
  - destruct (path_exists (oracle w) (tick w)); simpl.
    + destruct (csv_content (oracle w) (S (tick w))) as [df|msg]; simpl.
      * destruct (bind_result (column df "timestamp") (to_datetime pandas))
          as [times|msg]; simpl; eval_since; repeat split; auto.
        exact (Hwin (set_column df "timestamp" times) _).
      * eval_since. repeat split; auto.
    + unfold since; simpl trace; rewrite skipn_all. repeat split; auto.
  - rewrite since_same. repeat split; auto.
Qed.

Lemma get_recent_trades_select (code : option string) (hours : Z) :
  confined is_select_work (MySQL.get_recent_trades code hours).
Proof.
  assert (confined is_select_work MySQL._ensure_connection).
  { apply (confined_weaken is_connection_event); [|apply ensure_connection_confined].
    intros [[]| | | | | | | | |]; unfold is_select_work; simpl; congruence. }
  unfold MySQL.get_recent_trades, MySQL.execute_query, MySQL.set_open,
    MySQL.set_connection, call, now.
  destruct code as [code|]; confine.
Qed.

Lemma select_work_counts (evs : list event) :
  forallb is_select_work evs = true ->
  forallb is_reading evs = true /\
  count is_csv_read evs = 0%nat /\ count is_csv_write evs = 0%nat.
Proof.
  intros P. split; [|split].
  - rewrite forallb_forall in *. intros e He. specialize (P e He).
    unfold is_select_work in P. apply andb_prop in P. tauto.
  - apply (count_none is_select_work); [|exact P].
    intros [[]| | | | | | | | |]; unfold is_select_work; simpl; congruence.
  - apply (count_none is_select_work); [|exact P].
    intros [[]| | | | | | | | |]; unfold is_select_work; simpl; congruence.
Qed.

Lemma set_cells_nonempty (name : string) (rows : list Py.dict) (cells : list Py.value) :
  rows <> [] -> set_cells name rows cells <> [].
Proof. destruct rows, cells; simpl; congruence. Qed.

Lemma load_from_database_spec (days : Z) (d : DataHandler) (w : World) :
  let '(from_db, d1, w1) := load_from_database pandas days d w in
  data_config d1 = data_config d /\
  match from_db with
  | Some df => df_rows df <> [] /\ Store.has_handler d && save_to_db (data_config d) = true
  | None => True
  end /\
  exists evs,
    extends w w1 evs /\ forallb is_select_work evs = true /\
    (if Store.has_handler d && save_to_db (data_config d) then True
     else evs = [] /\ d1 = d).
Proof.
  unfold load_from_database, on_handler, Store.has_handler. unfold bind at 1. unfold get.
  destruct (mysql_handler d) as [h|] eqn:Hh.
  - destruct (save_to_db (data_config d)) eqn:Hdb.
    + unfold bind. rewrite Hh.
      destruct (get_recent_trades_select None (days * 24) h w) as [evs [X P]].
      destruct (MySQL.get_recent_trades None (days * 24) h w) as [[recent h'] w1].
      simpl in X. cbv beta iota zeta.
      assert (Hex : exists evs0, extends w w1 evs0 /\ forallb is_select_work evs0 = true /\ True)
        by (exists evs; auto).
      destruct recent as [|row recent]; [unfold ret; simpl; auto|].
      destruct (has_column (DataFrame_of_records (row :: recent)) "trade_time").
      * destruct (bind_result (column (DataFrame_of_records (row :: recent)) "trade_time")
                    (to_datetime pandas)) as [times|msg];
          unfold ret; simpl; auto.
        repeat split; auto. destruct times; discriminate.
      * unfold ret. simpl. repeat split; auto. discriminate.
    + unfold ret. simpl. repeat split; auto. exists []. auto using extends_refl.
  - unfold ret. simpl. repeat split; auto. exists []. auto using extends_refl.
Qed.


Lemma load_historical_data_reads (days : Z) (d : DataHandler) (w : World) :
  let '(_, d', w') := load_historical_data pandas days d w in
  data_config d' = data_config d /\
  exists evs, extends w w' (Call m_load_historical_data :: evs) /\
              forallb is_reading evs = true.
Proof.
  unfold load_historical_data, call, emit. unfold bind at 1 2. cbv beta iota zeta.
  set (w0 := logged (Call m_load_historical_data) w).
  assert (X0 : extends w w0 [Call m_load_historical_data]) by apply extends_logged.
  pose proof (load_from_database_spec days d w0) as Hdb.
  destruct (load_from_database pandas days d w0) as [[from_db d1] w1].
  destruct Hdb as (Hcfg & _ & evs & X & P & _).
  destruct (select_work_counts evs P) as (Pr & _).
  destruct from_db as [rows|].
  - unfold ret. split; [exact Hcfg|]. exists evs. split; [|exact Pr].
    exact (extends_trans _ _ _ _ _ X0 X).
  - destruct (load_from_csv_confined days d1 w1) as [rest [X2 P2]].
    pose proof (load_from_csv_state days d1 w1) as Hst.
    destruct (load_from_csv pandas days d1 w1) as [[df d'] w']. simpl in X2, Hst.
    destruct (csv_read_counts rest P2) as (Qr & _). subst d'.
    split; [exact Hcfg|]. exists (evs ++ rest). split.
    + exact (extends_trans _ _ _ _ _ X0 (extends_trans _ _ _ _ _ X X2)).
    + rewrite forallb_app, Pr, Qr. reflexivity.
Qed.

(** X21. [get_statistics] only reads: apart from method entries it may
    connect, ping, select the recent trades and read the CSV file, and it
    writes neither to the file nor to a table.  It never raises: its
    result carries the number of rows of the loaded table under
    [total_trades] when every aggregation succeeds, and the message of
    the exception under [error] otherwise, never both; a table with
    rows but without the column [stock_code] gives the [KeyError] of
    that name. *)
Theorem get_statistics_reads_only (d : DataHandler) (w : World) :
  let '(df, _, _) := load_historical_data pandas 7 d (logged (Call m_get_statistics) w) in
  let '(stats, d', w') := get_statistics pandas d w in
  data_config d' = data_config d /\
  forallb is_reading (since w w') = true /\
  count is_csv_write (since w w') = 0%nat /\
  count is_statement (since w w') = count is_execute (since w w') /\
  match Py.lookup "total_trades" stats, Py.lookup "error" stats with
  | Some n, None =>
      n = Py.PInt (if empty df then 0 else Z.of_nat (List.length (df_rows df)))
  | None, Some msg => empty df = false /\ summary pandas df = Py.Raise
                        match msg with Py.PStr m => m | _ => "" end
  | _, _ => False
  end /\
  (if empty df || has_column df "stock_code" then True
   else stats = [("error", Py.PStr "'stock_code'")]).
Proof.
  rewrite get_statistics_cases.
  set (w0 := logged (Call m_get_statistics) w).
  assert (X0 : extends w w0 [Call m_get_statistics]) by apply extends_logged.
  pose proof (load_historical_data_reads 7 d w0) as Hload.
  destruct (load_historical_data pandas 7 d w0) as [[df d1] w1].
  destruct Hload as (Hcfg & evs & X & P).
  pose proof (extends_trans _ _ _ _ _ X0 X) as X1.
  assert (Hr : forallb is_reading ([Call m_get_statistics] ++
                 Call m_load_historical_data :: evs) = true) by (simpl; exact P).
  assert (Hw : count is_csv_write ([Call m_get_statistics] ++
                 Call m_load_historical_data :: evs) = 0%nat).
  { apply (count_none is_reading); [|exact Hr].
    intros [[]| | | |[]| | | | |]; simpl; congruence. }
  assert (Hs : count is_statement ([Call m_get_statistics] ++
                 Call m_load_historical_data :: evs) =
               count is_execute ([Call m_get_statistics] ++
                 Call m_load_historical_data :: evs)).
  { unfold count. f_equal. apply filter_ext_in. intros e He.
    rewrite forallb_forall in Hr. specialize (Hr e He).
    destruct e as [[]| | | |[]| | | | |]; simpl in *; congruence. }
  assert (Hsum : forall msg, summary pandas df = Py.Raise msg ->
            has_column df "stock_code" = false -> msg = "'stock_code'").
  { intros msg Hsum Hcol. unfold summary, column in Hsum. rewrite Hcol in Hsum.
    simpl in Hsum. congruence. }
  destruct (empty df) eqn:He.
  - rewrite (since_extends _ _ _ X1). simpl. repeat split; auto.
  - destruct (summary pandas df) as [stats|msg] eqn:Hsm.
    + rewrite (since_extends _ _ _ X1). repeat split; auto.
      * rewrite (summary_total_trades pandas df stats Hsm).
        assert (Herr : Py.lookup "error" stats = None).
        { clear - Hsm. unfold summary, bind_result in Hsm.
          repeat match type of Hsm with
                 | context [match ?r with Py.Return _ => _ | Py.Raise _ => _ end] =>
                     destruct r; try discriminate
                 end.
          inversion Hsm. reflexivity. }
        rewrite Herr. reflexivity.
      * simpl. destruct (has_column df "stock_code") eqn:Hcol; [exact I|].
        unfold summary, column in Hsm. rewrite Hcol in Hsm. discriminate.
    + rewrite (since_extends _ _ _ X1). simpl. repeat split; auto.
      destruct (has_column df "stock_code") eqn:Hcol; [exact I|].
      rewrite (Hsum msg eq_refl eq_refl). reflexivity.
Qed.

End WithPandas.

End MoreStore.

(** ** The other statements of the handler *)

Section MoreHandler.
Import Env Events MySQL.

(** What an insert leaves behind, seen from a world [w] the insert
    started [before] events after. *)
Lemma insert_statements sql params (h : MySQLHandler) (w w0 : World)
    (before : list event) :
  extends w w0 before -> statements before = [] ->
  let '(ok, _, w1) := _ensure_connection h (logged (Call m_execute_insert) w0) in
  let '(b, h', w') := execute_insert sql params h w0 in
  (b, statements (since w w')) =
    (if ok
     then Handler.insert_protocol (autocommit_on h) (oracle w) (tick w1)
            (NetExecute sql params)
     else (false, [])) /\
  config h' = config h.
Proof.
  intros X0 Hq.
  destruct (execute_insert_confined sql params h w0) as [evs [X P]].
  pose proof (insert_outcome m_execute_insert (NetExecute sql params) h w0
                (fun _ => eq_refl)) as H.
  rewrite execute_insert_cases in X |- *.
  assert (Ho : oracle w0 = oracle w) by (destruct X0 as (_ & Ho & _); exact Ho).
  destruct (_ensure_connection h (logged (Call m_execute_insert) w0)) as [[[|] h1] w1].
  - destruct H as (_ & _ & H).
    destruct (Handler.send_and_settle (NetExecute sql params) h1 w1) as [[b h'] w'].
    simpl in X. destruct (H eq_refl) as [Hst Hcfg].
    rewrite (since_extends _ _ _ X) in Hst.
    rewrite (since_extends _ _ _ (extends_trans _ _ _ _ _ X0 X)).
    unfold statements in *. rewrite filter_app, Hq, <- Ho. simpl. auto.
  - destruct H as (H & _). simpl in X. destruct (H eq_refl) as [Hst Hcfg].
    rewrite (since_extends _ _ _ X) in Hst.
    rewrite (since_extends _ _ _ (extends_trans _ _ _ _ _ X0 X)).
    unfold statements in *. rewrite filter_app, Hq. simpl. auto.
Qed.

(** X24. [save_stock_price] and [save_push_record] read the clock once,
    for the record time or push time of a record that has none, and then
    are one insert each: their own statement with their own parameters,
    settled by the protocol of [execute_insert], and [False] with nothing
    sent when no connection can be had. *)
Theorem save_price_and_push_protocol (record : Py.dict) (h : MySQLHandler) (w : World) :
  let t := clock (oracle w) (tick w) in
  let '(ok, _, w1) := _ensure_connection h (logged (Call m_execute_insert) (answered w)) in
  let expected sql params :=
    if ok
    then Handler.insert_protocol (autocommit_on h) (oracle w) (tick w1)
           (NetExecute sql params)
    else (false, []) in
  (let '(b, h', w') := Handler.save_stock_price record h w in
   (b, statements (since w w')) =
     expected Handler.sql_upsert_stock_price (Handler.stock_price_params record t) /\
   config h' = config h) /\
  (let '(b, h', w') := Handler.save_push_record record h w in
   (b, statements (since w w')) =
     expected Handler.sql_insert_push_record (Handler.push_record_params record t) /\
   config h' = config h).
Proof.
  cbv zeta.
  pose proof (insert_statements Handler.sql_upsert_stock_price
                (Handler.stock_price_params record (clock (oracle w) (tick w)))
                h w (answered w) [] (extends_answered w) eq_refl) as H1.
  pose proof (insert_statements Handler.sql_insert_push_record
                (Handler.push_record_params record (clock (oracle w) (tick w)))
                h w (answered w) [] (extends_answered w) eq_refl) as H2.
  unfold Handler.save_stock_price, Handler.save_push_record, now, ask.
  unfold bind at 1 2. cbv beta iota zeta.
  destruct (_ensure_connection h (logged (Call m_execute_insert) (answered w)))
    as [[ok h1] w1].
  split; [exact H1 | exact H2].
Qed.

(** X25. The two daily-summary methods take the date they are given, and
    today's date, read from the clock, when the date is missing or the
    empty string, which they do not tell apart.  [get_daily_summary] always
    returns a list: the rows the server answered to its one select, with
    the date as the only parameter, and the empty list when no connection
    could be had or the select failed.  [update_daily_summary] is one
    insert with the date as its only parameter, settled by the protocol of
    [execute_insert]. *)
Theorem daily_summary_date (date : option string) (h : MySQLHandler) (w : World) :
  let today := Py.PTimeText "%Y-%m-%d" (clock (oracle w) (tick w)) in
  let day := match date with
             | Some (String c rest) => Py.PStr (String c rest)
             | _ => today
             end in
  let w0 := match date with Some (String _ _) => w | _ => answered w end in
  Handler.get_daily_summary (Some "") h w = Handler.get_daily_summary None h w /\
  Handler.update_daily_summary (Some "") h w = Handler.update_daily_summary None h w /\
  (let '(ok, _, w1) := _ensure_connection h (logged (Call m_execute_query) w0) in
   let '(rows, h', w') := Handler.get_daily_summary date h w in
   rows = (if ok then
             match exec_answer (oracle w1) (tick w1) with
             | Rows answered => answered
             | ExecFailed _ => []
             end
           else []) /\
   statements (since w w') =
     (if ok then
        [NetExecute Handler.sql_daily_summary [day]
           match exec_answer (oracle w1) (tick w1) with
           | Rows _ => true
           | ExecFailed _ => false
           end]
      else [])) /\
  (let '(ok, _, w1) := _ensure_connection h (logged (Call m_execute_insert) w0) in
   let '(b, h', w') := Handler.update_daily_summary date h w in
   (b, statements (since w w')) =
     (if ok
      then Handler.insert_protocol (autocommit_on h) (oracle w) (tick w1)
             (NetExecute Handler.sql_update_daily_summary [day])
      else (false, [])) /\
   config h' = config h).
Proof.
  cbv zeta. split; [reflexivity|]. split; [reflexivity|].
  set (w0 := match date with Some (String _ _) => w | _ => answered w end).
  set (day := match date with
              | Some (String c rest) => Py.PStr (String c rest)
              | _ => Py.PTimeText "%Y-%m-%d" (clock (oracle w) (tick w))
              end).
  assert (X0 : extends w w0 []).
  { unfold w0. destruct date as [[|c rest]|];
      [apply extends_answered | apply extends_refl | apply extends_answered]. }
  assert (Hget : Handler.get_daily_summary date h w =
            let '(r, h', w') := execute_query Handler.sql_daily_summary [day] h w0 in
            (match r with Some rows => rows | None => [] end, h', w')).
  { unfold Handler.get_daily_summary, Handler.date_or_today, w0, day, now, ask.
    destruct date as [[|c rest]|]; unfold bind, ret; cbv beta iota zeta;
      match goal with |- context [execute_query ?s ?p ?hh ?ww] =>
        destruct (execute_query s p hh ww) as [[[rows|] h'] w'] end; reflexivity. }
  assert (Hupd : Handler.update_daily_summary date h w =
            execute_insert Handler.sql_update_daily_summary [day] h w0).
  { unfold Handler.update_daily_summary, Handler.date_or_today, w0, day, now, ask.
    destruct date as [[|c rest]|]; reflexivity. }
  rewrite Hget, Hupd. clear Hget Hupd. split.
  - pose proof (query_answered Handler.sql_daily_summary [day] h w w0 [] X0 eq_refl) as H.
    destruct (_ensure_connection h (logged (Call m_execute_query) w0)) as [[ok h1] w1].
    destruct (execute_query Handler.sql_daily_summary [day] h w0) as [[r h'] w'].
    destruct H as (Hr & Hst & _). subst r. split; [|exact Hst].
    destruct ok; [|reflexivity].
    destruct (exec_answer (oracle w1) (tick w1)); reflexivity.
  - exact (insert_statements Handler.sql_update_daily_summary [day] h w w0 []
             X0 eq_refl).
Qed.

End MoreHandler.

(** ** manage_db.py *)

Section MoreManage.
Import Env Events MySQL Manage.

(** [connect] on a handler that was just built. *)
Lemma connect_fresh (cfg : Config) (w : World) :
  let '(ok, h', w') := connect (init cfg) w in
  ok = connect_ok (oracle w) (tick w) /\
  connected h' = ok /\ config h' = cfg /\ holds h' = ok /\
  extends w w' [Call m_connect; NetConnect ok] /\
  (tick w < tick w')%nat.
Proof.
  unfold connect, init, connected, holds, set_connection, set_last_ping_time. unfold_prog.
  simpl. destruct (connect_ok (oracle w) (tick w)); simpl;
    repeat split; simpl; try discriminate; try lia; rewrite <- ?app_assoc; reflexivity.
Qed.

Lemma disconnect_spec (h : MySQLHandler) (w : World) :
  let '(_, h', w') := disconnect h w in
  config h' = config h /\
  holds h' = holds h && negb (close_ok (oracle w) (tick w)) /\
  extends w w'
    (Call m_disconnect ::
     if holds h then [NetClose (close_ok (oracle w) (tick w))] else []).
Proof.
  unfold disconnect, set_connection, holds. unfold_prog.
  destruct (connection h) eqn:Hc; simpl.
  - destruct (close_ok (oracle w) (tick w)); simpl; rewrite ?Hc;
      repeat split; simpl; try lia; rewrite <- ?app_assoc; reflexivity.
  - rewrite Hc. repeat split; simpl; lia.
Qed.

(** What the release of a handler adds to the trace. *)
Lemma drop_spec (held : option MySQLHandler) (w : World) :
  let '(_, _, w') := drop held tt w in
  extends w w'
    match held with
    | Some h =>
        Call m_disconnect ::
        if holds h then [NetClose (close_ok (oracle w) (tick w))] else []
    | None => []
    end.
Proof.
  destruct held as [h|]; simpl.
  - unfold Handler.__del__. pose proof (disconnect_spec h w) as H.
    destruct (disconnect h w) as [[u h'] w']. destruct H as (_ & _ & X). exact X.
  - apply extends_refl.
Qed.

Lemma Forall_joined (Q : event -> Prop) (l1 l2 : list event) :
  Forall Q l1 -> Forall Q l2 -> Forall Q (l1 ++ l2).
Proof. intros H1 H2. apply Forall_app. split; assumption. Qed.

(** The events of a release: a call of [disconnect] and at most one
    close, exactly one when the handler holds a connection object. *)
Lemma drop_events (held : option MySQLHandler) (w : World) :
  let '(_, _, w') := drop held tt w in
  exists evs,
    extends w w' evs /\
    count is_close evs = (if has_connection held then 1 else 0)%nat /\
    (count is_failed_close evs <= count is_close evs)%nat /\
    count is_statement evs = 0%nat /\ count is_execute evs = 0%nat /\
    count is_refused evs = 0%nat /\ count is_connected_event evs = 0%nat /\
    forall Q : event -> Prop,
      (forall e, is_statement e = false -> Q e) -> Forall Q evs.
Proof.
  pose proof (drop_spec held w) as X.
  destruct (drop held tt w) as [[u s] w'].
  eexists. split; [exact X|].
  destruct held as [h|]; simpl; [destruct (holds h)|];
    try destruct (close_ok (oracle w) (tick w));
    unfold count; simpl; repeat split; try lia;
    intros Q HQ; repeat constructor; apply HQ; reflexivity.
Qed.

Section Script.
Variable make_config : Py.result Config.

Lemma wait_loop_step (fuel : nat) (start_time max_wait_time : Z)
    (held : option MySQLHandler) (w : World) :
  wait_loop make_config (S fuel) start_time max_wait_time held tt w =
    if clock (oracle w) (tick w) - start_time <? max_wait_time then
      match new_handler make_config with
      | Py.Return h =>
          let '(_, _, w0) := drop held tt (answered w) in
          let '(ok, h', w1) := connect h w0 in
          if ok then
            let '(_, h2, w2) := disconnect h' w1 in
            let '(_, _, w3) := drop (Some h2) tt w2 in
            (Some true, tt, w3)
          else wait_loop make_config fuel start_time max_wait_time (Some h') tt w1
      | Py.Raise _ =>
          wait_loop make_config fuel start_time max_wait_time held tt (answered w)
      end
    else let '(_, _, w0) := drop held tt (answered w) in (Some false, tt, w0).
Proof.
  cbn [wait_loop]. unfold now, ask, on. unfold bind at 1. cbv beta iota zeta.
  destruct (clock (oracle w) (tick w) - start_time <? max_wait_time).
  - destruct (new_handler make_config) as [h|msg]; [|reflexivity].
    unfold bind at 1. destruct (drop held tt (answered w)) as [[[] []] w0].
    unfold bind at 1. destruct (connect h w0) as [[[|] h'] w1]; cbn [fst snd].
    + unfold bind at 1. destruct (disconnect h' w1) as [[[] h2] w2]. cbn [fst snd].
      unfold bind, ret. destruct (drop (Some h2) tt w2) as [[[] []] w3]. reflexivity.
    + reflexivity.
  - unfold bind, ret. destruct (drop held tt (answered w)) as [[[] []] w0]. reflexivity.
Qed.

Lemma wait_loop_events (fuel : nat) (start_time max_wait_time : Z) :
  forall (held : option MySQLHandler) (w : World),
  has_connection held = false ->
  let '(r, _, w') := wait_loop make_config fuel start_time max_wait_time held tt w in
  exists evs,
    extends w w' evs /\
    count is_statement evs = 0%nat /\
    count is_connected_event evs =
      match r with Some true => 1%nat | _ => 0%nat end /\
    count is_close evs =
      (count is_connected_event evs + Nat.min 1 (count is_failed_close evs))%nat.
Proof.
  induction fuel as [|fuel IH]; intros held w Hidle.
  - simpl. exists []. repeat split; auto using extends_refl; apply extends_refl.
  - rewrite wait_loop_step.
    pose proof (drop_events held (answered w)) as Hd. rewrite Hidle in Hd.
    destruct (clock (oracle w) (tick w) - start_time <? max_wait_time).
    + unfold new_handler. destruct make_config as [cfg|msg].
      * destruct (drop held tt (answered w)) as [[u0 s0] w0].
        destruct Hd as (e0 & Y0 & C0 & F0 & S0 & _ & _ & N0 & _).
        pose proof (extends_trans _ _ _ _ _ (extends_answered w) Y0) as X0.
        assert (F0' : count is_failed_close e0 = 0%nat) by lia.
        pose proof (connect_fresh cfg w0) as Hc.
        destruct (connect (init cfg) w0) as [[ok h'] w1].
        destruct Hc as (Hok & _ & _ & Hholds & X1 & _).
        pose proof (extends_trans _ _ _ _ _ X0 X1) as X.
        destruct ok.
        -- pose proof (disconnect_spec h' w1) as Hdis.
           destruct (disconnect h' w1) as [[u h2] w2].
           destruct Hdis as (_ & Hh2 & X2). rewrite Hholds in Hh2, X2.
           pose proof (drop_spec (Some h2) w2) as X3.
           destruct (drop (Some h2) tt w2) as [[u3 s3] w3].
           rewrite Hh2 in X3. cbn [andb] in X3.
           eexists.
           split; [exact (extends_trans _ _ _ _ _ (extends_trans _ _ _ _ _ X X2) X3)|].
           rewrite !count_app, S0, C0, N0, F0'.
           destruct (close_ok (oracle w1) (tick w1)); cbn [negb];
             try destruct (close_ok (oracle w2) (tick w2));
             unfold count; simpl; repeat split.
        -- assert (Hidle' : has_connection (Some h') = false) by exact Hholds.
           specialize (IH (Some h') w1 Hidle').
           destruct (wait_loop (Py.Return cfg) fuel start_time max_wait_time (Some h')
                       tt w1) as [[r u] w'].
           destruct IH as (evs & X2 & H1 & H2 & H3).
           eexists. split; [exact (extends_trans _ _ _ _ _ X X2)|].
           rewrite !count_app, S0, C0, N0, F0'.
           unfold count in *. simpl. auto.
      * specialize (IH held (answered w) Hidle).
        destruct (wait_loop (Py.Raise msg) fuel start_time max_wait_time held tt
                    (answered w)) as [[r u] w'].
        destruct IH as (evs & X2 & H1 & H2 & H3).
        exists evs. split; [exact (extends_trans _ _ _ _ _ (extends_answered w) X2)|].
        auto.
    + destruct (drop held tt (answered w)) as [[u0 s0] w0].
      destruct Hd as (e0 & Y0 & C0 & F0 & S0 & _ & _ & N0 & _).
      exists e0. split; [exact (extends_trans _ _ _ _ _ (extends_answered w) Y0)|].
      rewrite S0, C0, N0. assert (count is_failed_close e0 = 0%nat) as -> by lia.
      auto.
Qed.

(** X26. [_wait_for_mysql_ready] sends no statement, and closes every
    connection it makes: it returns [True] after the one connection that
    succeeded, and [False], or runs on, after none, and there is one call
    of [close] for each connection made, and a second one, when the
    handler is released on return, where the first one raised.  When the
    time is already up at the first look at the clock it returns [False]
    without calling the server; when the first connection succeeds it
    returns [True]. *)
Theorem wait_for_mysql_ready_outcome (fuel : nat) (max_wait_time : Z) (w : World) :
  let '(r, _, w') := _wait_for_mysql_ready make_config (S fuel) max_wait_time tt w in
  let o := oracle w in
  let t := tick w in
  count is_close (since w w') =
    (count is_connected_event (since w w') +
     Nat.min 1 (count is_failed_close (since w w')))%nat /\
  count is_statement (since w w') = 0%nat /\
  count is_connected_event (since w w') =
    match r with Some true => 1%nat | _ => 0%nat end /\
  (if clock o (S t) - clock o t <? max_wait_time
   then if constructs make_config && connect_ok o (S (S t)) then r = Some true else True
   else r = Some false /\ since w w' = []).
Proof.
  unfold _wait_for_mysql_ready, now, ask. unfold bind at 1. cbv beta iota zeta.
  pose proof (wait_loop_events (S fuel) (clock (oracle w) (tick w)) max_wait_time
                None (answered w) eq_refl) as H.
  pose proof (wait_loop_step fuel (clock (oracle w) (tick w)) max_wait_time
                None (answered w)) as Hstep.
  change (oracle (answered w)) with (oracle w) in Hstep.
  change (tick (answered w)) with (S (tick w)) in Hstep.
  change (drop None tt (answered (answered w)))
    with (tt, tt, answered (answered w)) in Hstep.
  cbv beta iota zeta in Hstep.
  destruct (wait_loop make_config (S fuel) (clock (oracle w) (tick w)) max_wait_time
              None tt (answered w)) as [[r u] w'].
  destruct H as (evs & X & H2 & H3 & H1).
  pose proof (extends_trans _ _ _ _ _ (extends_answered w) X) as X0.
  rewrite (since_extends _ _ _ X0). simpl app.
  split; [exact H1|]. split; [exact H2|]. split; [exact H3|].
  destruct (clock (oracle w) (S (tick w)) - clock (oracle w) (tick w) <? max_wait_time).
  - unfold constructs, new_handler in *. destruct make_config as [cfg|msg]; [|exact I].
    simpl andb.
    pose proof (connect_fresh cfg (answered (answered w))) as Hc.
    destruct (connect (init cfg) (answered (answered w))) as [[ok h'] w1].
    destruct Hc as (Hok & _). simpl in Hok. rewrite <- Hok.
    destruct ok; [|exact I].
    destruct (disconnect h' w1) as [[u1 h2] w2].
    destruct (drop (Some h2) tt w2) as [[u3 s3] w3]. congruence.
  - inversion Hstep; subst.
    pose proof (extends_unique _ _ _ _ X (extends_answered _)) as Hu.
    subst evs. auto.
Qed.





(** *** Queries and inserts of the script *)

Lemma connect_keeps (h : MySQLHandler) (w : World) :
  let '(_, h', w') := connect h w in
  exists evs,
    extends w w' evs /\
    (holds h = true -> count is_refused evs = 0%nat -> holds h' = true).
Proof.
  destruct (connected h) eqn:Hc.
  - rewrite (connect_when_open h w Hc). exists [Call m_connect].
    split; [apply extends_logged | auto].
  - rewrite (connect_when_closed h w Hc). destruct (connect_ok (oracle w) (tick w)).
    + eexists. split; [extend|]. intros; reflexivity.
    + eexists. split; [extend|]. intros _ H. unfold count in H. simpl in H. discriminate.
Qed.

Lemma ensure_keeps (h : MySQLHandler) (w : World) :
  let '(_, h', w') := _ensure_connection h w in
  exists evs,
    extends w w' evs /\
    (holds h = true -> count is_refused evs = 0%nat -> holds h' = true).
Proof.
  rewrite ensure_connection_cases. cbv zeta.
  destruct (ping_due h w).
  - destruct (ping_result (oracle w) (S (tick w))) as [|b].
    + eexists. split; [extend|]. intros Hh _. exact Hh.
    + match goal with |- context [connect ?hb ?wb] =>
        pose proof (connect_keeps hb wb) as H;
        destruct (connect hb wb) as [[ok h'] w']
      end.
      destruct H as (ec & Xc & K).
      eexists. split; [eapply extends_trans; [ | exact Xc]; extend|].
      intros _ Hcount. apply K; [reflexivity|].
      rewrite !count_app in Hcount. lia.
  - destruct (connected h).
    + eexists. split; [extend|]. auto.
    + match goal with |- context [connect h ?wb] =>
        pose proof (connect_keeps h wb) as H;
        destruct (connect h wb) as [[ok h'] w']
      end.
      destruct H as (ec & Xc & K).
      eexists. split; [eapply extends_trans; [ | exact Xc]; extend|].
      intros Hh Hcount. apply K; [exact Hh|].
      rewrite !count_app in Hcount. lia.
Qed.

Lemma with_open_holds (b : bool) (h : MySQLHandler) :
  holds (Handler.with_open b h) = holds h.
Proof.
  unfold holds, Handler.with_open.
  destruct (connection h) eqn:E; simpl; rewrite ?E; reflexivity.
Qed.

Lemma query_keeps sql params (h : MySQLHandler) (w : World) :
  let '(_, h', w') := execute_query sql params h w in
  holds h = true -> count is_refused (since w w') = 0%nat -> holds h' = true.
Proof.
  rewrite execute_query_cases.
  pose proof (ensure_keeps h (logged (Call m_execute_query) w)) as H.
  destruct (_ensure_connection h (logged (Call m_execute_query) w)) as [[ok h1] w1].
  destruct H as (e1 & X1 & K).
  pose proof (extends_trans _ _ _ _ _ (extends_logged (Call m_execute_query) w) X1) as X.
  assert (Hk : holds h = true ->
               count is_refused ([Call m_execute_query] ++ e1) = 0%nat -> holds h1 = true).
  { intros Hh Hc. apply K; [exact Hh|]. rewrite count_app in Hc. lia. }
  destruct ok.
  - destruct (exec_answer (oracle w1) (tick w1)) as [rows|b]; intros Hh Hc;
      erewrite (since_tail _ _ _ _ _ X) in Hc
        by (unfold logged, answered; simpl; reflexivity);
      rewrite count_app in Hc; rewrite ?with_open_holds; apply Hk; auto; lia.
  - intros Hh Hc. rewrite (since_extends _ _ _ X) in Hc. auto.
Qed.

Lemma send_and_settle_keeps (sent : bool -> event) (h1 : MySQLHandler) (w1 : World) :
  (forall b, is_refused (sent b) = false) ->
  let '(_, h', w') := Handler.send_and_settle sent h1 w1 in
  holds h' = holds h1 /\
  exists rest, trace w' = trace w1 ++ rest /\ count is_refused rest = 0%nat.
Proof.
  intros Hsent.
  assert (Pset : forall so, preserves (fun x => holds x = holds h1) (set_open so)).
  { intros so s w Hs. rewrite set_open_eq. simpl. rewrite with_open_holds. exact Hs. }
  assert (P : preserves (fun x => holds x = holds h1) (Handler.send_and_settle sent)).
  { unfold Handler.send_and_settle, commit_if_needed, rollback_and_fail.
    repeat first
      [ apply Pset | apply preserves_ret | apply preserves_get | apply preserves_ask
      | apply preserves_emit | apply preserves_bind; [ | intros ? ]
      | match goal with
        | |- preserves _ (if ?b then _ else _) => destruct b
        | |- preserves _ (match ?x with _ => _ end) => destruct x
        end ]. }
  assert (C : confined (fun e => negb (is_refused e)) (Handler.send_and_settle sent)).
  { unfold Handler.send_and_settle, commit_if_needed, rollback_and_fail, set_open,
      set_connection.
    repeat first
      [ apply confined_ret | apply confined_get | apply confined_put | apply confined_ask
      | apply confined_emit; first [ reflexivity | rewrite Hsent; reflexivity ]
      | apply confined_bind; [ | intros ? ]
      | match goal with
        | |- confined _ (if ?b then _ else _) => destruct b
        | |- confined _ (match ?x with _ => _ end) => destruct x
        end ]. }
  specialize (P h1 w1 eq_refl). destruct (C h1 w1) as [rest [X Pr]].
  destruct (Handler.send_and_settle sent h1 w1) as [[b h'] w']. simpl in P, X.
  split; [exact P|]. exists rest. split; [destruct X as (Ht & _); exact Ht|].
  apply (count_none (fun e => negb (is_refused e))); [|exact Pr].
  intros e He. destruct (is_refused e); [discriminate | reflexivity].
Qed.

Lemma insert_keeps sql params (h : MySQLHandler) (w : World) :
  let '(_, h', w') := execute_insert sql params h w in
  holds h = true -> count is_refused (since w w') = 0%nat -> holds h' = true.
Proof.
  rewrite execute_insert_cases.
  pose proof (ensure_keeps h (logged (Call m_execute_insert) w)) as H.
  destruct (_ensure_connection h (logged (Call m_execute_insert) w)) as [[ok h1] w1].
  destruct H as (e1 & X1 & K).
  pose proof (extends_trans _ _ _ _ _ (extends_logged (Call m_execute_insert) w) X1) as X.
  assert (Hk : holds h = true ->
               count is_refused ([Call m_execute_insert] ++ e1) = 0%nat -> holds h1 = true).
  { intros Hh Hc. apply K; [exact Hh|]. rewrite count_app in Hc. lia. }
  destruct ok.
  - pose proof (send_and_settle_keeps (NetExecute sql params) h1 w1 (fun _ => eq_refl))
      as Hs.
    destruct (Handler.send_and_settle (NetExecute sql params) h1 w1) as [[b h'] w'].
    destruct Hs as (Hh' & rest & Ht & _). intros Hh Hc.
    rewrite (since_tail _ _ _ _ _ X Ht) in Hc. rewrite count_app in Hc.
    rewrite Hh'. apply Hk; auto; lia.
  - intros Hh Hc. rewrite (since_extends _ _ _ X) in Hc. auto.
Qed.

Lemma Forall_statements (Q : event -> Prop) (evs : list event) :
  (forall e, is_statement e = false -> Q e) ->
  Forall Q (statements evs) -> Forall Q evs.
Proof.
  intros Hq. unfold statements. induction evs as [|e evs IH]; simpl; [auto|].
  destruct (is_statement e) eqn:He; intros H.
  - inversion H; subst. constructor; auto.
  - constructor; auto.
Qed.

Lemma handler_work_counts (evs : list event) :
  forallb is_handler_work evs = true ->
  count is_close evs = 0%nat /\ count is_failed_close evs = 0%nat.
Proof.
  intros P. split; apply (count_none is_handler_work); try exact P;
    intros [[]| | | | | | | | |]; simpl; congruence.
Qed.

Lemma query_phase sql (h : MySQLHandler) (w : World) :
  let '(r, h', w') := execute_query sql [] h w in
  exists evs,
    extends w w' evs /\
    count is_close evs = 0%nat /\ count is_failed_close evs = 0%nat /\
    (count is_execute evs <= 1)%nat /\
    count is_statement evs = count is_execute evs /\
    Forall (fun e => match e with
                     | NetExecute s params _ => params = [] /\ s = sql
                     | NetExecuteMany _ _ _ | NetCommit _ | NetRollback _ => False
                     | _ => True
                     end) evs /\
    (holds h = true -> count is_refused evs = 0%nat -> holds h' = true).
Proof.
  pose proof (execute_query_spec sql [] h w) as Hspec.
  pose proof (query_keeps sql [] h w) as Hkeep.
  destruct (_ensure_connection h (logged (Call m_execute_query) w)) as [[ok h1] w1].
  destruct (execute_query_confined sql [] h w) as [evs [X P]].
  destruct (execute_query sql [] h w) as [[r h'] w']. simpl in X.
  destruct Hspec as (Hst & _). rewrite (since_extends _ _ _ X) in Hst, Hkeep.
  destruct (handler_work_counts evs P) as (C & F).
  exists evs. split; [exact X|]. split; [exact C|]. split; [exact F|].
  rewrite (count_statements is_execute), (count_statements is_statement), Hst
    by (intros []; simpl; congruence).
  split; [|split; [|split]].
  - destruct ok; unfold count; simpl; lia.
  - destruct ok; reflexivity.
  - apply Forall_statements.
    + intros []; simpl; congruence || auto.
    + rewrite Hst. destruct ok; repeat constructor.
  - exact Hkeep.
Qed.

Lemma insert_phase sql (h : MySQLHandler) (w : World) :
  let '(_, h', w') := execute_insert sql [] h w in
  exists evs,
    extends w w' evs /\
    count is_close evs = 0%nat /\ count is_failed_close evs = 0%nat /\
    Forall (fun e => match e with
                     | NetExecute s params _ => params = [] /\ s = sql
                     | NetExecuteMany _ _ _ => False
                     | _ => True
                     end) evs /\
    (holds h = true -> count is_refused evs = 0%nat -> holds h' = true).
Proof.
  pose proof (insert_statements sql [] h w w [] (extends_refl w) eq_refl) as Hspec.
  pose proof (insert_keeps sql [] h w) as Hkeep.
  destruct (_ensure_connection h (logged (Call m_execute_insert) w)) as [[ok h1] w1].
  destruct (execute_insert_confined sql [] h w) as [evs [X P]].
  destruct (execute_insert sql [] h w) as [[b h'] w']. simpl in X.
  destruct Hspec as (Hst & _). rewrite (since_extends _ _ _ X) in Hst, Hkeep.
  destruct (handler_work_counts evs P) as (C & F).
  exists evs. split; [exact X|]. split; [exact C|]. split; [exact F|].
  split; [|exact Hkeep].
  apply Forall_statements.
  - intros []; simpl; congruence || auto.
  - destruct ok.
    + unfold Handler.insert_protocol in Hst.
      destruct (exec_answer (oracle w) (tick w1));
        destruct (autocommit_on h);
        try destruct (commit_result (oracle w) (S (tick w1)));
        injection Hst as Hb He; rewrite He; repeat constructor.
    + injection Hst as Hb He. rewrite He. constructor.
Qed.

(** The events of [disconnect]: one close exactly when the handler holds a
    connection object, which it keeps exactly when the close raised. *)
Lemma disconnect_phase (h : MySQLHandler) (w : World) :
  let '(_, h', w') := disconnect h w in
  exists evs,
    extends w w' evs /\
    count is_close evs = (if holds h then 1 else 0)%nat /\
    count is_failed_close evs = (if holds h' then 1 else 0)%nat /\
    (count is_failed_close evs <= count is_close evs)%nat /\
    count is_statement evs = 0%nat /\ count is_execute evs = 0%nat /\
    count is_refused evs = 0%nat /\
    forall Q : event -> Prop,
      (forall e, is_statement e = false -> Q e) -> Forall Q evs.
Proof.
  pose proof (disconnect_spec h w) as H.
  destruct (disconnect h w) as [[u h'] w']. destruct H as (_ & Hh & X).
  eexists. split; [exact X|]. rewrite Hh.
  destruct (holds h); [destruct (close_ok (oracle w) (tick w))|];
    unfold count; simpl; repeat split; try lia;
    intros Q HQ; repeat constructor; apply HQ; reflexivity.
Qed.

Lemma leave_cases {A} (body : prog unit (A * option MySQLHandler)) (w : World) :
  leave body tt w =
    let '(r, _, w1) := body tt w in
    let '(_, _, w') := drop (snd r) tt w1 in
    (fst r, tt, w').
Proof.
  unfold leave. unfold bind at 1. destruct (body tt w) as [[r []] w1].
  unfold bind, ret. destruct (drop (snd r) tt w1) as [[[] []] w']. reflexivity.
Qed.

(** *** Testing the connection *)

Lemma test_body_events (w : World) :
  let '(r, _, w1) := test_database_connection_body make_config tt w in
  exists evs,
    extends w w1 evs /\
    Forall inspects evs /\
    (count is_execute evs <= 2)%nat /\
    count is_statement evs = count is_execute evs /\
    (count is_close evs <= (if fst r then 1 else 0))%nat /\
    (count is_failed_close evs <= count is_close evs)%nat /\
    (if constructs make_config && connect_ok (oracle w) (tick w) then
       count is_refused evs = 0%nat ->
       if fst r
       then count is_close evs = 1%nat /\
            count is_failed_close evs = (if has_connection (snd r) then 1 else 0)%nat
       else has_connection (snd r) = true
     else fst r = false /\ count is_statement evs = 0%nat /\
          count is_close evs = 0%nat /\ has_connection (snd r) = false).
Proof.
  assert (Hq : forall sql evs, sql = sql_version \/ sql = sql_show_tables ->
            Forall (fun e => match e with
                             | NetExecute s params _ => params = [] /\ s = sql
                             | NetExecuteMany _ _ _ | NetCommit _ | NetRollback _ => False
                             | _ => True
                             end) evs -> Forall inspects evs).
  { intros sql evs Hsql. apply Forall_impl. intros []; simpl; auto.
    intros [-> ->]. auto. }
  unfold test_database_connection_body, constructs, new_handler.
  destruct make_config as [cfg|msg].
  2:{ unfold ret. exists []. split; [apply extends_refl|].
      unfold count. simpl. repeat split; auto. }
  unfold on. unfold bind at 1.
  pose proof (connect_fresh cfg w) as Hc.
  destruct (connect (init cfg) w) as [[ok h0] w0].
  destruct Hc as (Hok & _ & _ & Hh0 & X0 & _). rewrite <- Hok. cbn [fst snd andb].
  destruct ok.
  2:{ unfold ret. eexists. split; [exact X0|]. cbn [fst snd has_connection].
      unfold count. simpl. repeat split; auto. repeat constructor. }
  set (pre := [Call m_connect; NetConnect true]) in *.
  assert (F0 : Forall inspects pre) by (repeat constructor).
  assert (Z : count is_execute pre = 0%nat /\ count is_statement pre = 0%nat /\
              count is_close pre = 0%nat /\ count is_failed_close pre = 0%nat /\
              count is_refused pre = 0%nat) by (repeat split).
  destruct Z as (Z1 & Z2 & Z3 & Z4 & Z5).
  unfold bind at 1.
  pose proof (query_phase sql_version h0 w0) as H1.
  destruct (execute_query sql_version [] h0 w0) as [[result h1] w1].
  destruct H1 as (e1 & X1 & C1 & G1 & N1 & S1 & F1 & K1). cbn [fst snd].
  apply (Hq sql_version) in F1; [|auto].
  pose proof (extends_trans _ _ _ _ _ X0 X1) as X01.
  destruct (version_of result).
  2:{ unfold ret. eexists. split; [exact X01|]. cbn [fst snd has_connection].
      rewrite !count_app, Z1, Z2, Z3, Z4, Z5, C1, G1, S1.
      split; [apply Forall_joined; auto|]. repeat split; try lia.
      intros R. apply K1; [exact Hh0 | lia]. }
  unfold bind at 1.
  pose proof (query_phase sql_show_tables h1 w1) as H2.
  destruct (execute_query sql_show_tables [] h1 w1) as [[tables h2] w2].
  destruct H2 as (e2 & X2 & C2 & G2 & N2 & S2 & F2 & K2). cbn [fst snd].
  apply (Hq sql_show_tables) in F2; [|auto].
  pose proof (extends_trans _ _ _ _ _ X01 X2) as X02.
  destruct (table_names match tables with Some rows => rows | None => [] end).
  2:{ unfold ret. eexists. split; [exact X02|]. cbn [fst snd has_connection].
      rewrite !count_app, Z1, Z2, Z3, Z4, Z5, C1, C2, G1, G2, S1, S2.
      split; [repeat apply Forall_joined; auto|]. repeat split; try lia.
      intros R. apply K2; [apply K1; [exact Hh0 | lia] | lia]. }
  unfold bind, ret.
  pose proof (disconnect_phase h2 w2) as H3.
  destruct (disconnect h2 w2) as [[u h3] w3].
  destruct H3 as (e3 & X3 & C3 & G3 & L3 & S3 & E3 & R3 & F3).
  eexists. split; [exact (extends_trans _ _ _ _ _ X02 X3)|]. cbn [fst snd has_connection].
  rewrite !count_app, Z1, Z2, Z3, Z4, Z5, C1, C2, G1, G2, S1, S2, S3, E3, R3.
  split.
  { repeat apply Forall_joined; auto. apply F3. intros []; simpl; congruence || auto. }
  split; [lia|]. split; [lia|].
  split; [rewrite C3; destruct (holds h2); lia|]. split; [lia|].
  intros R.
  assert (holds h2 = true) as Hh2 by (apply K2; [apply K1; [exact Hh0 | lia] | lia]).
  rewrite C3, Hh2, G3. split; reflexivity.
Qed.

(** X28. [test_database_connection] sends nothing but its two queries,
    without parameters, two statements at most, and no commit or rollback.
    The connection it makes is closed on every way out: by [disconnect] on
    the way to [True], and by the destructor of the handler, which the
    local variable releases on return, on the ways to [False], where
    [disconnect] is not called.  When no attempt to connect is refused
    there is exactly one call of [close], and a second one, by the
    destructor, where the call in [disconnect] raised.  When the handler
    cannot be built or the first connection fails it returns [False]
    without a statement and without a close. *)
Theorem test_database_connection_outcome (w : World) :
  let '(r, _, w') := test_database_connection make_config tt w in
  Forall inspects (since w w') /\
  (count is_execute (since w w') <= 2)%nat /\
  count is_statement (since w w') = count is_execute (since w w') /\
  (count is_close (since w w') <= (if r then 2 else 1))%nat /\
  (if constructs make_config && connect_ok (oracle w) (tick w) then
     if (count is_refused (since w w') =? 0)%nat then
       count is_close (since w w') =
         (if r then 1 + Nat.min 1 (count is_failed_close (since w w')) else 1)%nat
     else True
   else r = false /\ count is_statement (since w w') = 0%nat /\
        count is_close (since w w') = 0%nat).
Proof.
  unfold test_database_connection. rewrite leave_cases.
  pose proof (test_body_events w) as Hb.
  destruct (test_database_connection_body make_config tt w) as [[[r held] u] w1].
  cbn [fst snd] in *.
  destruct Hb as (evs & X & F & E & S & C & G & Hcase).
  pose proof (drop_events held w1) as Hd.
  destruct (drop held tt w1) as [[u0 s0] w'].
  destruct Hd as (ed & Xd & Cd & Gd & Sd & Ed & Rd & Nd & Fd).
  rewrite (since_extends _ _ _ (extends_trans _ _ _ _ _ X Xd)).
  rewrite !count_app, Sd, Ed, Rd, Cd.
  split.
  { apply Forall_joined; [exact F|]. apply Fd. intros []; simpl; congruence || auto. }
  split; [lia|]. split; [lia|]. split.
  { destruct r, (has_connection held); lia. }
  destruct (constructs make_config && connect_ok (oracle w) (tick w)).
  - rewrite Nat.add_0_r.
    destruct (Nat.eqb_spec (count is_refused evs) 0) as [R|R]; [|exact I].
    specialize (Hcase R). destruct r.
    + destruct Hcase as (Hc1 & Hf1). rewrite Hc1, Hf1.
      rewrite Cd in Gd. destruct (has_connection held); lia.
    + rewrite Hcase. lia.
  - destruct Hcase as (Hr & Hs & Hc & Hh). rewrite Hh, Hc, Hs. auto.
Qed.

(** *** The health check of the script *)

(** X29. [run_health_check] works on a checker and a handler of its own
    that never connected: it tries to connect exactly once and never
    pings.  It returns [True] exactly when the connection succeeded and
    the probe statement came back with a row.  The connection it made is
    closed as the function returns, whatever the check gave: the checker
    is released, and the destructor of its handler calls [close] once.
    With the database switched off, or when the handler cannot be built,
    it is [False] without a call to the server. *)
Theorem run_health_check_fresh (cfg : DataConfig) (w : World) :
  let '(r, _, w') := run_health_check make_config cfg tt w in
  let o := oracle w in
  let t := tick w in
  if save_to_db cfg && constructs make_config then
    let connected := connect_ok o (2 + t) in
    let answer := exec_answer o (4 + t) in
    r = connected && match answer with Rows (_ :: _) => true | _ => false end /\
    since w w' =
      [Call m_check_health; Call m_health_check; Call m_execute_query;
       Call m_ensure_connection; Call m_connect; NetConnect connected] ++
      (if connected then
         [NetExecute sql_health_check []
            match answer with Rows _ => true | ExecFailed _ => false end;
          Call m_disconnect;
          NetClose (close_ok o (if r then 5 + t else 6 + t))]
       else [Call m_disconnect])
  else r = false /\ since w w' = [Call m_check_health].
Proof.
  unfold run_health_check, constructs, new_handler, Health.init.
  destruct (save_to_db cfg); [destruct make_config as [c|msg]|];
    unfold Monitor.__del__, Health.stop_monitoring, Health.thread_alive, drop,
      Handler.__del__;
    unfold Health.check_health, Health.on_handler, Health.modify, Health.fail_check,
      Health.set_mysql_handler, Health.begin_check, Health.record_success,
      Health.record_failure, init, connected;
    do 3 unfold_mysql; unfold connected; unfold_prog.
  - destruct (clock (oracle w) (S (tick w)) - 0 >? 300); simpl;
      destruct (connect_ok (oracle w) (S (S (tick w)))); simpl;
      try destruct (exec_answer (oracle w) (S (S (S (S (tick w)))))) as [[|row rows]|b];
      simpl;
      try match goal with
          | |- context [close_ok ?o ?t] => destruct (close_ok o t) eqn:Hclose; simpl
          end;
      eval_since; rewrite ?Hclose; repeat split.
  - eval_since. repeat split.
  - eval_since. repeat split.
Qed.

(** *** Resetting *)

Section Reset.
Variable str : Py.value -> string.

Lemma truncate_tables_events (tables : list Py.dict) :
  forall (h : MySQLHandler) (w : World),
  let '(r, _, w') := truncate_tables str tables h tt w in
  exists evs,
    extends w w' evs /\
    count is_close evs = 0%nat /\ count is_failed_close evs = 0%nat /\
    Forall (resets str) evs /\
    (holds h = true -> count is_refused evs = 0%nat -> holds (snd r) = true).
Proof.
  induction tables as [|table rest IH]; intros h w.
  - simpl. unfold ret. exists []. split; [apply extends_refl|]. repeat split; auto.
  - cbn [truncate_tables]. destruct (first_value table) as [name|msg].
    + destruct (is_stock_info name) eqn:Hname; [apply IH|].
      unfold on. unfold bind.
      pose proof (insert_phase (sql_truncate str name) h w) as H1.
      destruct (execute_insert (sql_truncate str name) [] h w) as [[b h1] w1].
      destruct H1 as (e1 & X1 & C1 & G1 & F1 & K1). cbn [snd].
      specialize (IH h1 w1).
      destruct (truncate_tables str rest h1 tt w1) as [[r u] w'].
      destruct IH as (e2 & X2 & C2 & G2 & F2 & K2).
      exists (e1 ++ e2). split; [exact (extends_trans _ _ _ _ _ X1 X2)|].
      rewrite !count_app, C1, C2, G1, G2. split; [reflexivity|]. split; [reflexivity|].
      split.
      * apply Forall_joined; [|exact F2].
        revert F1. apply Forall_impl. intros []; simpl; auto.
        intros [-> ->]. split; [reflexivity|]. right. exists name. auto.
      * intros Hh R. apply K2; [apply K1; [exact Hh | lia] | lia].
    + unfold ret. exists []. split; [apply extends_refl|]. repeat split; auto.
Qed.

Lemma reset_body_events (confirm : string) (w : World) :
  let '(r, _, w1) := reset_database_body make_config str confirm tt w in
  exists evs,
    extends w w1 evs /\
    Forall (resets str) evs /\
    (count is_close evs <= (if fst r then 1 else 0))%nat /\
    (if String.eqb confirm "YES" then True
     else fst r = false /\ w1 = w /\ snd r = None) /\
    (if String.eqb confirm "YES" && constructs make_config &&
        connect_ok (oracle w) (tick w)
     then count is_refused evs = 0%nat ->
          count is_close evs = 1%nat \/ has_connection (snd r) = true
     else fst r = false /\ count is_statement evs = 0%nat /\
          count is_close evs = 0%nat /\ has_connection (snd r) = false).
Proof.
  unfold reset_database_body, constructs, new_handler.
  destruct (String.eqb confirm "YES"); cbn [negb andb].
  2:{ unfold ret. exists []. split; [apply extends_refl|].
      unfold count. simpl. repeat split; auto. }
  destruct make_config as [cfg|msg].
  2:{ unfold ret. exists []. split; [apply extends_refl|].
      unfold count. simpl. repeat split; auto. }
  unfold on. unfold bind at 1.
  pose proof (connect_fresh cfg w) as Hc.
  destruct (connect (init cfg) w) as [[ok h0] w0].
  destruct Hc as (Hok & _ & _ & Hh0 & X0 & _). rewrite <- Hok. cbn [fst snd andb negb].
  destruct ok; cbn [negb].
  2:{ unfold ret. eexists. split; [exact X0|]. cbn [fst snd has_connection].
      unfold count. simpl. repeat split; auto. repeat constructor. }
  set (pre := [Call m_connect; NetConnect true]) in *.
  assert (F0 : Forall (resets str) pre) by (repeat constructor).
  assert (Z : count is_close pre = 0%nat /\ count is_refused pre = 0%nat)
    by (repeat split).
  destruct Z as (Z3 & Z5).
  unfold bind at 1.
  pose proof (query_phase sql_show_tables h0 w0) as H1.
  destruct (execute_query sql_show_tables [] h0 w0) as [[tables h1] w1].
  destruct H1 as (e1 & X1 & C1 & G1 & N1 & S1 & F1 & K1). cbn [fst snd].
  assert (F1' : Forall (resets str) e1).
  { revert F1. apply Forall_impl. intros []; simpl; auto. intros [-> ->]. auto. }
  pose proof (extends_trans _ _ _ _ _ X0 X1) as X01.
  assert (Hshort :
    exists evs,
      extends w w1 evs /\ Forall (resets str) evs /\ (count is_close evs <= 1)%nat /\
      True /\
      (count is_refused evs = 0%nat ->
       count is_close evs = 1%nat \/ has_connection (Some h1) = true)).
  { eexists. split; [exact X01|]. rewrite !count_app, Z3, Z5, C1.
    split; [apply Forall_joined; auto|]. split; [lia|]. split; [exact I|].
    intros R. right. apply K1; [exact Hh0 | lia]. }
  destruct tables as [[|table rest]|]; [exact Hshort | | exact Hshort].
  clear Hshort. unfold bind at 1.
  pose proof (truncate_tables_events (table :: rest) h1 w1) as H2.
  destruct (truncate_tables str (table :: rest) h1 tt w1) as [[[r h2] u] w2].
  destruct H2 as (e2 & X2 & C2 & G2 & F2 & K2). cbn [fst snd] in *.
  pose proof (extends_trans _ _ _ _ _ X01 X2) as X02.
  destruct r as [[]|msg].
  - unfold bind, ret.
    pose proof (disconnect_phase h2 w2) as H3.
    destruct (disconnect h2 w2) as [[u3 h3] w3].
    destruct H3 as (e3 & X3 & C3 & G3 & L3 & S3 & E3 & R3 & F3).
    eexists. split; [exact (extends_trans _ _ _ _ _ X02 X3)|]. cbn [fst snd].
    rewrite !count_app, Z3, Z5, C1, C2, R3.
    split.
    { repeat apply Forall_joined; auto. apply F3. intros []; simpl; congruence || auto. }
    split; [rewrite C3; destruct (holds h2); lia|]. split; [exact I|].
    intros R. left.
    assert (holds h2 = true) as Hh2 by (apply K2; [apply K1; [exact Hh0 | lia] | lia]).
    rewrite C3, Hh2. reflexivity.
  - unfold ret. eexists. split; [exact X02|]. cbn [fst snd].
    rewrite !count_app, Z3, Z5, C1, C2.
    split; [repeat apply Forall_joined; auto|]. split; [lia|]. split; [exact I|].
    intros R. right. apply K2; [apply K1; [exact Hh0 | lia] | lia].
Qed.

(** X30. [reset_database] does nothing at all unless the answer typed in
    is exactly [YES].  The statements it sends are the listing of the
    tables and truncations, all without parameters, and never a batch;
    every truncation is of a table whose name is not [stock_info].  The
    connection it makes is closed on every way out, by [disconnect] after
    the truncations or by the destructor of the handler as the function
    returns: when no attempt to connect is refused [close] is called at
    least once, and it is never called more than twice.  When the handler
    cannot be built or the connection fails it returns [False] without a
    statement and without a close. *)
Theorem reset_database_outcome (confirm : string) (w : World) :
  let '(r, _, w') := reset_database make_config str confirm tt w in
  (if String.eqb confirm "YES" then True else r = false /\ w' = w) /\
  Forall (resets str) (since w w') /\
  (count is_close (since w w') <= (if r then 2 else 1))%nat /\
  (if String.eqb confirm "YES" && constructs make_config &&
      connect_ok (oracle w) (tick w)
   then if (count is_refused (since w w') =? 0)%nat
        then (1 <= count is_close (since w w'))%nat
        else True
   else r = false /\ count is_statement (since w w') = 0%nat /\
        count is_close (since w w') = 0%nat).
Proof.
  unfold reset_database. rewrite leave_cases.
  pose proof (reset_body_events confirm w) as Hb.
  destruct (reset_database_body make_config str confirm tt w) as [[[r held] u] w1].
  cbn [fst snd] in *.
  destruct Hb as (evs & X & F & C & Hyes & Hcase).
  assert (Hno : if String.eqb confirm "YES" then True
                else r = false /\ let '(_, _, w') := drop held tt w1 in w' = w).
  { destruct (String.eqb confirm "YES"); [exact I|].
    destruct Hyes as (Hr & Hw & Hheld). subst held w1. split; [exact Hr | reflexivity]. }
  pose proof (drop_events held w1) as Hd.
  destruct (drop held tt w1) as [[u0 s0] w'].
  destruct Hd as (ed & Xd & Cd & Gd & Sd & Ed & Rd & Nd & Fd).
  split; [exact Hno|]. clear Hno.
  rewrite (since_extends _ _ _ (extends_trans _ _ _ _ _ X Xd)).
  rewrite !count_app, Sd, Rd, Cd.
  split.
  { apply Forall_joined; [exact F|]. apply Fd. intros []; simpl; congruence || auto. }
  split.
  { destruct r, (has_connection held); lia. }
  destruct (String.eqb confirm "YES" && constructs make_config &&
            connect_ok (oracle w) (tick w)).
  - rewrite Nat.add_0_r.
    destruct (Nat.eqb_spec (count is_refused evs) 0) as [R|R]; [|exact I].
    destruct (Hcase R) as [Hc1 | Hh]; [lia | rewrite Hh; lia].
  - destruct Hcase as (Hr & Hst & Hc & Hh). rewrite Hh, Hc, Hst. auto.
Qed.

End Reset.

End Script.

End MoreManage.

Section MoreManageExamples.
Import Env MySQL Manage.


End MoreManageExamples.
